(** * nv_monitor: GPU sampling, anomaly classification and broadcast

    A shallow embedding of the backend of the monitor
    ([src/backend/anomaly_detector.py], [src/backend/monitor.py],
    [src/backend/websocket.py]) and of the receiving side of its dashboard
    ([src/frontend/app.py]), together with the properties of its
    natural-language specification.

    Conventions of the embedding:
    - a Python [dict] with string keys is a [gmap string _]; the device map of
      a snapshot, whose iteration order matters, is an association list in
      insertion order;
    - a Python value stored in a metric dictionary is a [value];
    - a Python [float] is an IEEE 754 double, a [spec_float] of precision 53
      rounded to nearest even; comparisons are those of the numbers the
      operands stand for, integers being compared exactly;
    - [numpy.std] is a function of the list it is given, left unspecified;
    - times ([time.time()], [datetime]) are rationals;
    - a Python [str] is the byte string of its UTF-8 encoding;
    - a Python exception is a constructor of [exn] carried by [Result];
    - methods that mutate [self] are state transformers in the monad [Meth]. *)

From Stdlib Require Import ZArith QArith String Ascii List DecimalString DecimalNat Lia Lqa.
From Stdlib Require Import SpecFloat.
From stdpp Require Import base option list gmap strings.

Local Open Scope string_scope.
Local Open Scope Z_scope.

(** ** Python values, exceptions and results *)

Inductive exn : Type :=
  | KeyError (k : string)
  | TypeError
  | ZeroDivisionError
  | OverflowError
  | AttributeError
  | IndexError
  | ValueError
  | OtherError (msg : string).

Inductive Result (A : Type) : Type :=
  | Ok (a : A)
  | Raise (e : exn).
Arguments Ok {A} a.
Arguments Raise {A} e.

#[global] Instance Result_ret : MRet Result := fun A a => Ok a.
#[global] Instance Result_bind : MBind Result := fun A B f r =>
  match r with
  | Ok a => f a
  | Raise e => Raise e
  end.

Definition returns {A} (r : Result A) : Prop := exists a, r = Ok a.
Definition raises {A} (r : Result A) : Prop := exists e, r = Raise e.

(** *** Floats *)

(** A Python [float]: an IEEE 754 double. *)
Abbreviation float := spec_float.
Definition float_prec : Z := 53.
Definition float_emax : Z := 1024.

(** The double nearest to an integer, ties to even; an infinity beyond the
    range of the doubles. *)
Definition float_of_Z (z : Z) : float :=
  binary_normalize float_prec float_emax z 0 false.

(** An integer as the exact operand of a division. *)
Definition Z_as_float (z : Z) : float :=
  match z with
  | Z0 => S754_zero false
  | Zpos p => S754_finite false p 0
  | Zneg p => S754_finite true p 0
  end.

(** The double nearest to the quotient of two integers, ties to even; an
    infinity beyond the range of the doubles. *)
Definition float_of_ratio (a b : Z) : float :=
  SFdiv float_prec float_emax (Z_as_float a) (Z_as_float b).

(** [a / b] on doubles, the divisor not being zero. *)
Definition float_div (a b : float) : float := SFdiv float_prec float_emax a b.

Definition is_infinite (f : float) : bool :=
  match f with
  | S754_infinity _ => true
  | _ => false
  end.

Definition is_zero (f : float) : bool :=
  match f with
  | S754_zero _ => true
  | _ => false
  end.

(** The number an integer or a float stands for: a rational, an infinity,
    or none. *)
Inductive xnum : Type :=
  | XNaN
  | XInf (negative : bool)
  | XFin (q : Q).

Definition float_num (f : float) : xnum :=
  match f with
  | S754_zero _ => XFin 0
  | S754_infinity s => XInf s
  | S754_nan => XNaN
  | S754_finite s m e =>
    let q := match e with
             | Zneg k => Qmake (Zpos m) (2 ^ k)
             | _ => inject_Z (Zpos m * 2 ^ e)
             end in
    XFin (if s then (- q)%Q else q)
  end.

(** [a < b] and [a <= b] on these numbers; a comparison with a NaN is
    false. *)
Definition xlt (a b : xnum) : bool :=
  match a, b with
  | XNaN, _ | _, XNaN => false
  | XInf true, XInf true => false
  | XInf true, _ => true
  | _, XInf true => false
  | XInf false, _ => false
  | XFin _, XInf false => true
  | XFin p, XFin q => negb (Qle_bool q p)
  end.

Definition xle (a b : xnum) : bool :=
  match a, b with
  | XNaN, _ | _, XNaN => false
  | XInf true, _ => true
  | _, XInf true => false
  | _, XInf false => true
  | XInf false, XFin _ => false
  | XFin p, XFin q => Qle_bool p q
  end.

(** [a >= b] and [a > b] on floats. *)
Definition float_ge (a b : float) : bool := xle (float_num b) (float_num a).
Definition float_gt (a b : float) : bool := xlt (float_num b) (float_num a).

(** *** Values *)

Inductive value : Type :=
  | VNone
  | VBool (b : bool)
  | VInt (z : Z)
  | VFloat (f : float)
  | VStr (s : string).

(** A metric dictionary [Dict[str, Any]]. *)
Abbreviation Sample := (gmap string value).

(** [d[k]] *)
Definition getitem {V} (d : gmap string V) (k : string) : Result V :=
  match d !! k with
  | Some v => Ok v
  | None => Raise (KeyError k)
  end.

(** [k in d] *)
Definition contains {V} (k : string) (d : gmap string V) : bool :=
  bool_decide (is_Some (d !! k)).

(** Truth value of an object in a boolean context. *)
Definition truthy (v : value) : bool :=
  match v with
  | VNone => false
  | VBool b => b
  | VInt z => negb (z =? 0)
  | VFloat f => negb (is_zero f)
  | VStr s => negb (String.eqb s "")
  end.

(** The integer of an [int] or of a [bool], which is a subclass of it. *)
Definition to_int (v : value) : option Z :=
  match v with
  | VBool b => Some (if b then 1 else 0)
  | VInt z => Some z
  | VNone | VFloat _ | VStr _ => None
  end.

(** The number a value stands for in an ordering against a number. *)
Definition to_num (v : value) : option xnum :=
  match v with
  | VBool b => Some (XFin (if b then 1 else 0))
  | VInt z => Some (XFin (inject_Z z))
  | VFloat f => Some (float_num f)
  | VNone | VStr _ => None
  end.

Definition py_num (v : value) : Result xnum :=
  match to_num v with
  | Some x => Ok x
  | None => Raise TypeError
  end.

(** [a >= t], [a > t], [a < t] against a float [t], and [a > n] against an
    integer [n]. *)
Definition py_ge (a : value) (t : float) : Result bool :=
  x ← py_num a; mret (xle (float_num t) x).
Definition py_gt (a : value) (t : float) : Result bool :=
  x ← py_num a; mret (xlt (float_num t) x).
Definition py_lt (a : value) (t : float) : Result bool :=
  x ← py_num a; mret (xlt x (float_num t)).
Definition py_gt_int (a : value) (n : Z) : Result bool :=
  x ← py_num a; mret (xlt (XFin (inject_Z n)) x).

(** [float(z)] for an integer: it raises beyond the range of the doubles. *)
Definition float_of_int (z : Z) : Result float :=
  let f := float_of_Z z in
  if is_infinite f then Raise OverflowError else Ok f.

(** The double of a number that takes part in a float division. *)
Definition py_float (v : value) : Result float :=
  match v with
  | VFloat f => Ok f
  | VInt z => float_of_int z
  | VBool b => Ok (float_of_Z (if b then 1 else 0))
  | VNone | VStr _ => Raise TypeError
  end.

(** [a / b] on two integers: the quotient rounded once. *)
Definition int_truediv (a b : Z) : Result float :=
  if b =? 0 then Raise ZeroDivisionError
  else let q := float_of_ratio a b in
       if is_infinite q then Raise OverflowError else Ok q.

(** [a / b] (true division): between integers the quotient is rounded
    once; otherwise both operands are converted to floats and divided. *)
Definition py_truediv (a b : value) : Result float :=
  match to_num a, to_num b with
  | Some _, Some _ =>
    match to_int a, to_int b with
    | Some x, Some y => int_truediv x y
    | _, _ =>
      x ← py_float a;
      y ← py_float b;
      if is_zero y then Raise ZeroDivisionError else mret (float_div x y)
    end
  | _, _ => Raise TypeError
  end.

(** ** Python strings *)

Definition string_of_Z (z : Z) : string := NilZero.string_of_int (Z.to_int z).
Definition string_of_nat (n : nat) : string := NilZero.string_of_uint (Nat.to_uint n).

Definition byte_in (lo hi : N) (x : N) : bool := ((lo <=? x) && (x <=? hi))%N.

(** Number of bytes of the white-space character (in the sense of
    [str.isspace]) that starts [s]; [0] when [s] does not start with one. *)
Definition space_width (s : string) : nat :=
  match s with
  | EmptyString => 0%nat
  | String a r =>
    let x := N_of_ascii a in
    if byte_in 9 13 x || byte_in 28 32 x then 1%nat else
    match r with
    | EmptyString => 0%nat
    | String b r2 =>
      let y := N_of_ascii b in
      if (x =? 194)%N && ((y =? 133)%N || (y =? 160)%N) then 2%nat else
      match r2 with
      | EmptyString => 0%nat
      | String c _ =>
        let z := N_of_ascii c in
        if ((x =? 225)%N && (y =? 154)%N && (z =? 128)%N)
           || ((x =? 226)%N && (y =? 128)%N
               && (byte_in 128 138 z || byte_in 168 169 z || (z =? 175)%N))
           || ((x =? 226)%N && (y =? 129)%N && (z =? 159)%N)
           || ((x =? 227)%N && (y =? 128)%N && (z =? 128)%N)
        then 3%nat else 0%nat
      end
    end
  end.

(** [s.lstrip()]; [skip] counts the bytes still to drop of a white-space
    character already recognised. *)
Fixpoint lstrip_from (skip : nat) (s : string) : string :=
  match s with
  | EmptyString => EmptyString
  | String _ r =>
    match skip with
    | S k => lstrip_from k r
    | O =>
      match space_width s with
      | O => s
      | S k => lstrip_from k r
      end
    end
  end.
Definition lstrip (s : string) : string := lstrip_from 0 s.

Definition isspace_all (s : string) : bool := String.eqb (lstrip s) "".

(** [s.rstrip()] *)
Fixpoint rstrip (s : string) : string :=
  match s with
  | EmptyString => EmptyString
  | String a r => if isspace_all s then EmptyString else String a (rstrip r)
  end.

(** [s.strip()] *)
Definition strip (s : string) : string := rstrip (lstrip s).

(** The bytes of [s] up to the first white-space character. *)
Fixpoint take_token (s : string) : string :=
  match s with
  | EmptyString => EmptyString
  | String a r =>
    match space_width s with
    | O => String a (take_token r)
    | S _ => EmptyString
    end
  end.

(** [s.split()[0]]: the first white-space separated token of [s];
    [s.split()] is empty when [s] has no such token. *)
Definition split_first (s : string) : Result string :=
  let t := lstrip s in
  if String.eqb t "" then Raise IndexError else Ok (take_token t).

(** [s.split(sep)] for a one-byte separator. *)
Fixpoint split_on (sep : ascii) (s : string) : list string :=
  match s with
  | EmptyString => [EmptyString]
  | String a r =>
    if Ascii.eqb a sep then EmptyString :: split_on sep r
    else match split_on sep r with
         | [] => [String a EmptyString]
         | w :: ws => String a w :: ws
         end
  end.

(** [sep.join(parts)] *)
Definition join (sep : string) (parts : list string) : string :=
  String.concat sep parts.

(** The code point that starts [s] in UTF-8 and the number of its bytes. *)
Definition code_point (s : string) : option (N * nat) :=
  match s with
  | EmptyString => None
  | String a r =>
    let x := N_of_ascii a in
    if (x <? 128)%N then Some (x, 1%nat) else
    match r with
    | EmptyString => None
    | String b r2 =>
      let y := N_of_ascii b in
      if byte_in 192 223 x then Some (((x - 192) * 64 + (y - 128))%N, 2%nat) else
      match r2 with
      | EmptyString => None
      | String c r3 =>
        let z := N_of_ascii c in
        if byte_in 224 239 x
        then Some (((x - 224) * 4096 + (y - 128) * 64 + (z - 128))%N, 3%nat) else
        match r3 with
        | EmptyString => None
        | String d _ =>
          let t := N_of_ascii d in
          if byte_in 240 247 x
          then Some (((x - 240) * 262144 + (y - 128) * 4096
                      + (z - 128) * 64 + (t - 128))%N, 4%nat)
          else None
        end
      end
    end
  end.

(** The code points of the digit zero of every script with decimal digits;
    the nine other digits of a script follow its zero. *)
Definition decimal_zeros : list N :=
  [48; 1632; 1776; 1984; 2406; 2534; 2662; 2790; 2918; 3046; 3174; 3302;
   3430; 3558; 3664; 3792; 3872; 4160; 4240; 6112; 6160; 6470; 6608; 6784;
   6800; 6992; 7088; 7232; 7248; 42528; 43216; 43264; 43472; 43504; 43600;
   44016; 65296; 66720; 68912; 69734; 69872; 69942; 70096; 70384; 70736;
   70864; 71248; 71360; 71472; 71904; 72016; 72784; 73040; 73120; 92768;
   92864; 93008; 120782; 120792; 120802; 120812; 120822; 123200; 123632;
   125264; 130032]%N.

(** The value of a decimal digit, of whatever script. *)
Definition decimal_of (cp : N) : option N :=
  match List.find (fun z => (z <=? cp)%N && (cp <? z + 10)%N) decimal_zeros with
  | Some z => Some (cp - z)%N
  | None => None
  end.

(** What [int] makes of the characters of a string before it reads it:
    an ASCII character stays, other white space becomes a space, another
    decimal digit becomes its ASCII digit, anything else is refused.
    [skip] counts the bytes still to drop of a character already seen. *)
Fixpoint int_ascii (skip : nat) (s : string) : option string :=
  match s with
  | EmptyString => Some EmptyString
  | String a r =>
    match skip with
    | S k => int_ascii k r
    | O =>
      if (N_of_ascii a <? 128)%N then String a <$> int_ascii 0 r
      else
        match space_width s with
        | S k => String " " <$> int_ascii k r
        | O =>
          match code_point s with
          | Some (cp, S k) =>
            match decimal_of cp with
            | Some d => String (ascii_of_N (48 + d)) <$> int_ascii k r
            | None => None
            end
          | _ => None
          end
        end
    end
  end.

(** White space in the sense of C's [isspace]. *)
Definition c_isspace (a : ascii) : bool :=
  let x := N_of_ascii a in byte_in 9 13 x || (x =? 32)%N.

Fixpoint c_lstrip (s : string) : string :=
  match s with
  | EmptyString => EmptyString
  | String a r => if c_isspace a then c_lstrip r else s
  end.

Fixpoint c_rstrip (s : string) : string :=
  match s with
  | EmptyString => EmptyString
  | String a r =>
    if String.eqb (c_lstrip s) "" then EmptyString else String a (c_rstrip r)
  end.

(** Digits of a decimal literal; single underscores may separate digits. *)
Fixpoint digits_from (acc : Z) (after_digit : bool) (s : string) : option Z :=
  match s with
  | EmptyString => if after_digit then Some acc else None
  | String a r =>
    let x := N_of_ascii a in
    if byte_in 48 57 x then digits_from (10 * acc + Z.of_N (x - 48)) true r
    else if (x =? 95)%N && after_digit then digits_from acc false r
    else None
  end.

(** [int(s)] for a string: white space around an optional sign and decimal
    digits of any script. *)
Definition py_int (s : string) : Result Z :=
  match int_ascii 0 s with
  | None => Raise ValueError
  | Some u =>
    let t := c_rstrip (c_lstrip u) in
    let parse (neg : bool) (body : string) :=
      match digits_from 0 false body with
      | Some n => Ok (if neg then - n else n)
      | None => Raise ValueError
      end in
    match t with
    | String "-" r => parse true r
    | String "+" r => parse false r
    | _ => parse false t
    end
  end.

(** ** [anomaly_detector.py]: statuses and thresholds *)

Inductive GPUStatus : Type := NORMAL | FLUCTUATING | CRITICAL.

(** [GPUStatus.value] *)
Definition GPUStatus_value (s : GPUStatus) : string :=
  match s with
  | NORMAL => "稳定"
  | FLUCTUATING => "波动"
  | CRITICAL => "故障"
  end.

Record StatusThreshold : Type := {
  temp_warning : float;
  temp_critical : float;
  util_low : float;
  util_normal : float;
  util_high : float;
  util_std_warning : float;
  power_std_warning : float;
  memory_normal : float;
  memory_high : float;
  memory_critical : float;
  ecc_warning : Z
}.

(** The defaults of the dataclass: the doubles that the literals [75.0],
    ..., [0.8], [0.9] and [0.95] denote. *)
Definition default_thresholds : StatusThreshold := {|
  temp_warning := float_of_Z 75;
  temp_critical := float_of_Z 85;
  util_low := float_of_Z 5;
  util_normal := float_of_Z 80;
  util_high := float_of_Z 95;
  util_std_warning := float_of_Z 15;
  power_std_warning := float_of_Z 20;
  memory_normal := float_of_ratio 8 10;
  memory_high := float_of_ratio 9 10;
  memory_critical := float_of_ratio 95 100;
  ecc_warning := 1
|}.

(** ** [GPUAnomalyDetector]: state and methods *)

Record GPUAnomalyDetector : Type := {
  window_size : Z;
  history : gmap string (list Sample);
  thresholds : StatusThreshold
}.

(** [GPUAnomalyDetector.__init__] *)
Definition GPUAnomalyDetector_init (window_size : Z) : GPUAnomalyDetector := {|
  window_size := window_size;
  history := ∅;
  thresholds := default_thresholds
|}.

(** A method of the detector: it may raise and it may change [self]; the
    changes made before an exception stay. *)
Definition Meth (A : Type) : Type :=
  GPUAnomalyDetector -> Result A * GPUAnomalyDetector.

#[global] Instance Meth_ret : MRet Meth := fun A a self => (Ok a, self).
#[global] Instance Meth_bind : MBind Meth := fun A B f m self =>
  match m self with
  | (Ok a, self') => f a self'
  | (Raise e, self') => (Raise e, self')
  end.

Definition get_self : Meth GPUAnomalyDetector := fun self => (Ok self, self).
Definition set_history (h : gmap string (list Sample)) : Meth unit := fun self =>
  (Ok tt, {| window_size := window_size self; history := h; thresholds := thresholds self |}).
Definition lift {A} (r : Result A) : Meth A := fun self => (r, self).

(** [self.history[gpu_id]] and [self.history[gpu_id] = w] *)
Definition load_window (gpu_id : string) : Meth (list Sample) :=
  self ← get_self; lift (getitem (history self) gpu_id).
Definition store_window (gpu_id : string) (w : list Sample) : Meth unit :=
  self ← get_self; set_history (<[gpu_id := w]> (history self)).

(** [GPUAnomalyDetector.update] *)
Definition update (gpu_id : string) (metrics : Sample) : Meth unit :=
  self ← get_self;
  (if contains gpu_id (history self) then mret tt else store_window gpu_id []);;
  w ← load_window gpu_id;
  store_window gpu_id (w ++ [metrics])%list;;
  w ← load_window gpu_id;
  self ← get_self;
  if window_size self <? Z.of_nat (length w) then
    match w with
    | [] => lift (Raise IndexError)
    | _ :: w' => store_window gpu_id w'
    end
  else mret tt.

(** ['k' in d and p(d['k'])] *)
Definition key_and (k : string) (p : value -> bool) (d : Sample) : bool :=
  match d !! k with
  | Some v => p v
  | None => false
  end.

Section Detect.

(** Rendering of floats: [str(x)], [format(x, '.1%')] and
    [format(sigma, '.1f')]. *)
Variable fmt_float : float -> string.
Variable fmt_percent1 : float -> string.
Variable fmt_sigma1 : float -> string.

(** [np.std] on a list: the standard deviation as numpy computes it, or
    the exception it raises. *)
Variable np_std : list value -> Result float.

(** [f"{v}"] *)
Definition py_str (v : value) : string :=
  match v with
  | VNone => "None"
  | VBool true => "True"
  | VBool false => "False"
  | VInt z => string_of_Z z
  | VFloat x => fmt_float x
  | VStr s => s
  end.

Definition when_msg (b : bool) (msg : string) : list string :=
  if b then [msg] else [].

(** The block [if len(history) >= 3: ...] of [detect]: the warnings it
    appends. *)
Definition std_warnings (th : StatusThreshold) (history : list Sample)
  : Result (list string) :=
  if (3 <=? length history)%nat then
    utils ← mapM (fun m => getitem m "utilization_gpu") history;
    util_std ← np_std utils;
    powers ← mapM (fun m => getitem m "power_draw") history;
    power_std ← np_std powers;
    mret (when_msg (float_ge util_std (util_std_warning th))
            ("利用率波动 (σ=" +:+ fmt_sigma1 util_std +:+ ")")
          ++ when_msg (float_ge power_std (power_std_warning th))
            ("功耗波动 (σ=" +:+ fmt_sigma1 power_std +:+ ")"))%list
  else mret [].

(** The load bucket of the normal description. *)
Definition load_tag (th : StatusThreshold) (util : value) : Result string :=
  low ← py_lt util (util_low th);
  if low : bool then mret "低负载"
  else high ← py_gt util (util_normal th);
       mret (if high : bool then "高负载" else "正常负载").

(** The block [if 'driver_version' in latest: ...]: the tag it appends. *)
Definition driver_tag (latest : Sample) : Result (list string) :=
  match latest !! "driver_version" with
  | None => mret []
  | Some (VStr s) => tok ← split_first s; mret ["驱动 " +:+ tok]
  | Some _ => Raise AttributeError
  end.

(** The body of [GPUAnomalyDetector.detect] below its first [return], on
    the window [history] of the device. *)
Definition classify (th : StatusThreshold) (history : list Sample)
  : Result (GPUStatus * string) :=
  match last history with
  | None => Raise IndexError
  | Some latest =>
    if key_and "nvidia_smi_ok" (fun v => negb (truthy v)) latest then
      mret (CRITICAL, "nvidia-smi 响应异常")
    else if key_and "power_error" truthy latest then
      pe ← getitem latest "power_error";
      mret (CRITICAL, "供电异常: " +:+ py_str pe)
    else
      ecc_msg ← match latest !! "ecc_errors" with
                | Some v =>
                  ecc_hit ← py_gt_int v 0;
                  mret (when_msg ecc_hit ("ECC错误: " +:+ py_str v +:+ "次"))
                | None => mret []
                end;
      temp ← getitem latest "temperature";
      hot ← py_ge temp (temp_critical th);
      mu ← getitem latest "memory_used";
      mt ← getitem latest "memory_total";
      memory_usage ← py_truediv mu mt;
      let critical_reasons :=
        (ecc_msg
         ++ when_msg hot ("温度过高 (" +:+ py_str temp +:+ "°C)")
         ++ when_msg (float_ge memory_usage (memory_critical th))
              ("显存使用率过高 (" +:+ fmt_percent1 memory_usage +:+ ")"))%list in
      match critical_reasons with
      | _ :: _ => mret (CRITICAL, join " | " critical_reasons)
      | [] =>
        std_msgs ← std_warnings th history;
        warm ← py_ge temp (temp_warning th);
        let warnings :=
          (std_msgs
           ++ when_msg warm ("温度偏高 (" +:+ py_str temp +:+ "°C)")
           ++ when_msg (float_ge memory_usage (memory_high th))
                ("显存使用率偏高 (" +:+ fmt_percent1 memory_usage +:+ ")"))%list in
        match warnings with
        | _ :: _ => mret (FLUCTUATING, join " | " warnings)
        | [] =>
          util ← getitem latest "utilization_gpu";
          load ← load_tag th util;
          drv ← driver_tag latest;
          let status_desc :=
            ([load]
             ++ when_msg (float_gt memory_usage (memory_normal th)) "高显存"
             ++ drv)%list in
          let r := join " | " status_desc in
          mret (NORMAL, if String.eqb r "" then "正常运行" else r)
        end
      end
  end.

(** [GPUAnomalyDetector.detect] *)
Definition detect (gpu_id : string) : Meth (GPUStatus * string) :=
  self ← get_self;
  if negb (contains gpu_id (history self)) then mret (CRITICAL, "无监控数据")
  else
    w ← load_window gpu_id;
    match w with
    | [] => mret (CRITICAL, "无监控数据")
    | _ :: _ => lift (classify (thresholds self) w)
    end.

End Detect.

(** ** Dictionaries whose iteration order matters *)

(** [d[k] = v] on a dictionary kept as its item list in insertion order. *)
Fixpoint dict_set {V} (k : string) (v : V) (d : list (string * V)) : list (string * V) :=
  match d with
  | [] => [(k, v)]
  | (k', v') :: r => if String.eqb k' k then (k, v) :: r else (k', v') :: dict_set k v r
  end.

(** [d.get(k)] *)
Fixpoint dict_get {V} (k : string) (d : list (string * V)) : option V :=
  match d with
  | [] => None
  | (k', v') :: r => if String.eqb k' k then Some v' else dict_get k r
  end.

(** [d[k][field] = v] *)
Definition dict_set_field (k field : string) (v : value) (d : list (string * Sample))
  : list (string * Sample) :=
  match dict_get k d with
  | Some m => dict_set k (<[field := v]> m) d
  | None => d
  end.

(** ** [monitor.py]: the sample queue *)

(** [queue.Queue(maxsize)]: the oldest entry is the head of [items]. *)
Record Queue (A : Type) : Type := {
  maxsize : Z;
  items : list A
}.
Arguments maxsize {A} _.
Arguments items {A} _.

Definition Queue_init {A} (maxsize : Z) : Queue A := {| maxsize := maxsize; items := [] |}.

Definition qsize {A} (q : Queue A) : Z := Z.of_nat (length (items q)).

(** [Queue.full] *)
Definition full {A} (q : Queue A) : bool :=
  (0 <? maxsize q) && (maxsize q <=? qsize q).

(** [Queue.get()]: [None] when the call blocks, the queue being empty. *)
Definition get {A} (q : Queue A) : option (A * Queue A) :=
  match items q with
  | [] => None
  | x :: r => Some (x, {| maxsize := maxsize q; items := r |})
  end.

(** [Queue.put(x)]: [None] when the call blocks, the queue being full. *)
Definition put {A} (x : A) (q : Queue A) : option (Queue A) :=
  if (0 <? maxsize q) && (maxsize q <=? qsize q) then None
  else Some {| maxsize := maxsize q; items := (items q ++ [x])%list |}.

(** The hand-off of [BaseMonitor._monitoring_loop]:
    [if q.full(): q.get()] followed by [q.put(x)]. *)
Definition push {A} (x : A) (q : Queue A) : option (Queue A) :=
  q1 ← (if full q then snd <$> get q else Some q);
  put x q1.

(** [BaseMonitor.get_current_data]: [list(self.data_queue.queue)]; the
    queue it was read from is returned next to the copy. *)
Definition get_current_data {A} (q : Queue A) : list A * Queue A :=
  (items q, q).

(** A run of the producer: every element pushed in turn. *)
Fixpoint push_all {A} (xs : list A) (q : Queue A) : option (Queue A) :=
  match xs with
  | [] => Some q
  | x :: r => q' ← push x q; push_all r q'
  end.

(** ** [monitor.py]: the sampler *)

Definition LF : ascii := "010"%char.

(** What NVML reports for one device, as the integers pynvml reads out of
    the C variables: [unsigned long long] for the memory figures,
    [unsigned int] for the others. *)
Record NvmlReading : Type := {
  nvml_name : string;
  nvml_memory_used : Z;
  nvml_memory_total : Z;
  nvml_memory_free : Z;
  nvml_utilization_gpu : Z;
  nvml_utilization_memory : Z;
  nvml_temperature : Z;
  nvml_power_usage : Z
}.

(** [GPUMonitor._get_basic_metrics]; the power in watts is the quotient
    of two integers, rounded once to a double, which is finite for an
    [unsigned int]. *)
Definition _get_basic_metrics (r : NvmlReading) : Sample :=
  <["name" := VStr (nvml_name r)]>
  (<["memory_used" := VInt (nvml_memory_used r / 1024 ^ 2)]>
  (<["memory_total" := VInt (nvml_memory_total r / 1024 ^ 2)]>
  (<["memory_free" := VInt (nvml_memory_free r / 1024 ^ 2)]>
  (<["utilization_gpu" := VInt (nvml_utilization_gpu r)]>
  (<["utilization_memory" := VInt (nvml_utilization_memory r)]>
  (<["temperature" := VInt (nvml_temperature r)]>
  (<["power_draw" := VFloat (float_of_ratio (nvml_power_usage r) 1000)]> ∅))))))).

(** [f'gpu_{i}'] *)
Definition gpu_key (i : nat) : string := "gpu_" +:+ string_of_nat i.

(** An entry of the sample queue: [(datetime.now(), metrics)]. *)
Definition Snapshot : Type := Q * list (string * Sample).

(** [GPUMonitor], with the queue of its base class. *)
Record GPUMonitor : Type := {
  data_queue : Queue Snapshot;
  device_count : nat;
  driver_version : option string;
  _last_ecc_check : Q;
  _last_power_check : Q;
  _last_driver_check : Q
}.

Definition set_last_ecc_check (t : Q) (self : GPUMonitor) : GPUMonitor :=
  {| data_queue := data_queue self; device_count := device_count self; driver_version := driver_version self;
     _last_ecc_check := t; _last_power_check := _last_power_check self;
     _last_driver_check := _last_driver_check self |}.
Definition set_last_power_check (t : Q) (self : GPUMonitor) : GPUMonitor :=
  {| data_queue := data_queue self; device_count := device_count self; driver_version := driver_version self;
     _last_ecc_check := _last_ecc_check self; _last_power_check := t;
     _last_driver_check := _last_driver_check self |}.
Definition set_data_queue (q : Queue Snapshot) (self : GPUMonitor) : GPUMonitor :=
  {| data_queue := q; device_count := device_count self;
     driver_version := driver_version self;
     _last_ecc_check := _last_ecc_check self;
     _last_power_check := _last_power_check self;
     _last_driver_check := _last_driver_check self |}.
Definition set_driver (v : option string) (t : Q) (self : GPUMonitor) : GPUMonitor :=
  {| data_queue := data_queue self; device_count := device_count self; driver_version := v;
     _last_ecc_check := _last_ecc_check self;
     _last_power_check := _last_power_check self; _last_driver_check := t |}.

(** [count.split(':')[1].strip()] read by [int]. *)
Definition parse_ecc_line (count : string) : Result Z :=
  match split_on ":" count !! 1%nat with
  | Some field => py_int (strip field)
  | None => Raise IndexError
  end.

(** The loop of [_check_ecc_errors] over [enumerate(lines)], from index [i]. *)
Fixpoint ecc_of_lines (i : nat) (lines : list string) (ecc_errors : gmap string Z)
  : gmap string Z :=
  match lines with
  | [] => ecc_errors
  | count :: r =>
    match parse_ecc_line count with
    | Ok n => ecc_of_lines (S i) r (<[gpu_key i := n]> ecc_errors)
    | Raise _ => ecc_of_lines (S i) r ecc_errors
    end
  end.

Section Sampler.

(** The machine the sampler runs on. [subprocess_run] is
    [subprocess.run(command, shell=True, capture_output=True, text=True,
    timeout=10)]: the standard output, or [None] when it raises (time-out
    included); [nvml_query i] reads device [i] through NVML and may raise. *)
Variable World : Type.
Variable subprocess_run : string -> World -> option string * World.
Variable nvml_query : nat -> World -> Result NvmlReading * World.

(** [GPUMonitor._run_command] *)
Definition _run_command (command : string) (w : World) : (bool * string) * World :=
  match subprocess_run command w with
  | (Some stdout, w') => ((true, strip stdout), w')
  | (None, w') => ((false, ""), w')
  end.

(** [GPUMonitor._get_driver_version] *)
Definition _get_driver_version (w : World) : option string * World :=
  let '((success, output), w') :=
    _run_command "nvidia-smi --query-gpu=driver_version --format=csv,noheader" w in
  (if success && negb (String.eqb output "")
   then Some (strip (hd "" (split_on LF output))) else None, w').

(** [GPUMonitor._check_nvidia_smi_hang] *)
Definition _check_nvidia_smi_hang (w : World) : bool * World :=
  let '((success, _), w') := _run_command "timeout -k 5s 5s nvidia-smi" w in
  (success, w').

(** [GPUMonitor._check_power_errors] *)
Definition _check_power_errors (w : World) : option string * World :=
  let '((success, output), w') :=
    _run_command "nvidia-smi -q -d POWER | grep 'Error'" w in
  (if success && negb (String.eqb output "") then Some output else None, w').

(** [GPUMonitor._check_ecc_errors] *)
Definition _check_ecc_errors (w : World) : gmap string Z * World :=
  let '((success, output), w') :=
    _run_command "nvidia-smi -q | grep -A2 'ECC Errors' | grep 'DRAM Uncorrectable'" w in
  (if success && negb (String.eqb output "")
   then ecc_of_lines 0 (split_on LF output) ∅ else ∅, w').

(** One iteration of the [for] loop of [get_metrics]; [None] when the
    iteration raised, which only the NVML read at its start can do. *)
Definition get_metrics_device (current_time : Q) (i : nat)
    (st : GPUMonitor * list (string * Sample) * World)
  : option (GPUMonitor * list (string * Sample)) * World :=
  let '(self, metrics, w) := st in
  match nvml_query i w with
  | (Raise _, w) => (None, w)
  | (Ok reading, w) =>
    let metrics := dict_set (gpu_key i) (_get_basic_metrics reading) metrics in
    let '(self, metrics, w) :=
      if Qle_bool 60 (current_time - _last_ecc_check self) then
        let '(ecc_errors, w) := _check_ecc_errors w in
        let metrics :=
          match ecc_errors !! gpu_key i with
          | Some n => dict_set_field (gpu_key i) "ecc_errors" (VInt n) metrics
          | None => metrics
          end in
        (set_last_ecc_check current_time self, metrics, w)
      else (self, metrics, w) in
    let '(self, metrics, w) :=
      if Qle_bool 300 (current_time - _last_power_check self) then
        let '(power_error, w) := _check_power_errors w in
        let metrics :=
          match power_error with
          | Some msg => dict_set_field (gpu_key i) "power_error" (VStr msg) metrics
          | None => metrics
          end in
        (set_last_power_check current_time self, metrics, w)
      else (self, metrics, w) in
    let '(self, w) :=
      if Qle_bool 86400 (current_time - _last_driver_check self) then
        let '(v, w) := _get_driver_version w in
        (set_driver v current_time self, w)
      else (self, w) in
    let metrics :=
      dict_set_field (gpu_key i) "driver_version"
        (match driver_version self with Some v => VStr v | None => VNone end) metrics in
    let '(ok, w) := _check_nvidia_smi_hang w in
    let metrics := dict_set_field (gpu_key i) "nvidia_smi_ok" (VBool ok) metrics in
    (Some (self, metrics), w)
  end.

(** The [for i in range(...)] loop inside the [try]: it stops at the first
    iteration that raises and keeps what was built so far. *)
Fixpoint get_metrics_loop (current_time : Q) (indices : list nat)
    (st : GPUMonitor * list (string * Sample) * World)
  : GPUMonitor * list (string * Sample) * World :=
  match indices with
  | [] => st
  | i :: r =>
    match get_metrics_device current_time i st with
    | (Some (self, metrics), w) => get_metrics_loop current_time r (self, metrics, w)
    | (None, w) => (st.1, w)
    end
  end.

(** [GPUMonitor.get_metrics], with [time.time()] given as [current_time]. *)
Definition get_metrics (current_time : Q) (self : GPUMonitor) (w : World)
  : list (string * Sample) * GPUMonitor * World :=
  let '(self, metrics, w) :=
    get_metrics_loop current_time (seq 0 (device_count self)) (self, [], w) in
  (metrics, self, w).

(** One turn of [BaseMonitor._monitoring_loop] at time [now]; [None] when
    the turn never ends because a queue operation blocks. *)
Definition _monitoring_loop_turn (now : Q) (self : GPUMonitor) (w : World)
  : option GPUMonitor * World :=
  let '(metrics, self, w) := get_metrics now self w in
  (q ← push (now, metrics) (data_queue self); Some (set_data_queue q self), w).

End Sampler.

(** ** [websocket.py]: the broadcast coordinator *)

(** A connected web socket. *)
Definition Conn : Type := nat.

(** The dictionary [data] handed to [broadcast]. *)
Record Envelope : Type := {
  timestamp : string;
  metrics : list (string * Sample);
  status : option (list (string * (string * string)))
}.

Definition set_status (info : list (string * (string * string))) (data : Envelope)
  : Envelope :=
  {| timestamp := timestamp data; metrics := metrics data; status := Some info |}.

(** What leaves the process: the envelopes handed over to the sockets and
    the records written by [logger.error], oldest first. *)
Record Io : Type := {
  sent : list (Conn * Envelope);
  logged : list (string * exn)
}.

Definition io_send (c : Conn) (data : Envelope) (io : Io) : Io :=
  {| sent := (sent io ++ [(c, data)])%list; logged := logged io |}.
Definition io_log (prefix : string) (e : exn) (io : Io) : Io :=
  {| sent := sent io; logged := (logged io ++ [(prefix, e)])%list |}.

Record WebSocketManager : Type := {
  active_connections : list Conn;
  gpu_monitor : GPUMonitor;
  anomaly_detector : GPUAnomalyDetector
}.

Definition set_anomaly_detector (d : GPUAnomalyDetector) (self : WebSocketManager)
  : WebSocketManager :=
  {| active_connections := active_connections self;
     gpu_monitor := gpu_monitor self; anomaly_detector := d |}.
Definition set_active_connections (l : list Conn) (self : WebSocketManager)
  : WebSocketManager :=
  {| active_connections := l;
     gpu_monitor := gpu_monitor self; anomaly_detector := anomaly_detector self |}.

(** [WebSocketManager.connect], the socket having accepted. *)
Definition connect (websocket : Conn) (self : WebSocketManager) : WebSocketManager :=
  set_active_connections (active_connections self ++ [websocket])%list self.

(** [list.remove(x)]: the first occurrence goes; absent, it raises. *)
Fixpoint list_remove (x : Conn) (l : list Conn) : Result (list Conn) :=
  match l with
  | [] => Raise ValueError
  | y :: r => if Nat.eqb y x then Ok r else r' ← list_remove x r; mret (y :: r')
  end.

(** [WebSocketManager.disconnect] *)
Definition disconnect (websocket : Conn) (self : WebSocketManager)
  : Result WebSocketManager :=
  l ← list_remove websocket (active_connections self);
  mret (set_active_connections l self).

Section Broadcast.

Variable fmt_float : float -> string.
Variable fmt_percent1 : float -> string.
Variable fmt_sigma1 : float -> string.
Variable np_std : list value -> Result float.

(** [connection.send_json(data)]: delivery, or the exception it raises. *)
Variable send_json : Conn -> Envelope -> Result unit.

(** [datetime.isoformat] *)
Variable isoformat : Q -> string.

(** The loop [for gpu_id, gpu_metrics in metrics.items()] of [broadcast]. *)
Fixpoint status_loop (items : list (string * Sample))
    (status_info : list (string * (string * string)))
  : Meth (list (string * (string * string))) :=
  match items with
  | [] => mret status_info
  | (gpu_id, gpu_metrics) :: r =>
    update gpu_id gpu_metrics;;
    '(status, reason) ← detect fmt_float fmt_percent1 fmt_sigma1 np_std gpu_id;
    status_loop r (dict_set gpu_id (GPUStatus_value status, reason) status_info)
  end.

(** The body of the loop of [broadcast] for one connection: the [try]
    block and its [except] clause. *)
Definition broadcast_to (connection : Conn) (st : Envelope * WebSocketManager * Io)
  : Envelope * WebSocketManager * Io :=
  let '(data, self, io) := st in
  match status_loop (metrics data) [] (anomaly_detector self) with
  | (Raise e, detector) =>
    (data, set_anomaly_detector detector self, io_log "发送数据失败: " e io)
  | (Ok status_info, detector) =>
    let data := set_status status_info data in
    let self := set_anomaly_detector detector self in
    match send_json connection data with
    | Ok _ => (data, self, io_send connection data io)
    | Raise e => (data, self, io_log "发送数据失败: " e io)
    end
  end.

(** [WebSocketManager.broadcast] *)
Definition broadcast (data : Envelope) (self : WebSocketManager) (io : Io)
  : Envelope * WebSocketManager * Io :=
  foldl (fun st connection => broadcast_to connection st)
        (data, self, io) (active_connections self).

(** One turn of the loop of [WebSocketManager.start_monitoring]. *)
Definition start_monitoring_turn (self : WebSocketManager) (io : Io)
  : WebSocketManager * Io :=
  let '(data, q) := get_current_data (data_queue (gpu_monitor self)) in
  let self :=
    {| active_connections := active_connections self;
       gpu_monitor := set_data_queue q (gpu_monitor self);
       anomaly_detector := anomaly_detector self |} in
  match last data with
  | None => (self, io)
  | Some latest_data =>
    let '(_, self, io) :=
      broadcast {| timestamp := isoformat latest_data.1;
                   metrics := latest_data.2; status := None |} self io in
    (self, io)
  end.

End Broadcast.

(** [GPUAnomalyDetector.get_status_color] *)
Definition get_status_color (status : GPUStatus) : string :=
  match status with
  | NORMAL => "#C8D6CF"
  | FLUCTUATING => "#E6D0A7"
  | CRITICAL => "#E6B8B8"
  end.

(** ** [app.py]: the dashboard client *)

(** A dictionary [metrics] as the client buffers it: the sample and, kept
    apart because its value is a dictionary, what the client stored under
    the key ['status']. *)
Record Point : Type := {
  point_metrics : Sample;
  point_status : option (string * string)
}.

Record DashApp : Type := {
  data_buffer : list (string * list Point);
  timestamps : list Q;
  max_points : Z
}.

(** The fields [DashApp.__init__] sets before the client starts. *)
Definition DashApp_init : DashApp :=
  {| data_buffer := []; timestamps := []; max_points := 50 |}.

Definition set_data_buffer (b : list (string * list Point)) (self : DashApp) : DashApp :=
  {| data_buffer := b; timestamps := timestamps self; max_points := max_points self |}.
Definition set_timestamps (ts : list Q) (self : DashApp) : DashApp :=
  {| data_buffer := data_buffer self; timestamps := ts; max_points := max_points self |}.

(** [l.pop(0)] *)
Definition pop0 {A} (l : list A) : Result (list A) :=
  match l with
  | [] => Raise IndexError
  | _ :: r => Ok r
  end.

(** [if 'status' in data: metrics['status'] = data['status'][gpu_id]] *)
Definition attach_status (status : option (list (string * (string * string))))
    (gpu_id : string) (metrics : Sample) : Result Point :=
  match status with
  | Some info =>
    match dict_get gpu_id info with
    | Some entry =>
      Ok {| point_metrics := delete "status" metrics; point_status := Some entry |}
    | None => Raise (KeyError gpu_id)
    end
  | None => Ok {| point_metrics := metrics; point_status := None |}
  end.

(** The body of the loop [for gpu_id, metrics in data['metrics'].items()]
    of [DashApp.websocket_client]; what was changed before an exception
    stays. *)
Definition buffer_device (status : option (list (string * (string * string))))
    (gpu_id : string) (metrics : Sample) (self : DashApp) : Result unit * DashApp :=
  let self :=
    match dict_get gpu_id (data_buffer self) with
    | None => set_data_buffer (dict_set gpu_id [] (data_buffer self)) self
    | Some _ => self
    end in
  match attach_status status gpu_id metrics with
  | Raise e => (Raise e, self)
  | Ok point =>
    match dict_get gpu_id (data_buffer self) with
    | None => (Raise (KeyError gpu_id), self)
    | Some points =>
      let points := (points ++ [point])%list in
      let self := set_data_buffer (dict_set gpu_id points (data_buffer self)) self in
      if max_points self <? Z.of_nat (length points) then
        match pop0 points with
        | Ok points => (Ok tt, set_data_buffer (dict_set gpu_id points (data_buffer self)) self)
        | Raise e => (Raise e, self)
        end
      else (Ok tt, self)
    end
  end.

Fixpoint buffer_loop (status : option (list (string * (string * string))))
    (items : list (string * Sample)) (self : DashApp) : Result unit * DashApp :=
  match items with
  | [] => (Ok tt, self)
  | (gpu_id, metrics) :: r =>
    match buffer_device status gpu_id metrics self with
    | (Ok _, self) => buffer_loop status r self
    | (Raise e, self) => (Raise e, self)
    end
  end.

(** One turn of the inner loop of [DashApp.websocket_client], from the
    message [data] as [json.loads] returns it; [fromisoformat] is
    [datetime.fromisoformat]. *)
Definition websocket_client_turn (fromisoformat : string -> Result Q)
    (data : Envelope) (self : DashApp) : Result unit * DashApp :=
  match fromisoformat (timestamp data) with
  | Raise e => (Raise e, self)
  | Ok t =>
    let self := set_timestamps (timestamps self ++ [t])%list self in
    match buffer_loop (status data) (metrics data) self with
    | (Raise e, self) => (Raise e, self)
    | (Ok _, self) =>
      if max_points self <? Z.of_nat (length (timestamps self)) then
        match pop0 (timestamps self) with
        | Ok ts => (Ok tt, set_timestamps ts self)
        | Raise e => (Raise e, self)
        end
      else (Ok tt, self)
    end
  end.

(** The table [status_color] of [update_graphs]:
    [{...}.get(status['status'], 'secondary')]. *)
Definition status_color (s : string) : string :=
  if String.eqb s "稳定" then "success"
  else if String.eqb s "波动" then "warning"
  else if String.eqb s "故障" then "danger"
  else "secondary".

(** The colour of the alert [update_graphs] draws for the newest point of
    a device: [latest.get('status', {'status': 'normal', ...})] and the
    look-up in the table. *)
Definition alert_color (latest : Point) : Result string :=
  match point_status latest with
  | Some entry => Ok (status_color entry.1)
  | None =>
    match point_metrics latest !! "status" with
    | Some _ => Raise TypeError
    | None => Ok (status_color "normal")
    end
  end.

(** ** Notions used by the statements *)

(** [snapshot(device)]: the window of a device, empty when it has none. *)
Definition window (self : GPUAnomalyDetector) (gpu_id : string) : list Sample :=
  default [] (history self !! gpu_id).

(** The last [n] elements of a list, in their order. *)
Definition last_n {A} (n : nat) (l : list A) : list A :=
  drop (length l - n) l.

(** What one call of [update] leaves of a window that was given its sample. *)
Definition evict (ws : Z) (w : list Sample) : list Sample :=
  if ws <? Z.of_nat (length w) then tail w else w.

(** The detector after a sequence of [update] calls. *)
Definition run_updates (calls : list (string * Sample)) (self : GPUAnomalyDetector)
  : GPUAnomalyDetector :=
  foldl (fun d call => (update call.1 call.2 d).2) self calls.

(** The samples a sequence of calls carries for one device, in arrival order. *)
Definition samples_of (gpu_id : string) (calls : list (string * Sample)) : list Sample :=
  (filter (fun call => call.1 = gpu_id) calls).*2.

(** The number held under a key, when there is one. *)
Definition num_field (k : string) (d : Sample) : option xnum :=
  match d !! k with
  | Some v => to_num v
  | None => None
  end.

(** The conditions on the latest sample that the classifier ranks as
    critical: liveness flag false (the key is there and its value is false
    in a boolean context), power error set (the key is there and its value
    is true in a boolean context, as a non-empty string is), ECC errors
    above zero, temperature at or above a bound, memory ratio at or above a
    bound. *)
Definition liveness_false (latest : Sample) : bool :=
  match latest !! "nvidia_smi_ok" with
  | Some v => negb (truthy v)
  | None => false
  end.

Definition power_error_set (latest : Sample) : bool :=
  match latest !! "power_error" with
  | Some v => truthy v
  | None => false
  end.

Definition ecc_positive (latest : Sample) : bool :=
  match num_field "ecc_errors" latest with
  | Some n => xlt (XFin (inject_Z 0)) n
  | None => false
  end.

Definition temperature_ge (t : float) (latest : Sample) : bool :=
  match num_field "temperature" latest with
  | Some x => xle (float_num t) x
  | None => false
  end.

(** [memory_used / memory_total] as Python computes it, when it does: the
    double the division gives. *)
Definition memory_ratio (latest : Sample) : option float :=
  match latest !! "memory_used", latest !! "memory_total" with
  | Some a, Some b =>
    match py_truediv a b with
    | Ok r => Some r
    | Raise _ => None
    end
  | _, _ => None
  end.

Definition memory_ratio_ge (t : float) (latest : Sample) : bool :=
  match memory_ratio latest with
  | Some r => float_ge r t
  | None => false
  end.

(** The values a window holds under a key, oldest first, when every sample
    has the key. *)
Definition column (k : string) (w : list Sample) : option (list value) :=
  mapM (fun m => m !! k) w.

(** The standard deviation numpy gives for a column, when there is one. *)
Definition std_of (np_std : list value -> Result float) (k : string)
    (w : list Sample) : option float :=
  match column k w with
  | Some vs =>
    match np_std vs with
    | Ok s => Some s
    | Raise _ => None
    end
  | None => None
  end.

(** The window has three samples or more and the standard deviation numpy
    gives for a field over it reaches [t]. *)
Definition field_std_ge (np_std : list value -> Result float) (k : string)
    (t : float) (w : list Sample) : bool :=
  (3 <=? length w)%nat
  && match std_of np_std k w with
     | Some s => float_ge s t
     | None => false
     end.

Definition critical_condition (th : StatusThreshold) (w : list Sample) : bool :=
  match last w with
  | None => true
  | Some latest =>
    liveness_false latest || power_error_set latest || ecc_positive latest
    || temperature_ge (temp_critical th) latest
    || memory_ratio_ge (memory_critical th) latest
  end.

Definition fluctuating_condition (np_std : list value -> Result float)
    (th : StatusThreshold) (w : list Sample) : bool :=
  match last w with
  | None => false
  | Some latest =>
    field_std_ge np_std "utilization_gpu" (util_std_warning th) w
    || field_std_ge np_std "power_draw" (power_std_warning th) w
    || temperature_ge (temp_warning th) latest
    || memory_ratio_ge (memory_high th) latest
  end.

(** The status the conditions call for. *)
Definition status_of (np_std : list value -> Result float)
    (th : StatusThreshold) (w : list Sample) : GPUStatus :=
  if critical_condition th w then CRITICAL
  else if fluctuating_condition np_std th w then FLUCTUATING else NORMAL.

Definition is_num (o : option xnum) : bool :=
  match o with
  | Some _ => true
  | None => false
  end.

(** The fields the classifier compares with bounds hold numbers in the
    latest sample; [ecc_errors] may be absent. *)
Definition latest_numeric (latest : Sample) : bool :=
  match latest !! "ecc_errors" with
  | Some v => is_num (to_num v)
  | None => true
  end
  && is_num (num_field "temperature" latest)
  && is_num (num_field "utilization_gpu" latest).

(** For a window long enough for the standard deviations, numpy gives one
    for the utilisation and one for the power draw. *)
Definition std_computed (np_std : list value -> Result float) (w : list Sample)
  : bool :=
  (length w <? 3)%nat
  || (bool_decide (is_Some (std_of np_std "utilization_gpu" w))
      && bool_decide (is_Some (std_of np_std "power_draw" w))).



(** [driver_version] is absent, or a string with a token in it. *)
Definition driver_version_ok (latest : Sample) : bool :=
  match latest !! "driver_version" with
  | None => true
  | Some (VStr s) => negb (String.eqb (lstrip s) "")
  | Some _ => false
  end.

(** What the queue holds after the elements [xs] went through it. *)
Definition retained {A} (maxsize : Z) (xs : list A) : list A :=
  if 0 <? maxsize then last_n (Z.to_nat maxsize) xs else xs.

(** One [update] on a window: the sample appended, the oldest entry evicted
    when that exceeds the capacity. *)
Definition append_evict (ws : Z) (m : Sample) (w : list Sample) : list Sample :=
  evict ws (w ++ [m]).

(** Whether a socket takes an envelope. *)
Definition accepted (send_json : Conn -> Envelope -> Result unit)
    (delivery : Conn * Envelope) : bool :=
  match send_json delivery.1 delivery.2 with
  | Ok _ => true
  | Raise _ => false
  end.

(** The sockets that take everything. *)
Definition send_ok : Conn -> Envelope -> Result unit := fun _ _ => Ok tt.

(** The detector after one connection has been served by [broadcast]. *)
Definition serve (fmt_float fmt_percent1 fmt_sigma1 : float -> string)
    (np_std : list value -> Result float)
    (data : Envelope) (det : GPUAnomalyDetector) : GPUAnomalyDetector :=
  (status_loop fmt_float fmt_percent1 fmt_sigma1 np_std (metrics data) [] det).2.

(** The deliveries and the log of a broadcast, [io], against those of the
    same broadcast to sockets that take everything, [io_ok], both started
    with the deliveries [base]: the latter adds the deliveries [attempted],
    the former adds those of them that were accepted and logs one record
    more for each one that was not. *)
Definition isolated (send_json : Conn -> Envelope -> Result unit)
    (base : list (Conn * Envelope)) (io io_ok : Io) : Prop :=
  exists attempted,
    sent io_ok = (base ++ attempted)%list
    /\ sent io = (base ++ List.filter (accepted send_json) attempted)%list
    /\ length (logged io)
       = (length (logged io_ok)
          + length (List.filter (fun x => negb (accepted send_json x)) attempted))%nat.

(** No entry of a device map other than that of the first device carries an
    [ecc_errors] field. *)
Definition ecc_only_first (items : list (string * Sample)) : Prop :=
  forall k m, k <> gpu_key 0 -> dict_get k items = Some m -> m !! "ecc_errors" = None.

(** The load bucket of a utilisation. *)
Definition load_bucket (th : StatusThreshold) (u : xnum) : string :=
  if xlt u (float_num (util_low th)) then "低负载"
  else if xlt (float_num (util_normal th)) u then "高负载"
  else "正常负载".

(** An envelope as [broadcast] sends it for the snapshot [data]: the time
    stamp and the device map of [data], and one status entry for each device
    of the map, in the order of the map, each with one of the three status
    values. *)
Definition well_formed_envelope (data env : Envelope) : Prop :=
  timestamp env = timestamp data
  /\ metrics env = metrics data
  /\ exists info,
       status env = Some info
       /\ info.*1 = (metrics data).*1
       /\ Forall (fun entry => exists s, entry.2.1 = GPUStatus_value s) info.

(** The queue respects its capacity. *)
Definition queue_ok {A} (q : Queue A) : Prop :=
  0 < maxsize q -> qsize q <= maxsize q.

(** [self.driver_version] as it is stored in a sample. *)
Definition driver_value (self : GPUMonitor) : value :=
  match driver_version self with
  | Some v => VStr v
  | None => VNone
  end.

(** What holds of every entry of the device map after a tick at whose start
    the ECC check and the power check were due or not as [ecc_due] and
    [power_due] tell. *)
Definition snapshot_entry_ok (ecc_due power_due : bool) (k : string) (m : Sample)
  : Prop :=
  latest_numeric m = true
  /\ (is_num (num_field "power_draw" m) = true
      /\ exists a b, m !! "memory_used" = Some (VInt a)
                     /\ m !! "memory_total" = Some (VInt b))
  /\ (exists b, m !! "nvidia_smi_ok" = Some (VBool b))
  /\ is_Some (m !! "driver_version")
  /\ (is_Some (m !! "ecc_errors") -> k = gpu_key 0 /\ ecc_due = true)
  /\ (is_Some (m !! "power_error") -> k = gpu_key 0 /\ power_due = true).

(** The count a line of the ECC report yields, if any. *)
Definition ecc_count_of_line (line : string) : option Z :=
  match parse_ecc_line line with
  | Ok n => Some n
  | Raise _ => None
  end.

(** The command of [_check_ecc_errors]. *)
Definition ecc_command : string :=
  "nvidia-smi -q | grep -A2 'ECC Errors' | grep 'DRAM Uncorrectable'".

(** A sample that some tick of the sampler produced, on the machine given
    by [subprocess_run] and [nvml_query]. *)
Definition sampled {World : Type}
    (subprocess_run : string -> World -> option string * World)
    (nvml_query : nat -> World -> Result NvmlReading * World) (m : Sample) : Prop :=
  exists current_time self w k,
    dict_get k (get_metrics World subprocess_run nvml_query current_time self w).1.1
    = Some m.

(** The first device of a message that its status map has no entry for. *)
Fixpoint first_missing (info : list (string * (string * string)))
    (items : list (string * Sample)) : option string :=
  match items with
  | [] => None
  | (gpu_id, _) :: r =>
    match dict_get gpu_id info with
    | Some _ => first_missing info r
    | None => Some gpu_id
    end
  end.

(** Every buffer of the client holds at most [max_points] points. *)
Definition buffers_bounded (self : DashApp) : Prop :=
  Forall (fun kv => Z.of_nat (length kv.2) <= max_points self) (data_buffer self).

(** A list after [if len(l) > cap: l.pop(0)]. *)
Definition pop_over {A} (cap : Z) (l : list A) : list A :=
  if cap <? Z.of_nat (length l) then tail l else l.

(** ** Concrete inputs *)

(** A rendering of floats for the examples: the fraction a float stands
    for, in lowest terms. *)
Definition float_str (f : float) : string :=
  match float_num f with
  | XNaN => "nan"
  | XInf s => if s then "-inf" else "inf"
  | XFin q =>
    string_of_Z (Qnum (Qred q)) +:+ "/" +:+ string_of_Z (Zpos (Qden (Qred q)))
  end.

(** A standard deviation for the examples, computed in doubles: the mean,
    the squared deviations from it, their mean, its square root. *)
Definition np_std_demo (vs : list value) : Result float :=
  xs ← mapM py_float vs;
  let n := float_of_Z (Z.of_nat (length xs)) in
  let add := SFadd float_prec float_emax in
  let mean := float_div (foldl add (S754_zero false) xs) n in
  let dev x := SFsub float_prec float_emax x mean in
  let squares := map (fun x => SFmul float_prec float_emax (dev x) (dev x)) xs in
  mret (SFsqrt float_prec float_emax (float_div (foldl add (S754_zero false) squares) n)).

(** A healthy device under moderate load. *)
Definition sample_normal : Sample :=
  list_to_map
    [("name", VStr "NVIDIA A100"); ("memory_used", VInt 1000);
     ("memory_total", VInt 10000); ("memory_free", VInt 9000);
     ("utilization_gpu", VInt 50); ("utilization_memory", VInt 10);
     ("temperature", VInt 70); ("power_draw", VFloat (float_of_Z 100));
     ("driver_version", VStr "535.104.05"); ("nvidia_smi_ok", VBool true)].

Definition sample_temp (t : value) : Sample := <["temperature" := t]> sample_normal.

Definition sample_power_error : Sample :=
  <["power_error" := VStr "Power Error"]> sample_normal.

(** The diagnostic tool did not answer. *)
Definition sample_smi_down : Sample := <["nvidia_smi_ok" := VBool false]> sample_normal.

(** The driver query failed: [driver_version] is [None]. *)
Definition sample_no_driver : Sample := <["driver_version" := VNone]> sample_normal.


(** A detector with the default configuration that holds one window. *)
Definition detector_with (gpu_id : string) (w : list Sample) : GPUAnomalyDetector :=
  {| window_size := 10; history := {[gpu_id := w]}; thresholds := default_thresholds |}.

(** A machine with two devices whose ECC report has a line for each. *)
Definition demo_reading : NvmlReading := {|
  nvml_name := "NVIDIA A100";
  nvml_memory_used := 1024 ^ 3;
  nvml_memory_total := 16 * 1024 ^ 3;
  nvml_memory_free := 15 * 1024 ^ 3;
  nvml_utilization_gpu := 50;
  nvml_utilization_memory := 10;
  nvml_temperature := 60;
  nvml_power_usage := 100000
|}.

Definition demo_ecc_report : string :=
  "        DRAM Uncorrectable            : 0" +:+ String LF
  "        DRAM Uncorrectable            : 3".

Definition demo_shell (command : string) (w : unit) : option string * unit :=
  if String.eqb command
       "nvidia-smi -q | grep -A2 'ECC Errors' | grep 'DRAM Uncorrectable'"
  then (Some demo_ecc_report, w)
  else if String.eqb command
       "nvidia-smi --query-gpu=driver_version --format=csv,noheader"
  then (Some "535.104.05", w)
  else (Some "", w).

Definition demo_nvml (i : nat) (w : unit) : Result NvmlReading * unit :=
  (Ok demo_reading, w).

Definition demo_monitor : GPUMonitor := {|
  data_queue := Queue_init 50;
  device_count := 2;
  driver_version := Some "535.104.05";
  _last_ecc_check := 0;
  _last_power_check := 0;
  _last_driver_check := 0
|}.

(** A manager with the given subscribers and a fresh detector. *)
Definition manager_with (conns : list Conn) : WebSocketManager := {|
  active_connections := conns;
  gpu_monitor := demo_monitor;
  anomaly_detector := GPUAnomalyDetector_init 10
|}.

Definition Io_init : Io := {| sent := []; logged := [] |}.

(** Socket [1] is gone, the others take what they are sent. *)
Definition send_first_fails (c : Conn) (data : Envelope) : Result unit :=
  if Nat.eqb c 1 then Raise (OtherError "connection closed") else Ok tt.

Definition envelope_of (items : list (string * Sample)) : Envelope :=
  {| timestamp := "2024-01-01T00:00:00"; metrics := items; status := None |}.

(** The device map of a tick of the two-device machine, and its entries. *)
Definition demo_snapshot : list (string * Sample) :=
  (get_metrics unit demo_shell demo_nvml 1700000000 demo_monitor tt).1.1.

Definition demo_sample (k : string) : Sample := default ∅ (dict_get k demo_snapshot).

(** The envelope [broadcast] delivers for a healthy device. *)
Definition demo_delivered : Envelope :=
  set_status [("gpu_0", ("稳定", "正常负载 | 驱动 535.104.05"))]
    (envelope_of [("gpu_0", sample_normal)]).

(** [datetime.fromisoformat] on the time stamp of the examples. *)
Definition demo_fromisoformat (s : string) : Result Q :=
  if String.eqb s "2024-01-01T00:00:00" then Ok 1704067200%Q else Raise ValueError.

(** ** The history window *)

Ltac meth_unfold :=
  unfold mbind, Meth_bind, mret, Meth_ret, get_self, set_history, lift,
         load_window, store_window, getitem, contains; simpl.

Lemma update_eq gpu_id m self :
  update gpu_id m self =
  (Ok tt, {| window_size := window_size self;
             history := <[gpu_id := evict (window_size self) (window self gpu_id ++ [m])]>
                          (history self);
             thresholds := thresholds self |}).
Proof.
  unfold update, window, evict.
  destruct self as [ws h th]. meth_unfold.
  destruct (h !! gpu_id) as [w|] eqn:E; simpl.
  - rewrite E. simpl. rewrite lookup_insert_eq. simpl.
    destruct (ws <? Z.of_nat (length (w ++ [m]))) eqn:L.
    + destruct (w ++ [m])%list as [|x t] eqn:A.
      * destruct w; discriminate.
      * meth_unfold. by rewrite insert_insert_eq.
    + done.
  - rewrite lookup_insert_eq. simpl. rewrite lookup_insert_eq. simpl.
    change (Z.of_nat 1) with 1.
    destruct (ws <? 1) eqn:L; meth_unfold; by rewrite !insert_insert_eq.
Qed.

Lemma run_updates_snoc calls gpu_id m self :
  run_updates (calls ++ [(gpu_id, m)]) self
  = (update gpu_id m (run_updates calls self)).2.
Proof. unfold run_updates. by rewrite foldl_app. Qed.

Lemma run_updates_window_size calls self :
  window_size (run_updates calls self) = window_size self.
Proof.
  induction calls as [|[g m] calls IH] using rev_ind; [done|].
  rewrite run_updates_snoc, update_eq. simpl. exact IH.
Qed.

Lemma last_n_length {A} n (l : list A) : length (last_n n l) = Nat.min n (length l).
Proof. unfold last_n. rewrite length_drop. lia. Qed.

Lemma last_n_snoc (n : nat) (l : list Sample) (x : Sample) :
  evict (Z.of_nat n) (last_n n l ++ [x]) = last_n n (l ++ [x]).
Proof.
  unfold evict, last_n. rewrite !length_app, length_drop. simpl.
  destruct (Z.of_nat n <? Z.of_nat (length l - (length l - n) + 1)) eqn:L.
  - apply Z.ltb_lt in L.
    assert (n <= length l)%nat by lia.
    replace (length l + 1 - n)%nat with ((length l - n) + 1)%nat by lia.
    rewrite <- drop_drop.
    rewrite (drop_app_le l [x] (length l - n)) by lia.
    by destruct (drop (length l - n) l ++ [x])%list.
  - apply Z.ltb_ge in L.
    replace (length l - n)%nat with 0%nat by lia.
    replace (length l + 1 - n)%nat with 0%nat by lia.
    done.
Qed.

Lemma samples_of_snoc gpu_id calls g m :
  samples_of gpu_id (calls ++ [(g, m)])
  = (samples_of gpu_id calls ++ if decide (g = gpu_id) then [m] else [])%list.
Proof.
  unfold samples_of. rewrite filter_app, fmap_app. f_equal.
  rewrite filter_cons. simpl. by destruct (decide (g = gpu_id)).
Qed.

Lemma run_updates_history (n : nat) calls gpu_id :
  history (run_updates calls (GPUAnomalyDetector_init (Z.of_nat n))) !! gpu_id
  = match samples_of gpu_id calls with
    | [] => None
    | _ :: _ => Some (last_n n (samples_of gpu_id calls))
    end.
Proof.
  induction calls as [|[g m] calls IH] using rev_ind; [done|].
  rewrite run_updates_snoc, update_eq, samples_of_snoc,
    run_updates_window_size. simpl.
  destruct (decide (g = gpu_id)) as [->|Hne].
  - rewrite lookup_insert_eq.
    assert (window (run_updates calls (GPUAnomalyDetector_init (Z.of_nat n))) gpu_id
            = last_n n (samples_of gpu_id calls)) as ->.
    { unfold window. rewrite IH. by destruct (samples_of gpu_id calls). }
    rewrite last_n_snoc.
    by destruct (samples_of gpu_id calls).
  - rewrite lookup_insert_ne by done. by rewrite app_nil_r.
Qed.

Lemma run_updates_window (n : nat) calls gpu_id :
  window (run_updates calls (GPUAnomalyDetector_init (Z.of_nat n))) gpu_id
  = last_n n (samples_of gpu_id calls).
Proof.
  unfold window. rewrite run_updates_history.
  by destruct (samples_of gpu_id calls).
Qed.

(** C7. For every device and every sequence of [update] calls made on a
    fresh detector of capacity [ws]: the window of the device is never longer
    than [ws]; it holds the last [ws] samples the device received, in arrival
    order, the most recent one last; it exists as soon as the device received
    a sample; and one more [update] returns, creates the window if need be,
    appends its sample and, when that exceeds the capacity, drops the oldest
    entry and nothing else. *)
Theorem history_window_bounded_fifo (ws : Z) (calls : list (string * Sample))
    (gpu_id : string) :
  0 <= ws ->
  let self := run_updates calls (GPUAnomalyDetector_init ws) in
  Z.of_nat (length (window self gpu_id)) <= ws
  /\ window self gpu_id = last_n (Z.to_nat ws) (samples_of gpu_id calls)
  /\ (is_Some (history self !! gpu_id) <-> samples_of gpu_id calls <> [])
  /\ forall m : Sample,
       (update gpu_id m self).1 = Ok tt
       /\ history (update gpu_id m self).2 !! gpu_id
          = Some (if Z.of_nat (length (window self gpu_id)) <? ws
                  then window self gpu_id ++ [m]
                  else tail (window self gpu_id ++ [m]))%list.
Proof.
  intros Hws self. subst self.
  remember (Z.to_nat ws) as n eqn:Hn.
  assert (ws = Z.of_nat n) as -> by lia. clear Hn Hws.
  rewrite !run_updates_window. repeat split.
  - rewrite last_n_length. lia.
  - rewrite run_updates_history.
    destruct (samples_of gpu_id calls); [intros [? ?]; discriminate | done].
  - rewrite run_updates_history.
    destruct (samples_of gpu_id calls); [done | eauto].
  - by rewrite update_eq.
  - rewrite update_eq. simpl. rewrite lookup_insert_eq, run_updates_window_size.
    rewrite run_updates_window. simpl. f_equal.
    unfold evict. rewrite length_app. simpl.
    rewrite last_n_length.
    destruct (Z.of_nat n <? Z.of_nat (n `min` length (samples_of gpu_id calls) + 1)) eqn:A;
      destruct (Z.of_nat (n `min` length (samples_of gpu_id calls)) <? Z.of_nat n) eqn:B;
      try done;
      rewrite ?Z.ltb_lt, ?Z.ltb_ge in A, B; lia.
Qed.

(** ** The classifier *)

Lemma Result_bind_Ok {A B} (f : A -> Result B) (a : A) : (Ok a ≫= f) = f a.
Proof. reflexivity. Qed.

Lemma Result_bind_Raise {A B} (f : A -> Result B) (e : exn) :
  (Raise e ≫= f) = Raise e.
Proof. reflexivity. Qed.

Lemma Result_ret_Ok {A} (a : A) : mret a = Ok a.
Proof. reflexivity. Qed.

Lemma returns_of_ok {A} (r : Result A) :
  match r with Ok _ => true | Raise _ => false end = true -> returns r.
Proof. destruct r as [a|e]; [by exists a | done]. Qed.

Ltac result_norm :=
  repeat first
    [ rewrite Result_ret_Ok
    | rewrite Result_bind_Ok
    | rewrite Result_bind_Raise
    | progress (cbn [app when_msg orb andb negb]) ].

(** The term a monadic expression waits for: the scrutinee at its head. *)
Ltac head_scrut t :=
  lazymatch t with
  | mbind _ ?x => head_scrut x
  | match ?x with _ => _ end => head_scrut x
  | app ?a _ => head_scrut a
  | when_msg ?b _ => head_scrut b
  | _ => t
  end.

(** One step of symbolic execution of [lhs = _ -> _]: case analysis on the
    scrutinee at the head of [lhs], wherever it occurs in the goal. *)
Ltac exec_step :=
  lazymatch goal with
  | |- ?l = _ -> _ =>
    let x := head_scrut l in
    lazymatch x with
    | Ok _ => fail
    | Raise _ => fail
    | mret _ => fail
    | _ => destruct x eqn:?; result_norm; try (intros ?; discriminate)
    end
  end.
Ltac exec := repeat exec_step.

Lemma mapM_Result_cons {A B} (f : A -> Result B) x l :
  mapM f (x :: l)
  = match f x with
    | Ok y => match mapM f l with Ok k => Ok (y :: k) | Raise e => Raise e end
    | Raise e => Raise e
    end.
Proof. reflexivity. Qed.

Lemma mapM_option_cons {A B} (f : A -> option B) x l :
  mapM f (x :: l)
  = match f x with
    | Some y => match mapM f l with Some k => Some (y :: k) | None => None end
    | None => None
    end.
Proof. simpl. destruct (f x); [|done]. simpl. by destruct (mapM f l). Qed.

(** Reading a field off every sample of a window: the column, or the
    [KeyError] of the first sample that lacks the field. *)
Lemma mapM_getitem_column k (w : list Sample) :
  mapM (fun m => getitem m k) w
  = match column k w with
    | Some vs => Ok vs
    | None => Raise (KeyError k)
    end.
Proof.
  unfold column. induction w as [|m w IH]; [done|].
  rewrite mapM_Result_cons, mapM_option_cons, IH. unfold getitem.
  destruct (m !! k) as [v|]; [|done].
  by destruct (mapM (fun m0 : Sample => m0 !! k) w).
Qed.



Section Classifier.

Variable fmt_float : float -> string.
Variable fmt_percent1 : float -> string.
Variable fmt_sigma1 : float -> string.
Variable np_std : list value -> Result float.

Local Abbreviation classifyF := (classify fmt_float fmt_percent1 fmt_sigma1 np_std).
Local Abbreviation detectF := (detect fmt_float fmt_percent1 fmt_sigma1 np_std).
Local Abbreviation status_ofF := (status_of np_std).

Lemma detect_eq gpu_id self :
  detectF gpu_id self
  = (match history self !! gpu_id with
     | None | Some [] => Ok (CRITICAL, "无监控数据")
     | Some w => classifyF (thresholds self) w
     end, self).
Proof.
  unfold detect. 
  destruct (history self !! gpu_id) as [[|m w]|] eqn:E; meth_unfold;
    rewrite ?E; simpl; rewrite ?E; done.
Qed.

Lemma std_warnings_Ok th w l :
  std_warnings fmt_sigma1 np_std th w = Ok l ->
  field_std_ge np_std "utilization_gpu" (util_std_warning th) w
  || field_std_ge np_std "power_draw" (power_std_warning th) w
  = match l with [] => false | _ :: _ => true end.
Proof.
  unfold std_warnings, field_std_ge, std_of.
  destruct (3 <=? length w)%nat; [|by intros [= <-]].
  rewrite !mapM_getitem_column.
  destruct (column "utilization_gpu" w) as [us|]; result_norm; [|done].
  destruct (np_std us) as [su|]; result_norm; [|done].
  destruct (column "power_draw" w) as [ps|]; result_norm; [|done].
  destruct (np_std ps) as [sp|]; result_norm; [|done].
  intros [= <-].
  destruct (float_ge su (util_std_warning th)),
    (float_ge sp (power_std_warning th)); done.
Qed.

Lemma classify_status th w s reason :
  classifyF th w = Ok (s, reason) ->
  s = if critical_condition th w then CRITICAL
      else if fluctuating_condition np_std th w then FLUCTUATING else NORMAL.
Proof.
  unfold classify, critical_condition, fluctuating_condition, liveness_false,
    power_error_set, ecc_positive, temperature_ge, memory_ratio_ge, memory_ratio,
    load_tag, driver_tag, split_first,
    num_field, key_and, py_ge, py_gt, py_lt, py_gt_int, py_num, getitem.
  destruct (last w) as [latest|]; [|done].
  exec.
  all: intros ?; simplify_eq.
  all: repeat match goal with
       | H : std_warnings _ _ _ _ = Ok _ |- _ =>
         rewrite (std_warnings_Ok _ _ _ H); clear H
       end; result_norm; try reflexivity.
Qed.

Lemma std_warnings_total th w :
  std_computed np_std w = true ->
  exists l, std_warnings fmt_sigma1 np_std th w = Ok l.
Proof.
  unfold std_computed, std_warnings, std_of.
  destruct (3 <=? length w)%nat eqn:L; [|eauto].
  replace (length w <? 3)%nat with false
    by (symmetry; apply Nat.ltb_ge; by apply Nat.leb_le).
  simpl. rewrite !mapM_getitem_column.
  intros [Hu Hp]%andb_prop.
  apply bool_decide_eq_true in Hu as [su Hu], Hp as [sp Hp].
  destruct (column "utilization_gpu" w) as [us|]; [|done]. result_norm.
  destruct (np_std us) as [su'|]; [|done]. result_norm.
  destruct (column "power_draw" w) as [ps|]; [|done]. result_norm.
  destruct (np_std ps) as [sp'|]; [|done]. result_norm.
  eexists. reflexivity.
Qed.

Lemma std_warnings_total_inv th w l :
  std_warnings fmt_sigma1 np_std th w = Ok l -> std_computed np_std w = true.
Proof.
  unfold std_computed, std_warnings, std_of.
  destruct (3 <=? length w)%nat eqn:L.
  - replace (length w <? 3)%nat with false
      by (symmetry; apply Nat.ltb_ge; by apply Nat.leb_le).
    simpl. rewrite !mapM_getitem_column.
    destruct (column "utilization_gpu" w) as [us|]; [|done]. result_norm.
    destruct (np_std us) as [su'|]; [|done]. result_norm.
    destruct (column "power_draw" w) as [ps|]; [|done]. result_norm.
    destruct (np_std ps) as [sp'|]; [|done]. intros _.
    apply andb_true_intro. split; apply bool_decide_eq_true; eauto.
  - intros _. apply Nat.leb_gt in L.
    by replace (length w <? 3)%nat with true by (symmetry; by apply Nat.ltb_lt).
Qed.

Ltac classify_unfold :=
  unfold classify, status_of, critical_condition, fluctuating_condition,
    liveness_false, power_error_set, ecc_positive, temperature_ge,
    memory_ratio_ge, memory_ratio, latest_numeric,
    driver_version_ok, load_tag, driver_tag, split_first,
    num_field, key_and, py_ge, py_gt, py_lt, py_gt_int, py_num, getitem.

Ltac use_std_warnings :=
  repeat match goal with
         | H : std_warnings _ _ _ _ = Ok _ |- _ =>
           rewrite (std_warnings_Ok _ _ _ H); clear H
         end; result_norm.

Ltac no_ratio :=
  try match goal with
      | H : is_Some None |- _ => by destruct H
      end.

(** Sufficient for a result: numbers where numbers are compared, a
    memory ratio and standard deviations that can be computed and, where
    the normal description is built, a driver version with a token. *)
Lemma classify_returns th w latest :
  last w = Some latest ->
  latest_numeric latest = true ->
  std_computed np_std w = true ->
  is_Some (memory_ratio latest) ->
  (status_ofF th w = NORMAL -> driver_version_ok latest = true) ->
  exists reason, classifyF th w = Ok (status_ofF th w, reason).
Proof.
  intros Hl Hn Hs. destruct (std_warnings_total th w Hs) as [l El].
  revert Hn. generalize (eq_refl (classifyF th w)).
  generalize (classifyF th w) at 2 3. intros r.
  classify_unfold. rewrite Hl, El. clear Hs Hl.
  exec.
  all: intros <-; use_std_warnings; cbn [is_num andb orb negb]; intros.
  all: no_ratio.
  all: try discriminate.
  all: try (eexists; reflexivity).
  all: try match goal with
           | H : ?a = ?a -> _ |- _ => specialize (H eq_refl); discriminate
           end.
Qed.



Lemma Qle_bool_true (a b : Q) : (a <= b)%Q -> Qle_bool a b = true.
Proof. apply Qle_bool_iff. Qed.

Lemma Qle_bool_false (a b : Q) : (b < a)%Q -> Qle_bool a b = false.
Proof.
  intros H. destruct (Qle_bool a b) eqn:E; [|done].
  apply Qle_bool_iff in E. lra.
Qed.

Lemma last_Some_window {A} (w : list A) x :
  last w = Some x -> exists y t, w = y :: t.
Proof. destruct w; [done | eauto]. Qed.

Lemma detect_eq_classify gpu_id self w latest :
  history self !! gpu_id = Some w ->
  last w = Some latest ->
  detectF gpu_id self = (classifyF (thresholds self) w, self).
Proof.
  intros Hw Hl. rewrite detect_eq, Hw.
  by destruct (last_Some_window _ _ Hl) as (y & t & ->).
Qed.

(** A false liveness flag in the latest sample settles the outcome. *)
Lemma liveness_short_circuit th w latest :
  last w = Some latest ->
  liveness_false latest = true ->
  classifyF th w = Ok (CRITICAL, "nvidia-smi 响应异常").
Proof.
  intros Hl Hlive. unfold classify, key_and. rewrite Hl.
  unfold liveness_false in Hlive.
  destruct (latest !! "nvidia_smi_ok") as [v|]; [|done]. by rewrite Hlive.
Qed.

Lemma last_evict ws (w : list Sample) m :
  evict ws (w ++ [m]) = [] \/ last (evict ws (w ++ [m])) = Some m.
Proof.
  unfold evict. destruct (ws <? Z.of_nat (length (w ++ [m]))).
  - destruct w as [|x w]; [by left|]. right. simpl. apply last_snoc.
  - right. apply last_snoc.
Qed.

(** Right after an [update] with a sample whose liveness flag is false,
    [detect] returns, whatever the detector held before. *)
Lemma detect_returns_after_liveness_false gpu_id m det :
  liveness_false m = true ->
  returns (detectF gpu_id (update gpu_id m det).2).1.
Proof.
  intros Hlive. rewrite update_eq, detect_eq. simpl. rewrite lookup_insert_eq.
  destruct (last_evict (window_size det) (window det gpu_id) m) as [->|Hl];
    [by eexists|].
  destruct (evict _ _) as [|x k] eqn:E; [by eexists|].
  rewrite (liveness_short_circuit _ _ m Hl Hlive). by eexists.
Qed.

(** C4, amended. For every window whose latest sample has a true liveness
    flag and a power-error field set to a non-empty string, [detect]
    returns [CRITICAL] with the reason made of the fixed prefix
    ["供电异常: "] followed by the content of that field, and leaves the
    detector as it was; nothing else of the window is looked at, so the
    result stands whatever the other fields hold or lack. *)
Theorem power_error_short_circuit (gpu_id : string) (self : GPUAnomalyDetector)
    (w : list Sample) (latest : Sample) (msg : string) :
  history self !! gpu_id = Some w ->
  last w = Some latest ->
  latest !! "nvidia_smi_ok" = Some (VBool true) ->
  latest !! "power_error" = Some (VStr msg) ->
  msg <> "" ->
  detectF gpu_id self = (Ok (CRITICAL, "供电异常: " +:+ msg), self).
Proof.
  intros Hw Hl Hok Hpe Hmsg. rewrite (detect_eq_classify _ _ _ _ Hw Hl). f_equal.
  unfold classify, key_and, getitem. rewrite Hl, Hok, Hpe. simpl.
  apply String.eqb_neq in Hmsg. by rewrite Hmsg.
Qed.

(** C5. Whenever [detect] gives a status for a device: if a critical
    condition holds of its window (empty window, liveness flag false, power
    error set, ECC errors above zero, temperature at or above
    [temp_critical], memory ratio at or above [memory_critical]) the status
    is neither [FLUCTUATING] nor [NORMAL]; and if a fluctuating condition
    holds (standard deviation of the utilisation or of the power draw at or
    above its bound over a window of three samples or more, temperature at
    or above [temp_warning], memory ratio at or above [memory_high]) and no
    critical one, the status is not [NORMAL]. The memory ratio is the
    double the division gives and the standard deviations are those numpy
    gives, whatever its rounding. *)
Theorem severity_ordering (gpu_id : string) (self : GPUAnomalyDetector)
    (s : GPUStatus) (reason : string) :
  (detectF gpu_id self).1 = Ok (s, reason) ->
  (critical_condition (thresholds self) (window self gpu_id) = true ->
   s <> FLUCTUATING /\ s <> NORMAL)
  /\ (fluctuating_condition np_std (thresholds self) (window self gpu_id) = true ->
      critical_condition (thresholds self) (window self gpu_id) = false ->
      s <> NORMAL).
Proof.
  rewrite detect_eq. unfold window. simpl.
  destruct (history self !! gpu_id) as [[|m w]|]; simpl.
  - intros [= <- _]. done.
  - intros ->%classify_status.
    destruct (critical_condition _ _), (fluctuating_condition _ _ _); done.
  - intros [= <- _]. done.
Qed.

(** A memory ratio below the default [memory_high] is below the default
    [memory_critical]. *)
Lemma below_high_below_critical (r : float) :
  float_ge r (memory_high default_thresholds) = false ->
  float_ge r (memory_critical default_thresholds) = false.
Proof.
  unfold float_ge.
  let h := eval vm_compute in (float_num (memory_high default_thresholds)) in
  change (float_num (memory_high default_thresholds)) with h.
  let c := eval vm_compute in (float_num (memory_critical default_thresholds)) in
  change (float_num (memory_critical default_thresholds)) with c.
  destruct (float_num r) as [|[]|q]; simpl; try done.
  intros H. apply Qle_bool_false.
  destruct (Qlt_le_dec q (8106479329266893 # 9007199254740992)) as [Hq|Hq].
  - lra.
  - apply Qle_bool_iff in Hq. congruence.
Qed.

(** The default temperature bounds are the numbers 75 and 85. *)
Lemma default_temperature_bounds :
  exists qw qc,
    float_num (temp_warning default_thresholds) = XFin qw
    /\ float_num (temp_critical default_thresholds) = XFin qc
    /\ (qw == 75)%Q /\ (qc == 85)%Q.
Proof.
  let w := eval vm_compute in (float_num (temp_warning default_thresholds)) in
  let c := eval vm_compute in (float_num (temp_critical default_thresholds)) in
  match w with
  | XFin ?qw =>
    match c with
    | XFin ?qc => exists qw, qc
    end
  end.
  split; [vm_compute; reflexivity|]. split; [vm_compute; reflexivity|].
  split; reflexivity.
Qed.

(** C6. With the default thresholds, take a window whose latest sample is
    otherwise unremarkable: numbers where numbers are compared, liveness
    flag not false, no power error, no ECC error, a memory ratio that is
    computed and below [memory_high], standard deviations that numpy
    computes and that are below their bounds, a usable driver version.
    Then a temperature of exactly 85 classifies [CRITICAL], of exactly 75
    [FLUCTUATING], and any temperature below 75, such as the float 74.9,
    [NORMAL]. *)
Theorem temperature_boundaries (gpu_id : string) (self : GPUAnomalyDetector)
    (w : list Sample) (latest : Sample) (r : float) (t : Q) :
  thresholds self = default_thresholds ->
  history self !! gpu_id = Some w ->
  last w = Some latest ->
  latest_numeric latest = true ->
  std_computed np_std w = true ->
  liveness_false latest = false ->
  power_error_set latest = false ->
  ecc_positive latest = false ->
  memory_ratio latest = Some r ->
  float_ge r (memory_high default_thresholds) = false ->
  field_std_ge np_std "utilization_gpu" (util_std_warning default_thresholds) w = false ->
  field_std_ge np_std "power_draw" (power_std_warning default_thresholds) w = false ->
  driver_version_ok latest = true ->
  num_field "temperature" latest = Some (XFin t) ->
  (t == 85 -> exists reason, (detectF gpu_id self).1 = Ok (CRITICAL, reason))
  /\ (t == 75 -> exists reason, (detectF gpu_id self).1 = Ok (FLUCTUATING, reason))
  /\ ((t < 75)%Q ->
      exists reason, (detectF gpu_id self).1 = Ok (NORMAL, reason)).
Proof.
  intros Hth Hw Hl Hn Hs Hlive Hpow Hecc Hmem Hr Hu Hp Hdrv Ht.
  rewrite (detect_eq_classify _ _ _ _ Hw Hl), Hth. simpl.
  assert (is_Some (memory_ratio latest)) as Hsome by (rewrite Hmem; eauto).
  pose proof (classify_returns default_thresholds w latest Hl Hn Hs Hsome (fun _ => Hdrv))
    as [reason Hc].
  revert Hc. unfold status_of, critical_condition, fluctuating_condition.
  rewrite Hl, Hlive, Hpow, Hecc. unfold temperature_ge, memory_ratio_ge.
  rewrite Hmem, Ht, Hu, Hp, Hr, (below_high_below_critical r Hr).
  destruct default_temperature_bounds as (qw & qc & -> & -> & Hqw & Hqc).
  cbn [xle orb].
  intros Hc. repeat split; intros Et.
  - rewrite (Qle_bool_true qc t) in Hc by lra. simpl in Hc. eauto.
  - rewrite (Qle_bool_false qc t), (Qle_bool_true qw t) in Hc by lra. simpl in Hc. eauto.
  - rewrite (Qle_bool_false qc t), (Qle_bool_false qw t) in Hc by lra. simpl in Hc. eauto.
Qed.


(** C8. [detect] is a function of the window of the device and of the
    thresholds alone, and it changes nothing: the detector it leaves is the
    detector it was given, two successive calls give the same outcome, and
    two detectors that agree on the window of the device and on the
    thresholds give the same outcome. *)
Theorem detect_deterministic_and_pure (gpu_id : string)
    (self other : GPUAnomalyDetector) :
  history other !! gpu_id = history self !! gpu_id ->
  thresholds other = thresholds self ->
  (detectF gpu_id self).2 = self
  /\ (detectF gpu_id (detectF gpu_id self).2).1 = (detectF gpu_id self).1
  /\ (detectF gpu_id (detectF gpu_id self).2).2 = self
  /\ (detectF gpu_id other).1 = (detectF gpu_id self).1
  /\ (detectF gpu_id other).2 = other.
Proof.
  intros Hw Hth. rewrite !detect_eq. simpl. rewrite ?detect_eq. simpl.
  rewrite Hw, Hth. done.
Qed.

End Classifier.

(** ** The sample queue *)

Lemma last_n_snoc_tail {A} (n : nat) (l : list A) (x : A) :
  (1 <= n)%nat ->
  last_n n (l ++ [x])
  = ((if (n <=? length l)%nat then tail (last_n n l) else last_n n l) ++ [x])%list.
Proof.
  intros Hn. unfold last_n. rewrite length_app. simpl.
  destruct (n <=? length l)%nat eqn:L.
  - apply Nat.leb_le in L.
    replace (length l + 1 - n)%nat with ((length l - n) + 1)%nat by lia.
    rewrite drop_app_le by lia. f_equal.
    rewrite <- drop_drop. by destruct (drop (length l - n) l).
  - apply Nat.leb_gt in L.
    replace (length l - n)%nat with 0%nat by lia.
    replace (length l + 1 - n)%nat with 0%nat by lia.
    done.
Qed.

Lemma last_last_n {A} (n : nat) (l : list A) :
  (1 <= n)%nat -> last (last_n n l) = last l.
Proof.
  intros Hn. destruct l as [|y l] using rev_ind; [done|].
  rewrite last_n_snoc_tail by done. by rewrite !last_snoc.
Qed.

Lemma push_all_snoc {A} (xs : list A) x q :
  push_all (xs ++ [x]) q = push_all xs q ≫= push x.
Proof.
  revert q. induction xs as [|y xs IH]; intros q; simpl.
  - by destruct (push x q).
  - destruct (push y q) as [q'|]; simpl; [apply IH | done].
Qed.

Lemma push_retained {A} (ms : Z) (xs : list A) (x : A) :
  push x {| maxsize := ms; items := retained ms xs |}
  = Some {| maxsize := ms; items := retained ms (xs ++ [x]) |}.
Proof.
  unfold push, full, get, put, qsize, retained. simpl.
  destruct (0 <? ms) eqn:Hms; simpl.
  - apply Z.ltb_lt in Hms.
    rewrite last_n_snoc_tail by lia. rewrite last_n_length.
    destruct (ms <=? Z.of_nat (Z.to_nat ms `min` length xs)) eqn:F.
    + apply Z.leb_le in F.
      replace (Z.to_nat ms <=? length xs)%nat with true
        by (symmetry; apply Nat.leb_le; lia).
      destruct (last_n (Z.to_nat ms) xs) as [|y r] eqn:E.
      { apply (f_equal length) in E. rewrite last_n_length in E. simpl in E. lia. }
      simpl. apply (f_equal length) in E. rewrite last_n_length in E. simpl in E.
      replace (ms <=? Z.of_nat (length r)) with false
        by (symmetry; apply Z.leb_gt; lia).
      by rewrite andb_false_r.
    + apply Z.leb_gt in F. simpl.
      replace (Z.to_nat ms <=? length xs)%nat with false
        by (symmetry; apply Nat.leb_gt; lia).
      rewrite last_n_length.
      replace (ms <=? Z.of_nat (Z.to_nat ms `min` length xs)) with false
        by (symmetry; apply Z.leb_gt; lia).
      by rewrite andb_false_r.
  - by rewrite Hms.
Qed.

Lemma push_all_retained {A} (ms : Z) (xs : list A) :
  push_all xs (Queue_init ms) = Some {| maxsize := ms; items := retained ms xs |}.
Proof.
  induction xs as [|x xs IH] using rev_ind.
  - unfold Queue_init, retained. simpl. by destruct (0 <? ms).
  - rewrite push_all_snoc, IH. simpl. apply push_retained.
Qed.

(** ** The broadcast coordinator *)

Section Coordinator.

Variable fmt_float : float -> string.
Variable fmt_percent1 : float -> string.
Variable fmt_sigma1 : float -> string.
Variable np_std : list value -> Result float.
Variable isoformat : Q -> string.

Local Abbreviation detectF := (detect fmt_float fmt_percent1 fmt_sigma1 np_std).
Local Abbreviation status_loopF :=
  (status_loop fmt_float fmt_percent1 fmt_sigma1 np_std).
Local Abbreviation broadcast_toF :=
  (broadcast_to fmt_float fmt_percent1 fmt_sigma1 np_std).
Local Abbreviation broadcastF := (broadcast fmt_float fmt_percent1 fmt_sigma1 np_std).
Local Abbreviation serve := (serve fmt_float fmt_percent1 fmt_sigma1 np_std).

Lemma status_loop_cons gpu_id m items info det :
  status_loopF ((gpu_id, m) :: items) info det
  = match (detectF gpu_id (update gpu_id m det).2).1 with
    | Ok (s, reason) =>
      status_loopF items (dict_set gpu_id (GPUStatus_value s, reason) info)
        (update gpu_id m det).2
    | Raise e => (Raise e, (update gpu_id m det).2)
    end.
Proof.
  simpl. unfold mbind, Meth_bind. rewrite update_eq. simpl.
  rewrite detect_eq. simpl.
  by destruct (match _ with Some _ => _ | None => _ end) as [[s reason]|e].
Qed.

Lemma update_window_other gpu_id m det d :
  gpu_id <> d -> window (update gpu_id m det).2 d = window det d.
Proof.
  intros Hne. rewrite update_eq. unfold window. simpl.
  by rewrite lookup_insert_ne.
Qed.

Lemma update_window_same gpu_id m det :
  window (update gpu_id m det).2 gpu_id
  = append_evict (window_size det) m (window det gpu_id).
Proof.
  rewrite update_eq. unfold window at 1. simpl. by rewrite lookup_insert_eq.
Qed.

Lemma update_window_size gpu_id m det :
  window_size (update gpu_id m det).2 = window_size det.
Proof. by rewrite update_eq. Qed.

Lemma status_loop_window_size items info det :
  window_size (status_loopF items info det).2 = window_size det.
Proof.
  revert info det. induction items as [|[g m] items IH]; intros info det; [done|].
  rewrite status_loop_cons.
  destruct (detectF g (update g m det).2).1 as [[s reason]|e]; simpl.
  - by rewrite IH, update_window_size.
  - apply update_window_size.
Qed.

(** A pass over devices other than [d] leaves the window of [d] alone. *)
Lemma status_loop_window_other items info det d :
  d ∉ items.*1 -> window (status_loopF items info det).2 d = window det d.
Proof.
  revert info det. induction items as [|[g m] items IH]; intros info det Hd; [done|].
  rewrite fmap_cons, not_elem_of_cons in Hd. destruct Hd as [Hne Hd].
  rewrite status_loop_cons.
  destruct (detectF g (update g m det).2).1 as [[s reason]|e]; simpl.
  - rewrite IH by done. by apply update_window_other.
  - by apply update_window_other.
Qed.

(** A pass over a list of devices is the pass over its first part
    followed, when that returns, by the pass over the rest. *)
Lemma status_loop_app pre rest info det :
  status_loopF (pre ++ rest) info det
  = match status_loopF pre info det with
    | (Ok info', det') => status_loopF rest info' det'
    | (Raise e, det') => (Raise e, det')
    end.
Proof.
  revert info det. induction pre as [|[g m] pre IH]; intros info det; [done|].
  simpl app. rewrite !status_loop_cons.
  destruct (detectF g (update g m det).2).1 as [[s reason]|e]; [apply IH | done].
Qed.

(** Whether a pass returns does not depend on the entries it starts
    from. *)
Lemma status_loop_returns_info items info info0 det :
  returns (status_loopF items info det).1 ->
  returns (status_loopF items info0 det).1.
Proof.
  revert info info0 det.
  induction items as [|[g m] items IH]; intros info info0 det; [by eexists|].
  rewrite !status_loop_cons.
  destruct (detectF g (update g m det).2).1 as [[s reason]|e]; [apply IH | done].
Qed.

(** A pass that reaches [d] gives its window one copy of its sample. *)
Lemma status_loop_window_reached pre post d m info det :
  d ∉ pre.*1 -> d ∉ post.*1 ->
  returns (status_loopF pre [] det).1 ->
  window (status_loopF (pre ++ (d, m) :: post) info det).2 d
  = append_evict (window_size det) m (window det d).
Proof.
  intros Hpre Hpost Hret.
  apply (status_loop_returns_info pre [] info) in Hret.
  rewrite status_loop_app.
  pose proof (status_loop_window_other pre info det d Hpre) as Hw.
  pose proof (status_loop_window_size pre info det) as Hs.
  destruct (status_loopF pre info det) as [[info'|e] det']; cbn [fst snd] in *;
    [|by destruct Hret].
  rewrite status_loop_cons.
  destruct (detectF d (update d m det').2).1 as [[s reason]|e]; simpl.
  - rewrite status_loop_window_other by done.
    by rewrite update_window_same, Hw, Hs.
  - by rewrite update_window_same, Hw, Hs.
Qed.

Lemma append_evict_iter (n N : nat) (m : Sample) (w : list Sample) :
  (length w <= n)%nat ->
  Nat.iter N (append_evict (Z.of_nat n) m) w = last_n n (w ++ replicate N m).
Proof.
  intros Hw. induction N as [|N IH].
  - simpl. rewrite app_nil_r. unfold last_n.
    by replace (length w - n)%nat with 0%nat by lia.
  - rewrite replicate_S_end, app_assoc. simpl. rewrite IH.
    apply last_n_snoc.
Qed.

Lemma foldl_cons_eq {A B} (f : A -> B -> A) a x l :
  foldl f a (x :: l) = foldl f (f a x) l.
Proof. reflexivity. Qed.

Lemma broadcast_to_state send_json c data self io :
  let st := broadcast_toF send_json c (data, self, io) in
  anomaly_detector st.1.2
  = (status_loopF (metrics data) [] (anomaly_detector self)).2
  /\ active_connections st.1.2 = active_connections self
  /\ gpu_monitor st.1.2 = gpu_monitor self
  /\ metrics st.1.1 = metrics data.
Proof.
  unfold broadcast_to.
  destruct (status_loopF (metrics data) [] (anomaly_detector self)) as [[info|e] det'];
    simpl; [|done].
  by destruct (send_json c (set_status info data)).
Qed.

Lemma broadcast_fold_state send_json conns data self io :
  let st := foldl (fun st c => broadcast_toF send_json c st) (data, self, io) conns in
  anomaly_detector st.1.2 = Nat.iter (length conns) (serve data) (anomaly_detector self)
  /\ active_connections st.1.2 = active_connections self
  /\ gpu_monitor st.1.2 = gpu_monitor self
  /\ metrics st.1.1 = metrics data.
Proof.
  revert data self io. induction conns as [|c conns IH]; intros data self io; [done|].
  rewrite foldl_cons_eq. simpl length. rewrite Nat.iter_succ_r.
  destruct (broadcast_toF send_json c (data, self, io)) as [[data' self'] io'] eqn:E.
  pose proof (broadcast_to_state send_json c data self io) as H.
  rewrite E in H. simpl in H. destruct H as (Hd & Hc & Hg & Hm).
  specialize (IH data' self' io'). simpl in IH.
  destruct IH as (IH1 & IH2 & IH3 & IH4).
  assert (serve data (anomaly_detector self) = anomaly_detector self') as ->
    by (unfold serve; done).
  assert (serve data = serve data') as -> by (unfold serve; by rewrite Hm).
  repeat split; congruence.
Qed.

Lemma serve_iter_window data pre post d m N det :
  metrics data = (pre ++ (d, m) :: post)%list ->
  d ∉ pre.*1 -> d ∉ post.*1 ->
  (forall j, (j < N)%nat ->
             returns (status_loopF pre [] (Nat.iter j (serve data) det)).1) ->
  window_size (Nat.iter N (serve data) det) = window_size det
  /\ window (Nat.iter N (serve data) det) d
     = Nat.iter N (append_evict (window_size det) m) (window det d).
Proof.
  intros Hm Hpre Hpost. induction N as [|N IH]; intros Hret; [done|].
  destruct IH as [IHs IHw]; [intros j Hj; apply Hret; lia|].
  simpl. unfold serve at 1 3. rewrite Hm.
  rewrite status_loop_window_size, status_loop_window_reached;
    [|done|done|apply Hret; lia].
  by rewrite IHs, IHw.
Qed.

Lemma broadcast_fold_isolated send_json base conns data self io io_ok :
  isolated send_json base io io_ok ->
  let st := foldl (fun st c => broadcast_toF send_json c st) (data, self, io) conns in
  let st_ok := foldl (fun st c => broadcast_toF send_ok c st) (data, self, io_ok) conns in
  st.1 = st_ok.1 /\ isolated send_json base st.2 st_ok.2.
Proof.
  revert data self io io_ok.
  induction conns as [|c conns IH]; intros data self io io_ok HR; [done|].
  rewrite !foldl_cons_eq. unfold broadcast_to at 2 4.
  destruct (status_loopF (metrics data) [] (anomaly_detector self)) as [[info|e] det'].
  - unfold send_ok at 2.
    destruct (send_json c (set_status info data)) as [u|e] eqn:Es; apply IH;
      destruct HR as (att & H1 & H2 & H3);
      exists (att ++ [(c, set_status info data)])%list; simpl;
      rewrite !List.filter_app, !length_app, H1, H2, H3; simpl;
      unfold accepted; simpl; rewrite Es; simpl;
      rewrite ?app_nil_r, ?app_assoc; repeat split; lia.
  - apply IH. destruct HR as (att & H1 & H2 & H3).
    exists att. simpl. rewrite !length_app, H3. simpl. repeat split; try done; lia.
Qed.

Lemma isolated_refl send_json io : isolated send_json (sent io) io io.
Proof. exists []. simpl. rewrite app_nil_r. repeat split; lia. Qed.

(** C2, amended. For every subscriber list and every envelope, a delivery
    that fails is caught and logged and costs that one delivery only: the
    envelopes delivered are those delivered when no socket fails, less the
    ones the failing sockets refused, one log record is written for each
    refusal, and the detector, the envelope and the subscriber list end up
    as they do when no socket fails. [broadcast] removes no subscriber,
    the failing ones included. *)
Theorem broadcast_failure_isolated (send_json : Conn -> Envelope -> Result unit)
    (data : Envelope) (self : WebSocketManager) (io : Io) :
  let st := broadcastF send_json data self io in
  let st_ok := broadcastF send_ok data self io in
  active_connections st.1.2 = active_connections self
  /\ st.1 = st_ok.1
  /\ isolated send_json (sent io) st.2 st_ok.2.
Proof.
  unfold broadcast. simpl. split.
  - apply (broadcast_fold_state send_json (active_connections self) data self io).
  - apply broadcast_fold_isolated, isolated_refl.
Qed.

(** C9, amended. [broadcast] updates the windows and classifies once per
    active connection. Take a snapshot that holds device [d] with sample
    [m], served to [N] connections, and suppose that in each of the [N]
    passes of this very broadcast [detect] returns for the devices that
    come before [d] in the snapshot. Then the window of [d] receives [N]
    copies of [m], each appended by one [update] with its eviction; with a
    capacity not below the length of the window before, that is the last
    [window_size] entries of the old window followed by [N] copies. With
    no active connection the broadcast changes nothing and sends
    nothing. *)
Theorem broadcast_updates_per_connection
    (send_json : Conn -> Envelope -> Result unit)
    (data : Envelope) (self : WebSocketManager) (io : Io)
    (pre post : list (string * Sample)) (d : string) (m : Sample) :
  metrics data = (pre ++ (d, m) :: post)%list ->
  d ∉ pre.*1 ->
  d ∉ post.*1 ->
  (forall j, (j < length (active_connections self))%nat ->
     returns (status_loopF pre []
                (Nat.iter j (serve data) (anomaly_detector self))).1) ->
  let det := anomaly_detector self in
  let N := length (active_connections self) in
  let det' := anomaly_detector (broadcastF send_json data self io).1.2 in
  window det' d = Nat.iter N (append_evict (window_size det) m) (window det d)
  /\ (0 <= window_size det ->
      Z.of_nat (length (window det d)) <= window_size det ->
      window det' d
      = last_n (Z.to_nat (window_size det)) (window det d ++ replicate N m))
  /\ (active_connections self = [] ->
      broadcastF send_json data self io = (data, self, io)).
Proof.
  intros Hm Hpre Hpost Hret det N det'.
  assert (window det' d
          = Nat.iter N (append_evict (window_size det) m) (window det d)) as Hw.
  { subst det'. unfold broadcast.
    destruct (broadcast_fold_state send_json (active_connections self) data self io)
      as (-> & _).
    by apply (serve_iter_window data pre post). }
  split; [done|]. split.
  - intros Hws Hlen. rewrite Hw.
    rewrite <- (Z2Nat.id (window_size det)) at 1 by done.
    apply append_evict_iter. lia.
  - intros Hnil. unfold broadcast. by rewrite Hnil.
Qed.

(** C1, amended. For every sequence of pushed snapshots, no push blocks or
    fails, whatever the capacity, and the queue then holds the last
    [maxsize] of them in arrival order (all of them when [maxsize] is not
    positive). Reading the queue returns all of that and removes nothing:
    the queue is the same afterwards, a second read with no push in
    between returns the same snapshots again, the entry the coordinator
    picks is the one pushed last, and a turn of the coordinator leaves the
    queue as it found it. A further push does not block either. *)
Theorem sample_queue_read_keeps_entries
    (send_json : Conn -> Envelope -> Result unit)
    (maxsize : Z) (xs : list Snapshot) :
  exists q : Queue Snapshot,
    push_all xs (Queue_init maxsize) = Some q
    /\ get_current_data q = (retained maxsize xs, q)
    /\ get_current_data (get_current_data q).2 = get_current_data q
    /\ last (get_current_data q).1 = last xs
    /\ (forall x, is_Some (push x q))
    /\ (forall self io,
          data_queue (gpu_monitor self) = q ->
          data_queue
            (gpu_monitor
               (start_monitoring_turn fmt_float fmt_percent1 fmt_sigma1 np_std
                  send_json isoformat self io).1) = q).
Proof.
  exists {| maxsize := maxsize; items := retained maxsize xs |}.
  split; [apply push_all_retained|]. split; [done|]. split; [done|].
  split; [|split].
  - simpl. unfold retained. destruct (0 <? maxsize) eqn:E; [|done].
    apply Z.ltb_lt in E. apply last_last_n. lia.
  - intros x. rewrite push_retained. eauto.
  - intros self io Hq. unfold start_monitoring_turn, get_current_data.
    destruct (last (items (data_queue (gpu_monitor self)))) as [latest_data|];
      [|by destruct self as [? []]; simpl in *].
    match goal with
    | |- context [broadcast _ _ _ _ _ ?data ?self' _] =>
      destruct (broadcast_fold_state send_json (active_connections self') data self' io)
        as (_ & _ & Hg & _)
    end.
    unfold broadcast.
    destruct (foldl _ _ _) as [[data' self'] io']. simpl in *.
    rewrite Hg. by destruct self as [? []]; simpl in *.
Qed.

End Coordinator.

(** ** The sampler *)

Lemma dict_get_set {V} (k k' : string) (v : V) (d : list (string * V)) :
  dict_get k (dict_set k' v d) = if String.eqb k' k then Some v else dict_get k d.
Proof.
  induction d as [|[k0 v0] d IH]; simpl; [done|].
  destruct (String.eqb k0 k') eqn:E0; simpl.
  - apply String.eqb_eq in E0. subst k0. by destruct (String.eqb k' k).
  - rewrite IH. destruct (String.eqb k' k) eqn:E1; [|done].
    apply String.eqb_eq in E1. subst k'. by rewrite E0.
Qed.

Lemma dict_get_set_field (k k' field : string) (v : value) (d : list (string * Sample)) :
  dict_get k (dict_set_field k' field v d)
  = if String.eqb k' k then (fun m => <[field := v]> m) <$> dict_get k d
    else dict_get k d.
Proof.
  unfold dict_set_field. destruct (dict_get k' d) as [m|] eqn:E.
  - rewrite dict_get_set. destruct (String.eqb k' k) eqn:E1; [|done].
    apply String.eqb_eq in E1. subst k'. by rewrite E.
  - destruct (String.eqb k' k) eqn:E1; [|done].
    apply String.eqb_eq in E1. subst k'. by rewrite E.
Qed.

Lemma string_of_nat_inj (i j : nat) : string_of_nat i = string_of_nat j -> i = j.
Proof.
  unfold string_of_nat. intros H.
  assert (forall n, Nat.to_uint n <> Decimal.Nil) as Hnil.
  { intros n E. pose proof (Unsigned.of_to n) as Hn. rewrite E in Hn.
    simpl in Hn. subst n. discriminate. }
  apply (f_equal NilZero.uint_of_string) in H.
  rewrite !NilZero.usu in H by apply Hnil.
  injection H as H. by apply Unsigned.to_uint_inj.
Qed.

Lemma gpu_key_inj (i j : nat) : gpu_key i = gpu_key j -> i = j.
Proof. unfold gpu_key. simpl. intros [= H]. by apply string_of_nat_inj. Qed.

Lemma basic_metrics_no_ecc (r : NvmlReading) :
  _get_basic_metrics r !! "ecc_errors" = None.
Proof. reflexivity. Qed.

Section SamplerFacts.

Variable World : Type.
Variable subprocess_run : string -> World -> option string * World.
Variable nvml_query : nat -> World -> Result NvmlReading * World.

Local Abbreviation get_metrics_deviceF :=
  (get_metrics_device World subprocess_run nvml_query).
Local Abbreviation get_metrics_loopF :=
  (get_metrics_loop World subprocess_run nvml_query).

(** After any iteration the ECC check is not due any more at this tick. *)
Lemma get_metrics_device_not_due current_time i self items w self' items' w' :
  get_metrics_deviceF current_time i (self, items, w) = (Some (self', items'), w') ->
  Qle_bool 60 (current_time - _last_ecc_check self') = false.
Proof.
  unfold get_metrics_device.
  destruct (nvml_query i w) as [[reading|e] w0]; [|done].
  destruct (Qle_bool 60 (current_time - _last_ecc_check self)) eqn:Due.
  - destruct (_check_ecc_errors World subprocess_run w0) as [ecc w1].
    destruct (Qle_bool 300 (current_time - _last_power_check _));
      [destruct (_check_power_errors World subprocess_run w1) as [pe w2]|];
      (destruct (Qle_bool 86400 (current_time - _last_driver_check _));
       [destruct (_get_driver_version World subprocess_run _) as [dv w3]|]);
      destruct (_check_nvidia_smi_hang World subprocess_run _) as [ok w4];
      intros [= <- _ _]; simpl; apply Qle_bool_false; lra.
  - destruct (Qle_bool 300 (current_time - _last_power_check _));
      [destruct (_check_power_errors World subprocess_run w0) as [pe w2]|];
      (destruct (Qle_bool 86400 (current_time - _last_driver_check _));
       [destruct (_get_driver_version World subprocess_run _) as [dv w3]|]);
      destruct (_check_nvidia_smi_hang World subprocess_run _) as [ok w4];
      intros [= <- _ _]; simpl; exact Due.
Qed.

(** An iteration at which the check is not due writes no [ecc_errors]. *)
Lemma get_metrics_device_keeps current_time i self items w self' items' w' :
  Qle_bool 60 (current_time - _last_ecc_check self) = false ->
  ecc_only_first items ->
  get_metrics_deviceF current_time i (self, items, w) = (Some (self', items'), w') ->
  ecc_only_first items'.
Proof.
  intros Due Hitems. unfold get_metrics_device.
  destruct (nvml_query i w) as [[reading|e] w0]; [|done].
  rewrite Due.
  destruct (Qle_bool 300 (current_time - _last_power_check _));
    [destruct (_check_power_errors World subprocess_run w0) as [[pe|] w2]|];
    (destruct (Qle_bool 86400 (current_time - _last_driver_check _));
     [destruct (_get_driver_version World subprocess_run _) as [dv w3]|]);
    destruct (_check_nvidia_smi_hang World subprocess_run _) as [ok w4];
    intros [= _ <- _]; intros k m Hk;
    rewrite ?dict_get_set_field, ?dict_get_set;
    (destruct (String.eqb (gpu_key i) k) eqn:Ek;
     [ simpl; intros [= <-]; by rewrite ?lookup_insert_ne by done
     | by apply Hitems ]).
Qed.

Lemma get_metrics_loop_keeps current_time indices self items w :
  Qle_bool 60 (current_time - _last_ecc_check self) = false ->
  ecc_only_first items ->
  ecc_only_first (get_metrics_loopF current_time indices (self, items, w)).1.2.
Proof.
  revert self items w. induction indices as [|i indices IH]; intros self items w Due Hitems;
    [done|].
  cbn [get_metrics_loop].
  destruct (get_metrics_deviceF current_time i (self, items, w))
    as [[[self' items']|] w'] eqn:E; [|exact Hitems].
  apply IH.
  - by apply (get_metrics_device_not_due _ _ _ _ _ _ _ _ E).
  - by apply (get_metrics_device_keeps _ _ _ _ _ _ _ _ Due Hitems E).
Qed.

(** The first iteration writes to the entry of its own device only. *)
Lemma get_metrics_device_first current_time self w self' items' w' :
  get_metrics_deviceF current_time 0 (self, [], w) = (Some (self', items'), w') ->
  ecc_only_first items'.
Proof.
  unfold get_metrics_device.
  destruct (nvml_query 0 w) as [[reading|e] w0]; [|done].
  destruct (Qle_bool 60 (current_time - _last_ecc_check self));
    [destruct (_check_ecc_errors World subprocess_run w0) as [ecc w1];
     destruct (ecc !! gpu_key 0)|];
    (destruct (Qle_bool 300 (current_time - _last_power_check _));
     [destruct (_check_power_errors World subprocess_run _) as [[pe|] w2]|]);
    (destruct (Qle_bool 86400 (current_time - _last_driver_check _));
     [destruct (_get_driver_version World subprocess_run _) as [dv w3]|]);
    destruct (_check_nvidia_smi_hang World subprocess_run _) as [ok w4];
    intros [= _ <- _]; intros k m Hk;
    rewrite ?dict_get_set_field, ?dict_get_set;
    (destruct (String.eqb (gpu_key 0) k) eqn:Ek;
     [ apply String.eqb_eq in Ek; congruence
     | unfold dict_get; by rewrite Ek ]).
Qed.

(** At every tick, on every machine, [get_metrics] gives an [ecc_errors]
    field to no device other than the first. *)
Lemma get_metrics_ecc_first_device_only current_time self w i m :
  (1 <= i)%nat ->
  dict_get (gpu_key i)
    (get_metrics World subprocess_run nvml_query current_time self w).1.1 = Some m ->
  m !! "ecc_errors" = None.
Proof.
  intros Hi. unfold get_metrics.
  assert (ecc_only_first
            (get_metrics_loopF current_time (seq 0 (device_count self)) (self, [], w)).1.2)
    as H.
  { destruct (device_count self) as [|n]; [done|].
    simpl seq. cbn [get_metrics_loop].
    destruct (get_metrics_deviceF current_time 0 (self, [], w))
      as [[[self' items']|] w'] eqn:E; [|by intros k m0 _].
    apply get_metrics_loop_keeps.
    - by apply (get_metrics_device_not_due _ _ _ _ _ _ _ _ E).
    - by apply (get_metrics_device_first _ _ _ _ _ _ E). }
  destruct (get_metrics_loopF _ _ _) as [[self' items'] w'] eqn:E. simpl in *.
  apply H. intros Hk. apply gpu_key_inj in Hk. lia.
Qed.

End SamplerFacts.

(** Closed goals are settled by evaluation, one conjunct at a time. *)
Ltac eval_conj :=
  repeat (lazymatch goal with |- _ /\ _ => split end);
  try first [reflexivity | vm_compute; reflexivity].

(** Discharges the hypotheses of [H], closed propositions, by evaluation. *)
Ltac feed H :=
  repeat (lazymatch type of H with
          | ?A -> _ =>
            let a := fresh in
            assert (a : A)
              by first [reflexivity | vm_compute; reflexivity | lia | discriminate];
            specialize (H a); clear a
          end).

(** C3. On a machine with two devices, at a tick at which the ECC check is
    due and reports a count for each device, [get_metrics] stores the count
    of the first device only: the check runs in the first iteration of the
    loop over the devices, which also records the time of the check, so for
    the second device the check is no longer due and its [ecc_errors] field
    stays unset, although the report holds a count of 3 for it. *)
Theorem ecc_check_reaches_first_device_only :
  let tick := get_metrics unit demo_shell demo_nvml 1700000000 demo_monitor tt in
  let report := (_check_ecc_errors unit demo_shell tt).1 in
  Qle_bool 60 (1700000000 - _last_ecc_check demo_monitor) = true
  /\ report !! "gpu_0" = Some 0
  /\ report !! "gpu_1" = Some 3
  /\ (dict_get "gpu_0" tick.1.1 ≫= fun m => m !! "ecc_errors") = Some (VInt 0)
  /\ (dict_get "gpu_1" tick.1.1 ≫= fun m => m !! "temperature") = Some (VInt 60)
  /\ (dict_get "gpu_1" tick.1.1 ≫= fun m => m !! "ecc_errors") = None
  /\ _last_ecc_check tick.1.2 = 1700000000%Q.
Proof. intros tick report. subst tick report. eval_conj. Qed.

(** ** More on the classifier *)

Section ClassifierMore.

Variable fmt_float : float -> string.
Variable fmt_percent1 : float -> string.
Variable fmt_sigma1 : float -> string.
Variable np_std : list value -> Result float.

Local Abbreviation classifyG := (classify fmt_float fmt_percent1 fmt_sigma1 np_std).
Local Abbreviation detectG := (detect fmt_float fmt_percent1 fmt_sigma1 np_std).

(** X1. For every window whose latest sample carries a liveness flag that
    is false in a boolean context, [detect] returns [CRITICAL] with the
    reason ["nvidia-smi 响应异常"] and leaves the detector as it was;
    nothing else of the window is looked at, so the result stands whatever
    the other fields hold or lack. *)
Theorem liveness_false_short_circuit (gpu_id : string) (self : GPUAnomalyDetector)
    (w : list Sample) (latest : Sample) (v : value) :
  history self !! gpu_id = Some w ->
  last w = Some latest ->
  latest !! "nvidia_smi_ok" = Some v ->
  truthy v = false ->
  detectG gpu_id self = (Ok (CRITICAL, "nvidia-smi 响应异常"), self).
Proof.
  intros Hw Hl Hv Ht. rewrite (detect_eq_classify _ _ _ _ _ _ _ _ Hw Hl). f_equal.
  apply (liveness_short_circuit _ _ _ _ _ _ latest Hl).
  unfold liveness_false. by rewrite Hv, Ht.
Qed.

Lemma run_updates_nonpositive ws calls gpu_id :
  ws <= 0 -> window (run_updates calls (GPUAnomalyDetector_init ws)) gpu_id = [].
Proof.
  intros Hws. revert gpu_id.
  induction calls as [|[g m] calls IH] using rev_ind; intros gpu_id; [done|].
  rewrite run_updates_snoc, update_eq, run_updates_window_size. unfold window at 1. simpl.
  destruct (decide (g = gpu_id)) as [->|Hne].
  - rewrite lookup_insert_eq. simpl. rewrite IH. unfold evict. simpl.
    by replace (ws <? Z.of_nat 1) with true by (symmetry; apply Z.ltb_lt; lia).
  - rewrite lookup_insert_ne by done. apply IH.
Qed.

(** X2. A detector whose [window_size] is zero or negative never keeps a
    sample: after any sequence of [update] calls the window of every device
    is empty, and [detect] answers [CRITICAL] with ["无监控数据"]. *)
Theorem nonpositive_window_size_never_has_data (ws : Z)
    (calls : list (string * Sample)) (gpu_id : string) :
  ws <= 0 ->
  let self := run_updates calls (GPUAnomalyDetector_init ws) in
  window self gpu_id = []
  /\ detectG gpu_id self = (Ok (CRITICAL, "无监控数据"), self).
Proof.
  intros Hws self. pose proof (run_updates_nonpositive ws calls gpu_id Hws) as Hw.
  split; [exact Hw|]. rewrite detect_eq. f_equal.
  fold self in Hw. unfold window in Hw.
  destruct (history self !! gpu_id) as [[|x k]|]; simpl in Hw; done.
Qed.

(** X3. The status [detect] returns is exactly the one the conditions
    call for: [CRITICAL] only if a critical condition holds of the window,
    [FLUCTUATING] only if a fluctuating condition holds and no critical
    one, [NORMAL] only if neither holds. The conditions are taken on what
    the code computes: the memory ratio is the double the division gives,
    the standard deviations are those numpy gives, and the bounds are the
    doubles of the thresholds. *)
Theorem detect_status_exact (gpu_id : string) (self : GPUAnomalyDetector)
    (s : GPUStatus) (reason : string) :
  (detectG gpu_id self).1 = Ok (s, reason) ->
  s = status_of np_std (thresholds self) (window self gpu_id).
Proof.
  rewrite detect_eq. unfold window, status_of. simpl.
  destruct (history self !! gpu_id) as [[|m w]|]; simpl.
  - by intros [= <- _].
  - apply classify_status.
  - by intros [= <- _].
Qed.

Lemma append_empty_r (s : string) : s +:+ "" = s.
Proof.
  induction s as [|c s IH]; [done|].
  change (String c s +:+ "") with (String c (s +:+ "")). by rewrite IH.
Qed.

Lemma join_cons_prefix (sep x : string) (l : list string) :
  exists rest, join sep (x :: l) = x +:+ rest.
Proof.
  destruct l as [|y l].
  - exists "". symmetry. apply append_empty_r.
  - eexists. reflexivity.
Qed.

(** The description of a normal device is never empty, so the fall-back
    text is never used. *)
Lemma fallback_unused (c : ascii) (load : string) (tags : list string) :
  (if String.eqb (join " | " (String c load :: tags)) "" then "正常运行"
   else join " | " (String c load :: tags))
  = join " | " (String c load :: tags).
Proof. destruct (join_cons_prefix " | " (String c load) tags) as [rest ->]. done. Qed.

Lemma classify_normal_reason th w reason :
  classifyG th w = Ok (NORMAL, reason) ->
  exists latest u rest,
    last w = Some latest
    /\ num_field "utilization_gpu" latest = Some u
    /\ reason = load_bucket th u +:+ rest
    /\ reason <> "正常运行".
Proof.
  unfold classify, load_tag, driver_tag, split_first, load_bucket, num_field,
    key_and, py_ge, py_gt, py_lt, py_gt_int, py_num, getitem.
  destruct (last w) as [latest|]; [|done].
  intros H. exists latest. revert H.
  exec.
  all: try match goal with
           | |- context [if ?b then "高负载" else _] => destruct b eqn:?
           end.
  all: match goal with
       | |- context [join ?sep (String ?c ?x :: ?l)] =>
         rewrite (fallback_unused c x l)
       end.
  all: match goal with
       | |- context [join ?sep (?x :: ?l)] =>
         destruct (join_cons_prefix sep x l) as [rest ->]
       end.
  all: intros [= <-].
  all: eexists _, _; split; [reflexivity|]; split; [reflexivity|].
  all: repeat match goal with H : xlt _ _ = _ |- _ => rewrite H; clear H end.
  all: split; [reflexivity | discriminate].
Qed.

(** X4. Whenever [detect] returns [NORMAL], the reason starts with the
    load bucket of the latest utilisation: ["低负载"] below [util_low],
    ["高负载"] above [util_normal], ["正常负载"] otherwise. The description
    is thus never empty, and the fall-back text ["正常运行"] is never
    returned. *)
Theorem normal_reason_starts_with_load_bucket (gpu_id : string)
    (self : GPUAnomalyDetector) (reason : string) :
  (detectG gpu_id self).1 = Ok (NORMAL, reason) ->
  exists latest u rest,
    last (window self gpu_id) = Some latest
    /\ num_field "utilization_gpu" latest = Some u
    /\ reason = load_bucket (thresholds self) u +:+ rest
    /\ reason <> "正常运行".
Proof.
  rewrite detect_eq. unfold window. simpl.
  destruct (history self !! gpu_id) as [[|m w]|]; simpl; [done| |done].
  apply classify_normal_reason.
Qed.

End ClassifierMore.

(** ** More on the history windows and the subscribers *)

Section WindowsMore.

Variable fmt_float : float -> string.
Variable fmt_percent1 : float -> string.
Variable fmt_sigma1 : float -> string.
Variable np_std : list value -> Result float.

Local Abbreviation classifyH := (classify fmt_float fmt_percent1 fmt_sigma1 np_std).
Local Abbreviation detectH := (detect fmt_float fmt_percent1 fmt_sigma1 np_std).

(** X5. While a window holds fewer than three samples, [detect] gives
    what the classification of its latest sample alone gives: the older
    sample plays no part. *)
Theorem short_window_classified_on_latest (gpu_id : string)
    (self : GPUAnomalyDetector) (w : list Sample) (latest : Sample) :
  history self !! gpu_id = Some w ->
  last w = Some latest ->
  (length w < 3)%nat ->
  (detectH gpu_id self).1 = classifyH (thresholds self) [latest].
Proof.
  intros Hw Hl Hlen. rewrite (detect_eq_classify _ _ _ _ _ _ _ _ Hw Hl). simpl.
  unfold classify. rewrite Hl. simpl last.
  assert (std_warnings fmt_sigma1 np_std (thresholds self) w = Ok []) as ->.
  { unfold std_warnings.
    by replace (3 <=? length w)%nat with false by (symmetry; apply Nat.leb_gt; lia). }
  reflexivity.
Qed.

(** X6. Two [update] calls for different devices commute, and an
    [update] for one device leaves the window of the other as it was. *)
Theorem updates_of_distinct_devices_commute (g1 g2 : string) (m1 m2 : Sample)
    (self : GPUAnomalyDetector) :
  g1 <> g2 ->
  (update g2 m2 (update g1 m1 self).2).2 = (update g1 m1 (update g2 m2 self).2).2
  /\ window (update g2 m2 (update g1 m1 self).2).2 g1
     = window (update g1 m1 self).2 g1.
Proof.
  intros Hne. rewrite !update_eq. simpl. unfold window. simpl.
  rewrite !lookup_insert_ne by done. split.
  - f_equal. by apply insert_insert_ne.
  - by rewrite lookup_insert_eq.
Qed.

End WindowsMore.

Lemma dict_set_fresh {V} (k : string) (v : V) (d : list (string * V)) :
  k ∉ d.*1 -> dict_set k v d = (d ++ [(k, v)])%list.
Proof.
  induction d as [|[k' v'] d IH]; simpl; intros Hk; [done|].
  rewrite not_elem_of_cons in Hk. destruct Hk as [Hne Hk].
  replace (String.eqb k' k) with false
    by (symmetry; apply String.eqb_neq; congruence).
  by rewrite IH.
Qed.


(** ** More on the coordinator *)

Lemma list_remove_spec (x : Conn) (l : list Conn) :
  match list_remove x l with
  | Ok l' => exists l1 l2, l = (l1 ++ x :: l2)%list /\ (x ∉ l1) /\ l' = (l1 ++ l2)%list
  | Raise e => e = ValueError /\ x ∉ l
  end.
Proof.
  induction l as [|y l IH]; simpl.
  - split; [done | apply not_elem_of_nil].
  - destruct (Nat.eqb y x) eqn:E.
    + apply Nat.eqb_eq in E. subst y. exists [], l. split; [done|].
      split; [apply not_elem_of_nil | done].
    + apply Nat.eqb_neq in E.
      destruct (list_remove x l) as [l'|e]; simpl.
      * destruct IH as (l1 & l2 & -> & Hx & ->). exists (y :: l1), l2.
        split; [done|]. split; [|done].
        rewrite not_elem_of_cons. split; [congruence | done].
      * destruct IH as [-> Hx]. split; [done|].
        rewrite not_elem_of_cons. split; [congruence | done].
Qed.

(** X7. [disconnect] removes the first occurrence of the socket from the
    subscriber list and keeps the others in their order; it raises, with
    [ValueError], exactly when the socket is not in the list. *)
Theorem disconnect_removes_first_occurrence (websocket : Conn)
    (self : WebSocketManager) :
  match disconnect websocket self with
  | Ok self' =>
    exists l1 l2,
      active_connections self = (l1 ++ websocket :: l2)%list
      /\ (websocket ∉ l1)
      /\ self' = set_active_connections (l1 ++ l2)%list self
  | Raise e => e = ValueError /\ websocket ∉ active_connections self
  end.
Proof.
  unfold disconnect.
  pose proof (list_remove_spec websocket (active_connections self)) as H.
  destruct (list_remove websocket (active_connections self)) as [l'|e]; simpl.
  - destruct H as (l1 & l2 & H1 & H2 & ->). eauto.
  - exact H.
Qed.

(** X8. [connect] followed by [disconnect], for a socket that was not
    subscribed, gives back the manager as it was. *)
Theorem connect_then_disconnect_restores (websocket : Conn) (self : WebSocketManager) :
  websocket ∉ active_connections self ->
  disconnect websocket (connect websocket self) = Ok self.
Proof.
  intros Hnot. unfold disconnect, connect. simpl.
  assert (forall l : list Conn, websocket ∉ l ->
            list_remove websocket (l ++ [websocket]) = Ok l) as Hrem.
  { induction l as [|y l IH]; simpl; intros Hl.
    - by rewrite Nat.eqb_refl.
    - rewrite not_elem_of_cons in Hl. destruct Hl as [Hy Hl].
      replace (Nat.eqb y websocket) with false
        by (symmetry; apply Nat.eqb_neq; congruence).
      by rewrite (IH Hl). }
  rewrite (Hrem _ Hnot). simpl. by destruct self.
Qed.

Section CoordinatorMore.

Variable fmt_float : float -> string.
Variable fmt_percent1 : float -> string.
Variable fmt_sigma1 : float -> string.
Variable np_std : list value -> Result float.

Local Abbreviation status_loopK := (status_loop fmt_float fmt_percent1 fmt_sigma1 np_std).
Local Abbreviation broadcast_toK := (broadcast_to fmt_float fmt_percent1 fmt_sigma1 np_std).
Local Abbreviation broadcastK := (broadcast fmt_float fmt_percent1 fmt_sigma1 np_std).

Lemma status_loop_keys items info0 det info det' :
  status_loopK items info0 det = (Ok info, det') ->
  NoDup (info0.*1 ++ items.*1) ->
  Forall (fun entry => exists s, entry.2.1 = GPUStatus_value s) info0 ->
  info.*1 = (info0.*1 ++ items.*1)%list
  /\ Forall (fun entry => exists s, entry.2.1 = GPUStatus_value s) info.
Proof.
  revert info0 det. induction items as [|[g m] items IH]; intros info0 det.
  - simpl. intros [= <- <-] _ Hv. by rewrite app_nil_r.
  - rewrite status_loop_cons.
    destruct (detect _ _ _ _ g (update g m det).2).1 as [[s reason]|e]; [|done].
    intros Hloop Hnd Hv. simpl in Hnd.
    assert (g ∉ info0.*1) as Hg.
    { apply NoDup_app in Hnd as (_ & Hd & _). intros Hin.
      apply (Hd g Hin). apply elem_of_cons. by left. }
    rewrite dict_set_fresh in Hloop by done.
    apply IH in Hloop.
    + rewrite fmap_app in Hloop. simpl in Hloop. rewrite <- app_assoc in Hloop.
      exact Hloop.
    + rewrite fmap_app. simpl. rewrite <- app_assoc. exact Hnd.
    + apply Forall_app. split; [done|]. apply Forall_singleton. by exists s.
Qed.

Lemma broadcast_to_sent send_json c data data0 self io :
  NoDup (metrics data0).*1 ->
  timestamp data = timestamp data0 ->
  metrics data = metrics data0 ->
  let st := broadcast_toK send_json c (data, self, io) in
  timestamp st.1.1 = timestamp data0
  /\ metrics st.1.1 = metrics data0
  /\ (sent st.2 = sent io
      \/ exists env, sent st.2 = (sent io ++ [(c, env)])%list
                     /\ well_formed_envelope data0 env).
Proof.
  intros Hnd Ht Hm. unfold broadcast_to.
  destruct (status_loopK (metrics data) [] (anomaly_detector self))
    as [[info|e] det'] eqn:E; simpl; [|by eauto].
  apply status_loop_keys in E as [Hk Hv];
    [|simpl; by rewrite Hm | apply Forall_nil_2].
  simpl in Hk. rewrite Hm in Hk.
  destruct (send_json c (set_status info data)) as [u|e]; simpl; [|by eauto].
  split; [done|]. split; [done|]. right.
  exists (set_status info data). split; [done|].
  repeat split; try done. by exists info.
Qed.

(** X9. For a snapshot whose device keys are distinct, as those of a
    dictionary are, every envelope that a broadcast hands to a socket goes
    to an active connection and is well formed: it has the time stamp and
    the device map of the snapshot and a status entry for each device of
    the map, in the order of the map, each holding one of the three status
    values. *)
Theorem delivered_envelopes_are_well_formed
    (send_json : Conn -> Envelope -> Result unit)
    (data : Envelope) (self : WebSocketManager) (io : Io)
    (c : Conn) (env : Envelope) :
  NoDup (metrics data).*1 ->
  (c, env) ∈ sent (broadcastK send_json data self io).2 ->
  (c, env) ∈ sent io
  \/ (c ∈ active_connections self /\ well_formed_envelope data env).
Proof.
  intros Hnd. unfold broadcast.
  assert (forall conns d s i,
            timestamp d = timestamp data -> metrics d = metrics data ->
            (c, env) ∈ sent (foldl (fun st c' => broadcast_toK send_json c' st)
                               (d, s, i) conns).2 ->
            (c, env) ∈ sent i \/ (c ∈ conns /\ well_formed_envelope data env)) as H.
  { induction conns as [|c' conns IH]; intros d s i Ht Hm; [by left|].
    rewrite foldl_cons_eq.
    pose proof (broadcast_to_sent send_json c' d data s i Hnd Ht Hm) as Hs.
    destruct (broadcast_toK send_json c' (d, s, i)) as [[d' s'] i'].
    simpl in Hs. destruct Hs as (Ht' & Hm' & Hsent).
    intros Hin. apply (IH d' s' i' Ht' Hm') in Hin as [Hin|[Hin Hwf]].
    - destruct Hsent as [Hs|(env' & Hs & Hwf)]; rewrite Hs in Hin; [by left|].
      apply elem_of_app in Hin as [Hin|Hin]; [by left|].
      apply list_elem_of_singleton in Hin. injection Hin as -> ->.
      right. split; [by left | done].
    - right. split; [by right | done]. }
  by apply H.
Qed.

End CoordinatorMore.

(** ** More on the sampler *)

Lemma dict_set_field_set (k field : string) (v : value) (m : Sample)
    (d : list (string * Sample)) :
  dict_set_field k field v (dict_set k m d) = dict_set k (<[field := v]> m) d.
Proof.
  unfold dict_set_field. rewrite dict_get_set, String.eqb_refl.
  induction d as [|[k' v'] d IH]; simpl.
  - by rewrite String.eqb_refl.
  - destruct (String.eqb k' k) eqn:E; simpl.
    + by rewrite String.eqb_refl.
    + by rewrite E, IH.
Qed.

Lemma basic_metrics_numeric (r : NvmlReading) (m : Sample) :
  (forall k, k <> "ecc_errors" -> k <> "power_error" -> k <> "driver_version" ->
             k <> "nvidia_smi_ok" -> m !! k = _get_basic_metrics r !! k) ->
  (match m !! "ecc_errors" with Some v => is_num (to_num v) | None => true end) = true ->
  latest_numeric m = true
  /\ (is_num (num_field "power_draw" m) = true
      /\ exists a b, m !! "memory_used" = Some (VInt a)
                     /\ m !! "memory_total" = Some (VInt b)).
Proof.
  intros Hm Hecc. unfold latest_numeric, num_field.
  rewrite Hecc, !Hm by done. split; [reflexivity|]. split; [reflexivity|].
  eexists _, _. split; reflexivity.
Qed.

Lemma gpu_key_fresh (a : nat) : gpu_key a ∉ gpu_key <$> seq 0 a.
Proof.
  intros (j & Hj & Hin)%list_elem_of_fmap.
  apply gpu_key_inj in Hj. subst j. apply elem_of_seq in Hin. lia.
Qed.

Lemma push_queue_ok {A} (x : A) (q : Queue A) :
  queue_ok q ->
  exists q',
    push x q = Some q'
    /\ maxsize q' = maxsize q
    /\ items q' = ((if full q then tail (items q) else items q) ++ [x])%list
    /\ queue_ok q'.
Proof.
  unfold queue_ok, push, full, get, put, qsize. destruct q as [ms l]. simpl.
  intros Hok.
  destruct (0 <? ms) eqn:Hms; simpl.
  - apply Z.ltb_lt in Hms. specialize (Hok Hms).
    destruct (ms <=? Z.of_nat (length l)) eqn:F.
    + apply Z.leb_le in F. destruct l as [|y r]; simpl in *; [lia|].
      replace (ms <=? Z.of_nat (length r)) with false
        by (symmetry; apply Z.leb_gt; lia).
      rewrite andb_false_r. eexists. split; [reflexivity|]. simpl.
      repeat split. rewrite length_app. simpl. lia.
    + simpl. rewrite F, andb_false_r. apply Z.leb_gt in F.
      eexists. split; [reflexivity|]. simpl.
      repeat split. rewrite length_app. simpl. lia.
  - rewrite Hms. simpl. eexists. split; [reflexivity|]. simpl.
    apply Z.ltb_ge in Hms. repeat split. lia.
Qed.

Section SamplerMore.

Variable World : Type.
Variable subprocess_run : string -> World -> option string * World.
Variable nvml_query : nat -> World -> Result NvmlReading * World.

Local Abbreviation get_metrics_deviceM :=
  (get_metrics_device World subprocess_run nvml_query).
Local Abbreviation get_metrics_loopM :=
  (get_metrics_loop World subprocess_run nvml_query).
Local Abbreviation get_metricsM :=
  (get_metrics World subprocess_run nvml_query).

(** One iteration: the entry it writes and the cadence it leaves. *)
Lemma get_metrics_device_entry current_time i self items w self' items' w' :
  get_metrics_deviceM current_time i (self, items, w) = (Some (self', items'), w') ->
  exists m,
    items' = dict_set (gpu_key i) m items
    /\ (latest_numeric m = true
        /\ (is_num (num_field "power_draw" m) = true
            /\ exists a b, m !! "memory_used" = Some (VInt a)
                           /\ m !! "memory_total" = Some (VInt b)))
    /\ (exists b, m !! "nvidia_smi_ok" = Some (VBool b))
    /\ m !! "driver_version" = Some (driver_value self')
    /\ (is_Some (m !! "ecc_errors") ->
        Qle_bool 60 (current_time - _last_ecc_check self) = true)
    /\ (is_Some (m !! "power_error") ->
        Qle_bool 300 (current_time - _last_power_check self) = true)
    /\ Qle_bool 60 (current_time - _last_ecc_check self') = false
    /\ Qle_bool 300 (current_time - _last_power_check self') = false.
Proof.
  unfold get_metrics_device.
  destruct (nvml_query i w) as [[reading|e] w0]; [|done].
  destruct (Qle_bool 60 (current_time - _last_ecc_check self)) eqn:DueE;
    [destruct (_check_ecc_errors World subprocess_run w0) as [ecc w1];
     destruct (ecc !! gpu_key i)|];
    (destruct (Qle_bool 300 (current_time - _last_power_check _)) eqn:DueP;
     [destruct (_check_power_errors World subprocess_run _) as [[pe|] w2]|]);
    (destruct (Qle_bool 86400 (current_time - _last_driver_check _));
     [destruct (_get_driver_version World subprocess_run _) as [dv w3]|]);
    destruct (_check_nvidia_smi_hang World subprocess_run _) as [ok w4];
    intros [= <- <- _]; rewrite ?dict_set_field_set;
    (eexists; split; [reflexivity|]);
    (split; [apply (basic_metrics_numeric reading);
             [intros k ? ? ? ?; by rewrite ?lookup_insert_ne by done
             | by rewrite ?lookup_insert_ne, ?lookup_insert_eq by done ]|]);
    (split; [exists ok; by rewrite lookup_insert_eq|]);
    (split; [by rewrite lookup_insert_ne, lookup_insert_eq by done|]);
    simpl in *;
    rewrite ?lookup_insert_ne by done;
    rewrite ?lookup_insert_eq, ?basic_metrics_no_ecc;
    repeat split; try done;
    try (intros [? ?]; done);
    try (apply Qle_bool_false; lra).
Qed.

Lemma get_metrics_device_runs current_time i self items w reading w0 :
  nvml_query i w = (Ok reading, w0) ->
  exists self' items' w',
    get_metrics_deviceM current_time i (self, items, w) = (Some (self', items'), w').
Proof.
  intros Hq. unfold get_metrics_device. rewrite Hq.
  destruct (Qle_bool 60 (current_time - _last_ecc_check self));
    [destruct (_check_ecc_errors World subprocess_run w0) as [ecc w1]|];
    (destruct (Qle_bool 300 (current_time - _last_power_check _));
     [destruct (_check_power_errors World subprocess_run _) as [pe w2]|]);
    (destruct (Qle_bool 86400 (current_time - _last_driver_check _));
     [destruct (_get_driver_version World subprocess_run _) as [dv w3]|]);
    destruct (_check_nvidia_smi_hang World subprocess_run _) as [ok w4];
    eauto.
Qed.

Lemma get_metrics_device_stops current_time i self items w e w0 :
  nvml_query i w = (Raise e, w0) ->
  get_metrics_deviceM current_time i (self, items, w) = (None, w0).
Proof. intros Hq. unfold get_metrics_device. by rewrite Hq. Qed.

(** The loop writes the entries of the devices it reaches, in order. *)
Lemma get_metrics_loop_keys current_time b a self items w :
  items.*1 = gpu_key <$> seq 0 a ->
  exists k,
    (a <= k <= a + b)%nat
    /\ (get_metrics_loopM current_time (seq a b) (self, items, w)).1.2.*1
       = gpu_key <$> seq 0 k
    /\ ((forall i w1, exists reading w2, nvml_query i w1 = (Ok reading, w2)) ->
        k = (a + b)%nat).
Proof.
  revert a self items w. induction b as [|b IH]; intros a self items w Hk.
  - exists a. simpl. split; [lia|]. split; [done|]. intros _. lia.
  - simpl seq. cbn [get_metrics_loop].
    destruct (nvml_query a w) as [[reading|e] w0] eqn:Hq.
    + destruct (get_metrics_device_runs current_time a self items w reading w0 Hq)
        as (self' & items' & w' & Hdev).
      rewrite Hdev.
      destruct (get_metrics_device_entry _ _ _ _ _ _ _ _ Hdev) as (m & -> & _).
      rewrite dict_set_fresh by (rewrite Hk; apply gpu_key_fresh).
      destruct (IH (S a) self' (items ++ [(gpu_key a, m)])%list w') as (k & Hk1 & Hk2 & Hk3).
      { by rewrite fmap_app, Hk, seq_S, fmap_app. }
      exists k. split; [lia|]. split; [done|]. intros Hall. specialize (Hk3 Hall). lia.
    + rewrite (get_metrics_device_stops _ _ _ _ _ _ _ Hq). simpl.
      exists a. split; [lia|]. split; [done|]. intros Hall.
      destruct (Hall a w) as (r & w2 & Hr). congruence.
Qed.

(** Past the first iteration no check is due, and the entries stay good. *)
Lemma get_metrics_loop_entries (ecc_due power_due : bool) current_time indices
    self items w :
  Qle_bool 60 (current_time - _last_ecc_check self) = false ->
  Qle_bool 300 (current_time - _last_power_check self) = false ->
  (forall k m, dict_get k items = Some m -> snapshot_entry_ok ecc_due power_due k m) ->
  forall k m,
    dict_get k (get_metrics_loopM current_time indices (self, items, w)).1.2 = Some m ->
    snapshot_entry_ok ecc_due power_due k m.
Proof.
  revert self items w.
  induction indices as [|i indices IH]; intros self items w DueE DueP Hitems; [done|].
  cbn [get_metrics_loop].
  destruct (get_metrics_deviceM current_time i (self, items, w))
    as [[[self' items']|] w'] eqn:E; [|exact Hitems].
  destruct (get_metrics_device_entry _ _ _ _ _ _ _ _ E)
    as (m0 & -> & Hnum & Hsmi & Hdrv & Hecc & Hpow & DueE' & DueP').
  apply IH; [done | done |].
  intros k m. rewrite dict_get_set.
  destruct (String.eqb (gpu_key i) k) eqn:Ek; [|apply Hitems].
  intros [= <-]. destruct Hnum as [Hnum Hpd].
  split; [done|]. split; [done|]. split; [done|]. split; [by rewrite Hdrv|].
  split; intros H; [apply Hecc in H | apply Hpow in H]; congruence.
Qed.

Lemma get_metrics_entries current_time self w k m :
  dict_get k (get_metricsM current_time self w).1.1 = Some m ->
  snapshot_entry_ok (Qle_bool 60 (current_time - _last_ecc_check self))
                    (Qle_bool 300 (current_time - _last_power_check self)) k m.
Proof.
  unfold get_metrics.
  destruct (get_metrics_loopM current_time (seq 0 (device_count self)) (self, [], w))
    as [[self' items'] w'] eqn:E. simpl.
  revert E. destruct (device_count self) as [|n]; simpl seq; cbn [get_metrics_loop].
  - by intros [= _ <- _].
  - destruct (get_metrics_deviceM current_time 0 (self, [], w))
      as [[[self1 items1]|] w1] eqn:E1; [|by intros [= _ <- _]].
    destruct (get_metrics_device_entry _ _ _ _ _ _ _ _ E1)
      as (m0 & -> & Hnum & Hsmi & Hdrv & Hecc & Hpow & DueE' & DueP').
    intros E Hget.
    pose proof (get_metrics_loop_entries
                  (Qle_bool 60 (current_time - _last_ecc_check self))
                  (Qle_bool 300 (current_time - _last_power_check self))
                  current_time (seq 1 n) self1 (dict_set (gpu_key 0) m0 []) w1
                  DueE' DueP') as Hloop.
    rewrite E in Hloop. cbn [fst snd] in Hloop. apply Hloop; [|done].
    intros k0 m1. rewrite dict_get_set.
    destruct (String.eqb (gpu_key 0) k0) eqn:Ek; [|done].
    apply String.eqb_eq in Ek. subst k0.
    intros [= <-]. destruct Hnum as [Hnum Hpd].
    split; [done|]. split; [done|]. split; [done|]. split; [by rewrite Hdrv|].
    split; intros H; (split; [done|]); [by apply Hecc | by apply Hpow].
Qed.

(** X10. The device map [get_metrics] returns holds the entries of the
    devices [gpu_0] to [gpu_(k-1)], in this order and without repetition,
    for some [k] up to [device_count]: an NVML read that raises drops its
    device and all later ones. When every NVML read succeeds,
    [k = device_count]. *)
Theorem snapshot_holds_leading_devices (current_time : Q) (self : GPUMonitor)
    (w : World) :
  exists k,
    (k <= device_count self)%nat
    /\ (get_metricsM current_time self w).1.1.*1 = gpu_key <$> seq 0 k
    /\ NoDup (get_metricsM current_time self w).1.1.*1
    /\ ((forall i w1, exists reading w2, nvml_query i w1 = (Ok reading, w2)) ->
        k = device_count self).
Proof.
  unfold get_metrics.
  destruct (get_metrics_loop_keys current_time (device_count self) 0 self [] w eq_refl)
    as (k & Hk1 & Hk2 & Hk3).
  destruct (get_metrics_loopM _ _ _) as [[self' items'] w']. simpl in *.
  exists k. split; [lia|]. split; [done|]. split; [|done].
  rewrite Hk2. apply NoDup_fmap_2; [|apply NoDup_seq].
  intros i j. apply gpu_key_inj.
Qed.

(** X11. A window made of samples that the sampler produced meets the
    preconditions of the classifier on the fields: in the latest sample
    numbers where it compares with bounds, integers for the two memory
    figures, a boolean liveness flag and a [driver_version] key, and in
    every sample a utilisation and a power draw, so that the two columns
    numpy is given exist. So for such a window [detect] returns the status
    the conditions call for as soon as the memory ratio can be computed,
    numpy computes the two standard deviations once the window has three
    samples and, where the normal description is built, the driver
    version has a token. *)
Theorem sampled_window_is_classified
    (fmt_float fmt_percent1 fmt_sigma1 : float -> string)
    (np_std : list value -> Result float)
    (gpu_id : string) (self : GPUAnomalyDetector)
    (w : list Sample) (latest : Sample) :
  history self !! gpu_id = Some w ->
  last w = Some latest ->
  Forall (sampled subprocess_run nvml_query) w ->
  latest_numeric latest = true
  /\ (exists a b, latest !! "memory_used" = Some (VInt a)
                  /\ latest !! "memory_total" = Some (VInt b))
  /\ is_Some (column "utilization_gpu" w)
  /\ is_Some (column "power_draw" w)
  /\ (exists b, latest !! "nvidia_smi_ok" = Some (VBool b))
  /\ is_Some (latest !! "driver_version")
  /\ (is_Some (memory_ratio latest) ->
      std_computed np_std w = true ->
      (status_of np_std (thresholds self) w = NORMAL ->
       driver_version_ok latest = true) ->
      exists reason,
        (detect fmt_float fmt_percent1 fmt_sigma1 np_std gpu_id self).1
        = Ok (status_of np_std (thresholds self) w, reason)).
Proof.
  intros Hw Hl Hs.
  assert (latest_numeric latest = true
          /\ (exists a b, latest !! "memory_used" = Some (VInt a)
                          /\ latest !! "memory_total" = Some (VInt b))
          /\ (exists b, latest !! "nvidia_smi_ok" = Some (VBool b))
          /\ is_Some (latest !! "driver_version")) as (Hn & Hmem & Hsmi & Hdrv).
  { assert (sampled subprocess_run nvml_query latest) as Hlat.
    { rewrite Forall_forall in Hs. apply Hs.
      destruct w as [|x w] using rev_ind; [done|].
      rewrite last_snoc in Hl. injection Hl as ->.
      apply elem_of_app. right. by apply list_elem_of_singleton. }
    destruct Hlat as (t & mon & world & k & Hm).
    apply get_metrics_entries in Hm as (? & (_ & ?) & ? & ? & _). done. }
  assert (is_Some (column "utilization_gpu" w)
          /\ is_Some (column "power_draw" w)) as [Hcu Hcp].
  { clear Hw Hl. unfold column.
    induction Hs as [|m w (t & mon & world & k & Hk) _ [[us IHu] [ps IHp]]];
      [split; by eexists|].
    apply get_metrics_entries in Hk as (Hnum & (Hpd & _) & _).
    rewrite !mapM_option_cons, IHu, IHp.
    revert Hnum Hpd. unfold latest_numeric, num_field.
    intros (_ & Hu)%andb_prop Hp.
    destruct (m !! "utilization_gpu"); [|done].
    destruct (m !! "power_draw"); [|done]. split; by eexists. }
  split; [done|]. split; [done|]. split; [done|]. split; [done|].
  split; [done|]. split; [done|].
  intros Hr Hstd Hok.
  rewrite (detect_eq_classify fmt_float fmt_percent1 fmt_sigma1 np_std _ _ _ _ Hw Hl).
  simpl. by apply (classify_returns _ _ _ _ _ _ latest).
Qed.

(** X12. In the device map of a tick, an [ecc_errors] field appears only
    in the entry of [gpu_0], and only if the ECC check was due when the
    tick started (60 s after the last one); a [power_error] field appears
    only in the entry of [gpu_0], and only if the power check was due
    (300 s after the last one). *)
Theorem slow_check_fields_only_when_due (current_time : Q) (self : GPUMonitor)
    (w : World) (k : string) (m : Sample) :
  dict_get k (get_metricsM current_time self w).1.1 = Some m ->
  (is_Some (m !! "ecc_errors") ->
   k = gpu_key 0 /\ Qle_bool 60 (current_time - _last_ecc_check self) = true)
  /\ (is_Some (m !! "power_error") ->
      k = gpu_key 0 /\ Qle_bool 300 (current_time - _last_power_check self) = true).
Proof.
  intros (_ & _ & _ & _ & Hecc & Hpow)%get_metrics_entries. done.
Qed.

(** X13. One turn of [_monitoring_loop] on a queue that is within its
    capacity never blocks: the new snapshot is appended, the oldest entry
    having been dropped when the queue was full; the capacity is unchanged
    and still respected. *)
Theorem monitoring_turn_never_blocks (now : Q) (self : GPUMonitor) (w : World) :
  queue_ok (data_queue self) ->
  exists self',
    (_monitoring_loop_turn World subprocess_run nvml_query now self w).1 = Some self'
    /\ queue_ok (data_queue self')
    /\ maxsize (data_queue self') = maxsize (data_queue self)
    /\ items (data_queue self')
       = ((if full (data_queue self) then tail (items (data_queue self))
           else items (data_queue self))
          ++ [(now, (get_metricsM now self w).1.1)])%list.
Proof.
  intros Hok. unfold _monitoring_loop_turn.
  assert (data_queue (get_metricsM now self w).1.2 = data_queue self) as Hq.
  { unfold get_metrics.
    assert (forall indices s it w0,
              data_queue (get_metrics_loopM now indices (s, it, w0)).1.1
              = data_queue s) as Hloop.
    { induction indices as [|i indices IH]; intros s it w0; [done|].
      cbn [get_metrics_loop].
      destruct (get_metrics_deviceM now i (s, it, w0)) as [[[s' it']|] w'] eqn:E;
        [|done].
      rewrite IH. revert E. unfold get_metrics_device.
      destruct (nvml_query i w0) as [[reading|e] w1]; [|done].
      destruct (Qle_bool 60 (now - _last_ecc_check s));
        [destruct (_check_ecc_errors World subprocess_run w1) as [ecc w2]|];
        (destruct (Qle_bool 300 (now - _last_power_check _));
         [destruct (_check_power_errors World subprocess_run _) as [pe w3]|]);
        (destruct (Qle_bool 86400 (now - _last_driver_check _));
         [destruct (_get_driver_version World subprocess_run _) as [dv w4]|]);
        destruct (_check_nvidia_smi_hang World subprocess_run _) as [ok w5];
        by intros [= <- _ _]. }
    specialize (Hloop (seq 0 (device_count self)) self [] w).
    by destruct (get_metrics_loopM _ _ _) as [[s' it'] w']. }
  destruct (get_metricsM now self w) as [[metrics' self1] w1] eqn:E. simpl in *.
  rewrite Hq.
  destruct (push_queue_ok (now, metrics') (data_queue self) Hok)
    as (q' & -> & Hms & Hitems & Hok').
  simpl. exists (set_data_queue q' self1). by simpl.
Qed.

Lemma ecc_of_lines_lookup (lines : list string) (a i : nat) (acc : gmap string Z) :
  ecc_of_lines a lines acc !! gpu_key i
  = match (if (a <=? i)%nat then lines !! (i - a)%nat ≫= ecc_count_of_line else None) with
    | Some n => Some n
    | None => acc !! gpu_key i
    end.
Proof.
  revert a acc. induction lines as [|line lines IH]; intros a acc.
  - simpl. by destruct (a <=? i)%nat.
  - cbn [ecc_of_lines]. unfold ecc_count_of_line at 1.
    destruct (a <=? i)%nat eqn:Ha.
    + apply Nat.leb_le in Ha. destruct (decide (a = i)) as [->|Hne].
      * rewrite Nat.sub_diag. simpl.
        destruct (parse_ecc_line line) as [n|e]; rewrite IH;
          replace (S i <=? i)%nat with false by (symmetry; apply Nat.leb_gt; lia);
          [by rewrite lookup_insert_eq | done].
      * replace (i - a)%nat with (S (i - S a)) by lia. simpl.
        destruct (parse_ecc_line line) as [n|e]; rewrite IH;
          replace (S a <=? i)%nat with true by (symmetry; apply Nat.leb_le; lia);
          [|done].
        rewrite lookup_insert_ne; [done|].
        intros Hk. apply gpu_key_inj in Hk. lia.
    + apply Nat.leb_gt in Ha.
      destruct (parse_ecc_line line) as [n|e]; rewrite IH;
        replace (S a <=? i)%nat with false by (symmetry; apply Nat.leb_gt; lia);
        [|done].
      rewrite lookup_insert_ne; [done|].
      intros Hk. apply gpu_key_inj in Hk. lia.
Qed.

(** X14. The count [_check_ecc_errors] reports for [gpu_i] is the one
    read off line [i] of the stripped output of the ECC command; a line
    that cannot be read yields no entry and does not shift the numbering of
    the lines after it; a failed command or an empty output yields no
    entry at all. *)
Theorem ecc_report_read_by_line (w : World) (i : nat) :
  (_check_ecc_errors World subprocess_run w).1 !! gpu_key i
  = match (subprocess_run ecc_command w).1 with
    | Some stdout =>
      if String.eqb (strip stdout) "" then None
      else split_on LF (strip stdout) !! i ≫= ecc_count_of_line
    | None => None
    end.
Proof.
  unfold _check_ecc_errors, _run_command, ecc_command.
  destruct (subprocess_run _ w) as [[stdout|] w']; simpl; [|done].
  destruct (String.eqb (strip stdout) ""); simpl; [done|].
  rewrite ecc_of_lines_lookup. simpl. rewrite Nat.sub_0_r.
  by destruct (split_on LF (strip stdout) !! i ≫= ecc_count_of_line).
Qed.

End SamplerMore.

(** ** The dashboard client *)

Lemma buffer_device_outcome status gpu_id metrics self :
  (buffer_device status gpu_id metrics self).1
  = match attach_status status gpu_id metrics with
    | Ok _ => Ok tt
    | Raise e => Raise e
    end.
Proof.
  unfold buffer_device.
  destruct (attach_status status gpu_id metrics) as [point|e].
  - destruct (dict_get gpu_id (data_buffer self)) as [points|] eqn:E; simpl.
    + rewrite E. destruct (_ <? _); [|done].
      by destruct points.
    + rewrite dict_get_set, String.eqb_refl. simpl.
      by destruct (_ <? _).
  - by destruct (dict_get gpu_id (data_buffer self)).
Qed.

Lemma buffer_loop_outcome status items self :
  (buffer_loop status items self).1
  = match status with
    | Some info =>
      match first_missing info items with
      | Some gpu_id => Raise (KeyError gpu_id)
      | None => Ok tt
      end
    | None => Ok tt
    end.
Proof.
  revert self. induction items as [|[g m] items IH]; intros self.
  - by destruct status.
  - cbn [buffer_loop first_missing].
    pose proof (buffer_device_outcome status g m self) as Hd.
    destruct (buffer_device status g m self) as [[[]|e] self']; simpl in Hd.
    + rewrite IH. destruct status as [info|]; [|done].
      simpl in Hd. by destruct (dict_get g info).
    + destruct status as [info|]; [|done].
      simpl in *. by destruct (dict_get g info).
Qed.

Lemma buffer_loop_timestamps status items self :
  timestamps (buffer_loop status items self).2 = timestamps self
  /\ max_points (buffer_loop status items self).2 = max_points self.
Proof.
  revert self. induction items as [|[g m] items IH]; intros self; [done|].
  cbn [buffer_loop].
  assert (timestamps (buffer_device status g m self).2 = timestamps self
          /\ max_points (buffer_device status g m self).2 = max_points self) as Hd.
  { unfold buffer_device.
    destruct (attach_status status g m) as [point|e];
      destruct (dict_get g (data_buffer self)) as [points|] eqn:E; simpl;
      rewrite ?E, ?dict_get_set, ?String.eqb_refl; simpl; try done.
    - destruct (_ <? _); [|done]. by destruct points.
    - by destruct (_ <? _). }
  destruct (buffer_device status g m self) as [[[]|e] self']; simpl in *; [|done].
  destruct (IH self') as [-> ->]. done.
Qed.

Lemma client_turn_outcome_eq (fromisoformat : string -> Result Q)
    (data : Envelope) (self : DashApp) :
  (websocket_client_turn fromisoformat data self).1
  = match fromisoformat (timestamp data) with
    | Raise e => Raise e
    | Ok _ =>
      match status data with
      | Some info =>
        match first_missing info (metrics data) with
        | Some gpu_id => Raise (KeyError gpu_id)
        | None => Ok tt
        end
      | None => Ok tt
      end
    end.
Proof.
  unfold websocket_client_turn.
  destruct (fromisoformat (timestamp data)) as [t|e]; [|done].
  set (self1 := set_timestamps _ self).
  pose proof (buffer_loop_outcome (status data) (metrics data) self1) as Ho.
  pose proof (buffer_loop_timestamps (status data) (metrics data) self1) as [Ht _].
  destruct (buffer_loop (status data) (metrics data) self1) as [[[]|e] self2];
    simpl in *; [|done].
  rewrite <- Ho. destruct (_ <? _); [|done].
  rewrite Ht. by destruct (timestamps self).
Qed.

Lemma first_missing_spec info (items : list (string * Sample)) :
  match first_missing info items with
  | None => forall g, g ∈ items.*1 -> is_Some (dict_get g info)
  | Some g => g ∈ items.*1 /\ dict_get g info = None
  end.
Proof.
  induction items as [|[k v] items IH]; simpl.
  - by intros g ?%elem_of_nil.
  - destruct (dict_get k info) as [entry|] eqn:E.
    + destruct (first_missing info items) as [g|].
      * destruct IH as [Hg Hn]. split; [by right | done].
      * intros g [->|Hg]%elem_of_cons; [by rewrite E | by apply IH].
    + split; [by left | done].
Qed.

Lemma first_missing_None info (items : list (string * Sample)) :
  (forall g, g ∈ items.*1 -> is_Some (dict_get g info)) ->
  first_missing info items = None.
Proof.
  intros H. pose proof (first_missing_spec info items) as Hs.
  destruct (first_missing info items) as [g|]; [|done].
  destruct Hs as [Hg Hn]. apply H in Hg. rewrite Hn in Hg. by destruct Hg.
Qed.

Lemma first_missing_split info (items : list (string * Sample)) g :
  first_missing info items = Some g ->
  exists pre m post,
    items = (pre ++ (g, m) :: post)%list
    /\ (forall k, k ∈ pre.*1 -> is_Some (dict_get k info))
    /\ dict_get g info = None.
Proof.
  induction items as [|[k v] items IH]; simpl; [done|].
  destruct (dict_get k info) as [entry|] eqn:E.
  - intros (pre & m & post & -> & Hpre & Hg)%IH.
    exists ((k, v) :: pre), m, post. split; [done|]. split; [|done].
    intros k' Hk'. simpl in Hk'. apply elem_of_cons in Hk' as [Hk'|Hk'];
      [subst; by eexists | by apply Hpre].
  - intros [= <-]. exists [], v, items. split; [done|]. split; [|done].
    by intros k' ?%elem_of_nil.
Qed.

(** X16. For a message of the shape of an envelope (a time stamp, a device
    map and possibly a status map), one turn of the client succeeds
    exactly when the time stamp parses and, if there is a status map, the
    map has an entry for every device of the message. Otherwise the
    exception is that of the time stamp, or [KeyError] for the first device
    of the message that the status map lacks: neither [pop(0)] nor a
    look-up in the buffers ever raises. *)
Theorem client_turn_outcome (fromisoformat : string -> Result Q)
    (data : Envelope) (self : DashApp) :
  let r := (websocket_client_turn fromisoformat data self).1 in
  (r = Ok tt <->
   returns (fromisoformat (timestamp data))
   /\ forall info, status data = Some info ->
                   forall g, g ∈ (metrics data).*1 -> is_Some (dict_get g info))
  /\ (forall e, r = Raise e ->
                fromisoformat (timestamp data) = Raise e
                \/ exists info pre g m post,
                     status data = Some info /\ e = KeyError g
                     /\ metrics data = (pre ++ (g, m) :: post)%list
                     /\ (forall k, k ∈ pre.*1 -> is_Some (dict_get k info))
                     /\ dict_get g info = None).
Proof.
  intros r. subst r. rewrite client_turn_outcome_eq.
  destruct (fromisoformat (timestamp data)) as [t|e0].
  - destruct (status data) as [info|].
    + pose proof (first_missing_spec info (metrics data)) as Hs.
      destruct (first_missing info (metrics data)) as [g|] eqn:Ef.
      * destruct Hs as [Hg Hn]. split.
        -- split; [done|]. intros [_ H]. specialize (H info eq_refl g Hg).
           rewrite Hn in H. by destruct H.
        -- intros e [= <-]. right.
           destruct (first_missing_split _ _ _ Ef) as (pre & m & post & ? & ? & ?).
           by exists info, pre, g, m, post.
      * split; [|done]. split; [|done]. intros _. split; [by exists t|].
        by intros info' [= <-].
    + split; [|done]. split; [|done]. intros _. split; [by exists t | done].
  - split.
    + split; [done|]. by intros [[t Ht] _].
    + intros e [= <-]. by left.
Qed.

Lemma dict_set_set {V} (k : string) (v v' : V) (d : list (string * V)) :
  dict_set k v (dict_set k v' d) = dict_set k v d.
Proof.
  induction d as [|[k0 v0] d IH]; simpl.
  - by rewrite String.eqb_refl.
  - destruct (String.eqb k0 k) eqn:E; simpl.
    + by rewrite String.eqb_refl.
    + by rewrite E, IH.
Qed.

Lemma dict_set_Forall {V} (P : string * V -> Prop) k v (d : list (string * V)) :
  Forall P d -> P (k, v) -> Forall P (dict_set k v d).
Proof.
  intros Hd Hk. induction Hd as [|[k0 v0] d H0 Hd IH]; simpl.
  - by apply Forall_singleton.
  - destruct (String.eqb k0 k); by constructor.
Qed.

Lemma dict_get_elem_of {V} k (v : V) (d : list (string * V)) :
  dict_get k d = Some v -> (k, v) ∈ d.
Proof.
  induction d as [|[k0 v0] d IH]; simpl; [done|].
  destruct (String.eqb k0 k) eqn:E.
  - apply String.eqb_eq in E. intros [= ->]. subst. by left.
  - intros H. right. by apply IH.
Qed.

Lemma dict_get_is_Some {V} k (d : list (string * V)) :
  k ∈ d.*1 -> is_Some (dict_get k d).
Proof.
  induction d as [|[k0 v0] d IH]; simpl.
  - by intros ?%elem_of_nil.
  - destruct (String.eqb k0 k) eqn:E; [done|].
    apply String.eqb_neq in E.
    intros [?|?]%elem_of_cons; [congruence | by apply IH].
Qed.

(** What one pass of the loop does to the buffers. *)
Lemma buffer_device_buffer status gpu_id metrics self point :
  attach_status status gpu_id metrics = Ok point ->
  (buffer_device status gpu_id metrics self).2
  = set_data_buffer
      (dict_set gpu_id
         (pop_over (max_points self)
            (default [] (dict_get gpu_id (data_buffer self)) ++ [point]))
         (data_buffer self)) self.
Proof.
  intros Ha. unfold buffer_device, pop_over. rewrite Ha.
  destruct (dict_get gpu_id (data_buffer self)) as [points|] eqn:E; simpl.
  - rewrite E. destruct (_ <? _); [|done].
    destruct points as [|x points]; simpl; unfold set_data_buffer; simpl;
      by rewrite dict_set_set.
  - rewrite dict_get_set, String.eqb_refl. simpl.
    destruct (_ <? _); unfold set_data_buffer; simpl; by rewrite !dict_set_set.
Qed.

Lemma buffer_device_failed status gpu_id metrics self e :
  attach_status status gpu_id metrics = Raise e ->
  (buffer_device status gpu_id metrics self).2
  = match dict_get gpu_id (data_buffer self) with
    | None => set_data_buffer (dict_set gpu_id [] (data_buffer self)) self
    | Some _ => self
    end.
Proof.
  intros Ha. unfold buffer_device. rewrite Ha.
  by destruct (dict_get gpu_id (data_buffer self)).
Qed.

Lemma pop_over_bounded {A} (cap : Z) (l : list A) (x : A) :
  0 <= cap ->
  Z.of_nat (length l) <= cap ->
  Z.of_nat (length (pop_over cap (l ++ [x]))) <= cap.
Proof.
  intros Hc Hl. unfold pop_over.
  destruct (cap <? _) eqn:E.
  - destruct l as [|y l]; simpl in *; [lia|].
    rewrite length_app. simpl. lia.
  - by apply Z.ltb_ge in E.
Qed.

Lemma pop_over_last {A} (cap : Z) (l : list A) (x : A) :
  0 < cap -> last (pop_over cap (l ++ [x])) = Some x.
Proof.
  intros Hc. unfold pop_over.
  destruct (cap <? _) eqn:E; [|apply last_snoc].
  apply Z.ltb_lt in E.
  destruct l as [|y l]; simpl in *; [lia|]. apply last_snoc.
Qed.

Lemma buffer_device_bounded status gpu_id metrics self :
  0 <= max_points self ->
  buffers_bounded self ->
  buffers_bounded (buffer_device status gpu_id metrics self).2
  /\ max_points (buffer_device status gpu_id metrics self).2 = max_points self.
Proof.
  intros Hc Hb. unfold buffers_bounded in *.
  destruct (attach_status status gpu_id metrics) as [point|e] eqn:Ha.
  - rewrite (buffer_device_buffer _ _ _ _ _ Ha). simpl. split; [|done].
    apply dict_set_Forall; [done|]. simpl.
    apply pop_over_bounded; [done|].
    destruct (dict_get gpu_id (data_buffer self)) as [points|] eqn:E; simpl; [|lia].
    apply dict_get_elem_of in E.
    rewrite Forall_forall in Hb. apply (Hb _ E).
  - rewrite (buffer_device_failed _ _ _ _ _ Ha).
    destruct (dict_get gpu_id (data_buffer self)); [done|]. simpl. split; [|done].
    apply dict_set_Forall; [done|]. simpl. lia.
Qed.

Lemma buffer_loop_bounded status items self :
  0 <= max_points self ->
  buffers_bounded self ->
  buffers_bounded (buffer_loop status items self).2.
Proof.
  revert self. induction items as [|[g m] items IH]; intros self Hc Hb; [done|].
  cbn [buffer_loop].
  destruct (buffer_device_bounded status g m self Hc Hb) as [Hb' Hc'].
  destruct (buffer_device status g m self) as [[[]|e] self']; simpl in *; [|done].
  apply IH; [by rewrite Hc' | done].
Qed.

(** X17. With a capacity [max_points] that is not negative, a turn of the
    client keeps every device buffer within [max_points], whether it
    succeeds or raises, and keeps [max_points]. When it succeeds, the list
    of time stamps stays within [max_points] too; when it raises after the
    time stamp was parsed, the time stamp stays appended and none is
    dropped. *)
Theorem client_buffers_stay_bounded (fromisoformat : string -> Result Q)
    (data : Envelope) (self : DashApp) :
  0 <= max_points self ->
  buffers_bounded self ->
  let r := websocket_client_turn fromisoformat data self in
  buffers_bounded r.2
  /\ max_points r.2 = max_points self
  /\ (r.1 = Ok tt ->
      Z.of_nat (length (timestamps self)) <= max_points self ->
      Z.of_nat (length (timestamps r.2)) <= max_points self)
  /\ (forall e t,
        r.1 = Raise e -> fromisoformat (timestamp data) = Ok t ->
        timestamps r.2 = (timestamps self ++ [t])%list).
Proof.
  intros Hc Hb. unfold websocket_client_turn.
  destruct (fromisoformat (timestamp data)) as [t|e]; [|by simpl].
  set (self1 := set_timestamps _ self).
  pose proof (buffer_loop_bounded (status data) (metrics data) self1 Hc Hb) as Hb'.
  pose proof (buffer_loop_timestamps (status data) (metrics data) self1) as [Ht Hm].
  destruct (buffer_loop (status data) (metrics data) self1) as [[[]|e] self2];
    simpl in *.
  - rewrite Hm, Ht.
    pose proof (pop_over_bounded (max_points self) (timestamps self) t Hc) as Hp.
    unfold pop_over in Hp.
    destruct (_ <? _) eqn:E; simpl.
    + destruct (timestamps self ++ [t])%list as [|x ts] eqn:Ets; simpl in *.
      * by destruct (timestamps self).
      * split; [done|]. split; [done|]. split; [|done].
        intros _ Hl. by apply Hp.
    + rewrite Ht. split; [done|]. split; [done|]. split; [|done].
      intros _ Hl. by apply Hp.
  - split; [done|]. split; [done|]. split; [done|].
    intros e' t' _ [= <-]. done.
Qed.

Lemma buffer_device_other status gpu_id metrics self g :
  g <> gpu_id ->
  dict_get g (data_buffer (buffer_device status gpu_id metrics self).2)
  = dict_get g (data_buffer self).
Proof.
  intros Hne.
  assert (String.eqb gpu_id g = false) as Hf by (apply String.eqb_neq; congruence).
  destruct (attach_status status gpu_id metrics) as [point|e] eqn:Ha.
  - rewrite (buffer_device_buffer _ _ _ _ _ Ha). simpl.
    by rewrite dict_get_set, Hf.
  - rewrite (buffer_device_failed _ _ _ _ _ Ha).
    destruct (dict_get gpu_id (data_buffer self)); [done|]. simpl.
    by rewrite dict_get_set, Hf.
Qed.

Lemma buffer_loop_other status items self g :
  g ∉ items.*1 ->
  dict_get g (data_buffer (buffer_loop status items self).2)
  = dict_get g (data_buffer self).
Proof.
  revert self. induction items as [|[g' m'] items IH]; intros self Hg; [done|].
  cbn [buffer_loop]. simpl in Hg. apply not_elem_of_cons in Hg as [Hne Hg].
  pose proof (buffer_device_other status g' m' self g Hne) as Hd.
  destruct (buffer_device status g' m' self) as [[[]|e] self']; simpl in *; [|done].
  by rewrite IH.
Qed.

Lemma buffer_loop_last info items self g m :
  0 < max_points self ->
  NoDup items.*1 ->
  (forall k, k ∈ items.*1 -> is_Some (dict_get k info)) ->
  (g, m) ∈ items ->
  exists points entry,
    dict_get g (data_buffer (buffer_loop (Some info) items self).2) = Some points
    /\ dict_get g info = Some entry
    /\ last points
       = Some {| point_metrics := delete "status" m; point_status := Some entry |}.
Proof.
  revert self. induction items as [|[g' m'] items IH]; intros self Hc Hnd Hinfo Hin.
  - by apply elem_of_nil in Hin.
  - cbn [buffer_loop]. simpl in Hnd. apply NoDup_cons in Hnd as [Hg' Hnd].
    destruct (Hinfo g') as [entry He]; [simpl; by left|].
    assert (attach_status (Some info) g' m'
            = Ok {| point_metrics := delete "status" m'; point_status := Some entry |})
      as Ha by (simpl; by rewrite He).
    pose proof (buffer_device_outcome (Some info) g' m' self) as Ho.
    pose proof (buffer_device_buffer (Some info) g' m' self _ Ha) as Hs.
    rewrite Ha in Ho.
    destruct (buffer_device (Some info) g' m' self) as [[[]|e] self']; simpl in Ho, Hs;
      [|done].
    apply elem_of_cons in Hin as [[= -> ->]|Hin].
    + exists (pop_over (max_points self)
                (default [] (dict_get g' (data_buffer self))
                 ++ [{| point_metrics := delete "status" m';
                        point_status := Some entry |}])), entry.
      split; [|split; [done | by apply pop_over_last]].
      rewrite buffer_loop_other by done. subst self'. simpl.
      by rewrite dict_get_set, String.eqb_refl.
    + apply IH; [by subst self' | done | | done].
      intros k Hk. apply Hinfo. simpl. by right.
Qed.

Lemma status_color_known (s : GPUStatus) :
  status_color (GPUStatus_value s) <> "secondary".
Proof. by destruct s. Qed.

(** X18. The client takes what the coordinator delivers: for a well
    formed envelope whose time stamp parses, a turn of the client with a
    positive [max_points] succeeds, and for each device of the envelope the
    newest point of its buffer is the sample of the envelope with the
    status entry of that device; the alert [update_graphs] draws for it has
    the colour of that status, never the fall-back ['secondary']. *)
Theorem delivered_envelope_is_buffered (fromisoformat : string -> Result Q)
    (data env : Envelope) (self : DashApp) (t : Q) (g : string) (m : Sample) :
  well_formed_envelope data env ->
  NoDup (metrics data).*1 ->
  fromisoformat (timestamp env) = Ok t ->
  0 < max_points self ->
  (g, m) ∈ metrics env ->
  let r := websocket_client_turn fromisoformat env self in
  r.1 = Ok tt
  /\ exists points s reason,
       dict_get g (data_buffer r.2) = Some points
       /\ (status env ≫= dict_get g) = Some (GPUStatus_value s, reason)
       /\ last points
          = Some {| point_metrics := delete "status" m;
                    point_status := Some (GPUStatus_value s, reason) |}
       /\ alert_color {| point_metrics := delete "status" m;
                         point_status := Some (GPUStatus_value s, reason) |}
          = Ok (status_color (GPUStatus_value s))
       /\ status_color (GPUStatus_value s) <> "secondary".
Proof.
  intros (Hts & Hm & info & Hst & Hkeys & Hvals) Hnd Ht Hc Hin r.
  assert (forall k, k ∈ (metrics env).*1 -> is_Some (dict_get k info)) as Hinfo.
  { intros k Hk. apply dict_get_is_Some. by rewrite Hkeys, <- Hm. }
  pose proof (first_missing_None info (metrics env) Hinfo) as Hfm.
  split.
  { subst r. by rewrite client_turn_outcome_eq, Ht, Hst, Hfm. }
  subst r. unfold websocket_client_turn. rewrite Ht.
  set (self1 := set_timestamps _ self).
  destruct (buffer_loop_last info (metrics env) self1 g m Hc) as
    (points & [sv reason] & Hget & Hentry & Hlast);
    [by rewrite Hm | done | done |].
  assert (exists s, sv = GPUStatus_value s) as [s ->].
  { apply dict_get_elem_of in Hentry.
    rewrite Forall_forall in Hvals. by destruct (Hvals _ Hentry) as [s Hs]; exists s. }
  exists points, s, reason.
  split.
  { rewrite Hst.
    pose proof (buffer_loop_outcome (Some info) (metrics env) self1) as Ho.
    destruct (buffer_loop (Some info) (metrics env) self1) as [[[]|e] self2];
      simpl in *.
    - destruct (_ <? _); [|done]. by destruct (timestamps self2).
    - by rewrite Hfm in Ho. }
  split; [by rewrite Hst|]. split; [done|]. split; [done|].
  apply status_color_known.
Qed.

(** X19. The three renderings of a status tell the statuses apart: the
    values of [GPUStatus], the colours of [get_status_color] and the alert
    colours the dashboard looks up for the values. The table of the
    dashboard has an entry for every status value, so a status that was
    sent is never drawn with the fall-back colour; a point without status
    is, the default status ['normal'] not being in the table. *)
Theorem status_presentation_is_faithful (s1 s2 : GPUStatus) :
  (GPUStatus_value s1 = GPUStatus_value s2 -> s1 = s2)
  /\ (get_status_color s1 = get_status_color s2 -> s1 = s2)
  /\ (status_color (GPUStatus_value s1) = status_color (GPUStatus_value s2) -> s1 = s2)
  /\ status_color (GPUStatus_value s1) <> "secondary"
  /\ (forall latest,
        point_status latest = None ->
        point_metrics latest !! "status" = None ->
        alert_color latest = Ok "secondary").
Proof.
  split; [by destruct s1, s2|]. split; [by destruct s1, s2|].
  split; [by destruct s1, s2|]. split; [apply status_color_known|].
  intros latest Hs Hm. unfold alert_color. by rewrite Hs, Hm.
Qed.

(** ** Concrete cases *)

Abbreviation detect_demo := (detect float_str float_str float_str np_std_demo).
Abbreviation broadcast_demo := (broadcast float_str float_str float_str np_std_demo).

(** C1, as stated, fails: after one snapshot was pushed and the queue was
    read, the queue is not empty, and a second read with no push in between
    returns the same snapshot again. *)
Lemma read_leaves_queue_filled :
  let s : Snapshot := (1700000000%Q, [("gpu_0", sample_normal)]) in
  let q : Queue Snapshot := {| maxsize := 50; items := [s] |} in
  push s (Queue_init 50) = Some q
  /\ (get_current_data q).1 = [s]
  /\ items (get_current_data q).2 <> []
  /\ (get_current_data (get_current_data q).2).1 = [s].
Proof.
  intros s q. split; [reflexivity|]. split; [reflexivity|].
  split; [|reflexivity]. simpl. discriminate.
Qed.

(** C2, as stated, fails: of two subscribers the first refuses the
    envelope; the failure is logged and the second is served, but the first
    is still in the subscriber list after the broadcast. *)
Lemma failing_subscriber_stays :
  let data := envelope_of [("gpu_0", sample_normal)] in
  let st := broadcast_demo send_first_fails data (manager_with [1; 2]%nat) Io_init in
  (forall env, send_first_fails 1%nat env = Raise (OtherError "connection closed"))
  /\ logged st.2 = [("发送数据失败: ", OtherError "connection closed")]
  /\ (sent st.2).*1 = [2%nat]
  /\ In 1%nat (active_connections st.1.2).
Proof.
  intros data st. subst data st.
  split; [reflexivity|]. split; [reflexivity|].
  split; [reflexivity|].
  match goal with
  | |- In _ ?l => assert (l = [1; 2]%nat) as -> by reflexivity
  end.
  left. reflexivity.
Qed.

(** C4, as stated, fails: the reason is not the content of the power-error
    field alone. *)
Lemma power_error_reason_is_prefixed :
  let self := detector_with "gpu_0" [sample_power_error] in
  sample_power_error !! "nvidia_smi_ok" = Some (VBool true)
  /\ sample_power_error !! "power_error" = Some (VStr "Power Error")
  /\ (detect_demo "gpu_0" self).1 = Ok (CRITICAL, "供电异常: Power Error")
  /\ (detect_demo "gpu_0" self).1 <> Ok (CRITICAL, "Power Error").
Proof.
  intros self. subst self. eval_conj.
  match goal with
  | |- ?r <> _ =>
    assert (r = Ok (CRITICAL, "供电异常: Power Error")) as ->
      by reflexivity
  end.
  discriminate.
Qed.

(** C9, as stated, fails: one connection is active and the snapshot holds
    [gpu_0] and [gpu_1]; the driver query had failed, so [detect] raises on
    [gpu_0], the pass stops there, and the window of [gpu_1] receives no
    copy of its sample. *)
Lemma broadcast_skips_later_device :
  let data := envelope_of [("gpu_0", sample_no_driver); ("gpu_1", sample_normal)] in
  let st := broadcast_demo send_ok data (manager_with [7%nat]) Io_init in
  length (window (anomaly_detector st.1.2) "gpu_0") = 1%nat
  /\ window (anomaly_detector st.1.2) "gpu_1" = []
  /\ window (anomaly_detector st.1.2) "gpu_1" <> [sample_normal]
  /\ logged st.2 = [("发送数据失败: ", AttributeError)].
Proof.
  intros data st. subst data st. eval_conj.
  match goal with
  | |- ?w <> _ => assert (w = []) as -> by reflexivity
  end.
  discriminate.
Qed.


Lemma power_error_short_circuit_witness :
  detect_demo "gpu_0" (detector_with "gpu_0" [sample_normal; sample_power_error])
  = (Ok (CRITICAL, "供电异常: Power Error"),
     detector_with "gpu_0" [sample_normal; sample_power_error]).
Proof.
  pose proof (power_error_short_circuit float_str float_str float_str np_std_demo "gpu_0"
                (detector_with "gpu_0" [sample_normal; sample_power_error])
                [sample_normal; sample_power_error] sample_power_error "Power Error") as H.
  feed H. exact H.
Defined.

Lemma severity_ordering_witness :
  (detect_demo "gpu_0" (detector_with "gpu_0" [sample_temp (VInt 90)])).1
  = Ok (CRITICAL, "温度过高 (90°C)")
  /\ critical_condition default_thresholds [sample_temp (VInt 90)] = true
  /\ CRITICAL <> FLUCTUATING /\ CRITICAL <> NORMAL.
Proof.
  assert ((detect_demo "gpu_0" (detector_with "gpu_0" [sample_temp (VInt 90)])).1
          = Ok (CRITICAL, "温度过高 (90°C)")) as H by reflexivity.
  assert (critical_condition
            (thresholds (detector_with "gpu_0" [sample_temp (VInt 90)]))
            (window (detector_with "gpu_0" [sample_temp (VInt 90)]) "gpu_0") = true) as C
    by reflexivity.
  split; [exact H|]. split; [reflexivity|].
  exact (proj1 (severity_ordering float_str float_str float_str np_std_demo "gpu_0"
                  (detector_with "gpu_0" [sample_temp (VInt 90)])
                  CRITICAL "温度过高 (90°C)" H) C).
Defined.

Lemma temperature_boundaries_witness :
  (exists reason,
     (detect_demo "gpu_0" (detector_with "gpu_0" [sample_temp (VInt 85)])).1
     = Ok (CRITICAL, reason))
  /\ (exists reason,
       (detect_demo "gpu_0" (detector_with "gpu_0" [sample_temp (VInt 75)])).1
       = Ok (FLUCTUATING, reason))
  /\ (exists reason,
       (detect_demo "gpu_0"
          (detector_with "gpu_0" [sample_temp (VFloat (float_of_ratio 749 10))])).1
       = Ok (NORMAL, reason)).
Proof.
  pose proof (temperature_boundaries float_str float_str float_str np_std_demo "gpu_0"
                (detector_with "gpu_0" [sample_temp (VInt 85)])
                [sample_temp (VInt 85)] (sample_temp (VInt 85))
                (float_of_ratio 1000 10000) 85) as H1.
  pose proof (temperature_boundaries float_str float_str float_str np_std_demo "gpu_0"
                (detector_with "gpu_0" [sample_temp (VInt 75)])
                [sample_temp (VInt 75)] (sample_temp (VInt 75))
                (float_of_ratio 1000 10000) 75) as H2.
  pose proof (temperature_boundaries float_str float_str float_str np_std_demo "gpu_0"
                (detector_with "gpu_0" [sample_temp (VFloat (float_of_ratio 749 10))])
                [sample_temp (VFloat (float_of_ratio 749 10))]
                (sample_temp (VFloat (float_of_ratio 749 10)))
                (float_of_ratio 1000 10000)
                (5270618938907034 # 70368744177664)) as H3.
  feed H1. feed H2. feed H3.
  destruct H1 as (H1 & _ & _). destruct H2 as (_ & H2 & _). destruct H3 as (_ & _ & H3).
  split; [|split].
  - apply H1. reflexivity.
  - apply H2. reflexivity.
  - apply H3. reflexivity.
Defined.

Lemma history_window_bounded_fifo_witness :
  let calls := [("gpu_0", sample_temp (VInt 61)); ("gpu_1", sample_normal);
                ("gpu_0", sample_temp (VInt 62)); ("gpu_0", sample_temp (VInt 63))] in
  0 <= 2
  /\ window (run_updates calls (GPUAnomalyDetector_init 2)) "gpu_0"
     = last_n 2 (samples_of "gpu_0" calls)
  /\ last_n 2 (samples_of "gpu_0" calls)
     = [sample_temp (VInt 62); sample_temp (VInt 63)]
  /\ Z.of_nat (length (window (run_updates calls (GPUAnomalyDetector_init 2)) "gpu_0")) <= 2.
Proof.
  intros calls.
  assert (0 <= 2) as H by lia.
  destruct (history_window_bounded_fifo 2 calls "gpu_0" H) as (Hlen & Hw & _).
  split; [exact H|]. split; [exact Hw|]. split; [|exact Hlen].
  reflexivity.
Defined.

Lemma detect_deterministic_and_pure_witness :
  let self := detector_with "gpu_0" [sample_normal] in
  let other := {| window_size := 3;
                  history := {["gpu_0" := [sample_normal]; "gpu_1" := [sample_power_error]]};
                  thresholds := default_thresholds |} in
  (detect_demo "gpu_0" self).2 = self
  /\ (detect_demo "gpu_0" (detect_demo "gpu_0" self).2).1 = (detect_demo "gpu_0" self).1
  /\ (detect_demo "gpu_0" (detect_demo "gpu_0" self).2).2 = self
  /\ (detect_demo "gpu_0" other).1 = (detect_demo "gpu_0" self).1
  /\ (detect_demo "gpu_0" other).2 = other.
Proof.
  intros self other.
  pose proof (detect_deterministic_and_pure float_str float_str float_str np_std_demo
                "gpu_0" self other) as H.
  subst self other. feed H. exact H.
Defined.

Lemma broadcast_updates_per_connection_witness :
  let data := envelope_of [("gpu_0", sample_normal); ("gpu_1", sample_normal);
                           ("gpu_2", sample_power_error)] in
  let self := manager_with [1; 2; 3]%nat in
  let st := broadcast_demo send_first_fails data self Io_init in
  window (anomaly_detector st.1.2) "gpu_1"
  = Nat.iter 3 (append_evict 10 sample_normal) []
  /\ Nat.iter 3 (append_evict 10 sample_normal) []
     = [sample_normal; sample_normal; sample_normal].
Proof.
  intros data self st.
  pose proof (broadcast_updates_per_connection float_str float_str float_str
                np_std_demo send_first_fails data self Io_init
                [("gpu_0", sample_normal)] [("gpu_2", sample_power_error)]
                "gpu_1" sample_normal) as H.
  assert ("gpu_1" ∉ [("gpu_0", sample_normal)].*1) as Hpre.
  { simpl. intros [E|E]%elem_of_cons; [discriminate | by apply elem_of_nil in E]. }
  assert ("gpu_1" ∉ [("gpu_2", sample_power_error)].*1) as Hpost.
  { simpl. intros [E|E]%elem_of_cons; [discriminate | by apply elem_of_nil in E]. }
  assert (forall j, (j < length (active_connections self))%nat ->
            returns (status_loop float_str float_str float_str np_std_demo
                       [("gpu_0", sample_normal)] []
                       (Nat.iter j (serve float_str float_str float_str np_std_demo data)
                          (anomaly_detector self))).1) as Hret.
  { intros [|[|[|j]]] Hj; [| | |simpl in Hj; lia];
      apply returns_of_ok; vm_compute; reflexivity. }
  specialize (H eq_refl Hpre Hpost Hret).
  destruct H as (Hw & _ & _).
  split; [exact Hw|]. reflexivity.
Defined.


(** Instances of the further properties. *)

Lemma liveness_false_short_circuit_witness :
  detect_demo "gpu_0" (detector_with "gpu_0" [sample_normal; sample_smi_down])
  = (Ok (CRITICAL, "nvidia-smi 响应异常"),
     detector_with "gpu_0" [sample_normal; sample_smi_down]).
Proof.
  pose proof (liveness_false_short_circuit float_str float_str float_str np_std_demo "gpu_0"
                (detector_with "gpu_0" [sample_normal; sample_smi_down])
                [sample_normal; sample_smi_down] sample_smi_down (VBool false)) as H.
  feed H. exact H.
Defined.

Lemma nonpositive_window_size_never_has_data_witness :
  let calls := [("gpu_0", sample_normal); ("gpu_0", sample_temp (VInt 61))] in
  0 <= 0
  /\ window (run_updates calls (GPUAnomalyDetector_init 0)) "gpu_0" = []
  /\ detect_demo "gpu_0" (run_updates calls (GPUAnomalyDetector_init 0))
     = (Ok (CRITICAL, "无监控数据"), run_updates calls (GPUAnomalyDetector_init 0)).
Proof.
  intros calls.
  assert (0 <= 0) as H by lia.
  split; [exact H|].
  exact (nonpositive_window_size_never_has_data float_str float_str float_str np_std_demo
           0 calls "gpu_0" H).
Defined.

Lemma detect_status_exact_witness :
  (detect_demo "gpu_0" (detector_with "gpu_0" [sample_temp (VInt 80)])).1
  = Ok (FLUCTUATING, "温度偏高 (80°C)")
  /\ FLUCTUATING
     = status_of np_std_demo (thresholds (detector_with "gpu_0" [sample_temp (VInt 80)]))
         (window (detector_with "gpu_0" [sample_temp (VInt 80)]) "gpu_0").
Proof.
  assert ((detect_demo "gpu_0" (detector_with "gpu_0" [sample_temp (VInt 80)])).1
          = Ok (FLUCTUATING, "温度偏高 (80°C)")) as H by reflexivity.
  split; [exact H|].
  exact (detect_status_exact float_str float_str float_str np_std_demo "gpu_0"
           (detector_with "gpu_0" [sample_temp (VInt 80)]) FLUCTUATING
           "温度偏高 (80°C)" H).
Defined.

Lemma normal_reason_starts_with_load_bucket_witness :
  (detect_demo "gpu_0" (detector_with "gpu_0" [sample_normal])).1
  = Ok (NORMAL, "正常负载 | 驱动 535.104.05")
  /\ exists latest u rest,
       last (window (detector_with "gpu_0" [sample_normal]) "gpu_0") = Some latest
       /\ num_field "utilization_gpu" latest = Some u
       /\ "正常负载 | 驱动 535.104.05"
          = load_bucket (thresholds (detector_with "gpu_0" [sample_normal])) u +:+ rest
       /\ "正常负载 | 驱动 535.104.05" <> "正常运行".
Proof.
  assert ((detect_demo "gpu_0" (detector_with "gpu_0" [sample_normal])).1
          = Ok (NORMAL, "正常负载 | 驱动 535.104.05")) as H by reflexivity.
  split; [exact H|].
  exact (normal_reason_starts_with_load_bucket float_str float_str float_str np_std_demo
           "gpu_0" (detector_with "gpu_0" [sample_normal])
           "正常负载 | 驱动 535.104.05" H).
Defined.

Lemma short_window_classified_on_latest_witness :
  (detect_demo "gpu_0"
     (detector_with "gpu_0" [sample_temp (VInt 90); sample_normal])).1
  = classify float_str float_str float_str np_std_demo default_thresholds [sample_normal].
Proof.
  pose proof (short_window_classified_on_latest float_str float_str float_str np_std_demo
                "gpu_0" (detector_with "gpu_0" [sample_temp (VInt 90); sample_normal])
                [sample_temp (VInt 90); sample_normal] sample_normal) as H.
  feed H. exact H.
Defined.

Lemma updates_of_distinct_devices_commute_witness :
  let self := GPUAnomalyDetector_init 10 in
  (update "gpu_1" sample_normal (update "gpu_0" sample_smi_down self).2).2
  = (update "gpu_0" sample_smi_down (update "gpu_1" sample_normal self).2).2
  /\ window (update "gpu_1" sample_normal (update "gpu_0" sample_smi_down self).2).2
       "gpu_0"
     = window (update "gpu_0" sample_smi_down self).2 "gpu_0".
Proof.
  intros self.
  assert ("gpu_0" <> "gpu_1") as H by discriminate.
  exact (updates_of_distinct_devices_commute "gpu_0" "gpu_1" sample_smi_down
           sample_normal self H).
Defined.

Lemma connect_then_disconnect_restores_witness :
  disconnect 3%nat (connect 3%nat (manager_with [1; 2]%nat))
  = Ok (manager_with [1; 2]%nat).
Proof.
  apply (connect_then_disconnect_restores 3%nat (manager_with [1; 2]%nat)).
  simpl. intros H.
  apply elem_of_cons in H as [H|H]; [discriminate|].
  apply elem_of_cons in H as [H|H]; [discriminate|].
  by apply elem_of_nil in H.
Defined.

Lemma delivered_envelopes_are_well_formed_witness :
  let data := envelope_of [("gpu_0", sample_normal)] in
  (1%nat, demo_delivered) ∈ sent Io_init
  \/ (1%nat ∈ active_connections (manager_with [1; 2]%nat)
      /\ well_formed_envelope data demo_delivered).
Proof.
  intros data.
  apply (delivered_envelopes_are_well_formed float_str float_str float_str np_std_demo
           send_ok data (manager_with [1; 2]%nat) Io_init 1%nat demo_delivered).
  - simpl. apply NoDup_cons. split; [apply not_elem_of_nil | apply NoDup_nil_2].
  - assert (sent (broadcast_demo send_ok data (manager_with [1; 2]%nat) Io_init).2
            = [(1%nat, demo_delivered); (2%nat, demo_delivered)]) as -> by reflexivity.
    apply elem_of_cons. by left.
Defined.

Lemma sampled_window_is_classified_witness :
  latest_numeric (demo_sample "gpu_0") = true
  /\ is_Some (column "utilization_gpu" [demo_sample "gpu_1"; demo_sample "gpu_0"])
  /\ is_Some (column "power_draw" [demo_sample "gpu_1"; demo_sample "gpu_0"])
  /\ exists reason,
       (detect_demo "gpu_0"
          (detector_with "gpu_0" [demo_sample "gpu_1"; demo_sample "gpu_0"])).1
       = Ok (status_of np_std_demo default_thresholds
               [demo_sample "gpu_1"; demo_sample "gpu_0"],
             reason).
Proof.
  pose proof (sampled_window_is_classified unit demo_shell demo_nvml
                float_str float_str float_str np_std_demo "gpu_0"
                (detector_with "gpu_0" [demo_sample "gpu_1"; demo_sample "gpu_0"])
                [demo_sample "gpu_1"; demo_sample "gpu_0"] (demo_sample "gpu_0")) as H.
  feed H.
  assert (Forall (sampled demo_shell demo_nvml)
            [demo_sample "gpu_1"; demo_sample "gpu_0"]) as Hs.
  { apply Forall_cons. split.
    - exists 1700000000%Q, demo_monitor, tt, "gpu_1". reflexivity.
    - apply Forall_cons. split; [|apply Forall_nil_2].
      exists 1700000000%Q, demo_monitor, tt, "gpu_0". reflexivity. }
  destruct (H Hs) as (Hn & _ & Hcu & Hcp & _ & _ & Hret).
  split; [exact Hn|]. split; [exact Hcu|]. split; [exact Hcp|].
  apply Hret.
  - exists (float_of_ratio 1024 16384). reflexivity.
  - reflexivity.
  - intros _. reflexivity.
Defined.

Lemma slow_check_fields_only_when_due_witness :
  (is_Some (demo_sample "gpu_1" !! "ecc_errors") ->
   "gpu_1" = gpu_key 0 /\ Qle_bool 60 (1700000000 - _last_ecc_check demo_monitor) = true)
  /\ (is_Some (demo_sample "gpu_1" !! "power_error") ->
      "gpu_1" = gpu_key 0
      /\ Qle_bool 300 (1700000000 - _last_power_check demo_monitor) = true).
Proof.
  apply (slow_check_fields_only_when_due unit demo_shell demo_nvml 1700000000
           demo_monitor tt "gpu_1" (demo_sample "gpu_1")).
  reflexivity.
Defined.

Lemma monitoring_turn_never_blocks_witness :
  exists self',
    (_monitoring_loop_turn unit demo_shell demo_nvml 1700000000 demo_monitor tt).1
    = Some self'
    /\ queue_ok (data_queue self')
    /\ maxsize (data_queue self') = maxsize (data_queue demo_monitor)
    /\ items (data_queue self')
       = ((if full (data_queue demo_monitor) then tail (items (data_queue demo_monitor))
           else items (data_queue demo_monitor))
          ++ [(1700000000%Q,
               (get_metrics unit demo_shell demo_nvml 1700000000 demo_monitor tt).1.1)])%list.
Proof.
  apply (monitoring_turn_never_blocks unit demo_shell demo_nvml 1700000000
           demo_monitor tt).
  unfold queue_ok, qsize. simpl. lia.
Defined.

Lemma client_buffers_stay_bounded_witness :
  let r := websocket_client_turn demo_fromisoformat demo_delivered DashApp_init in
  buffers_bounded r.2
  /\ max_points r.2 = max_points DashApp_init
  /\ (r.1 = Ok tt ->
      Z.of_nat (length (timestamps DashApp_init)) <= max_points DashApp_init ->
      Z.of_nat (length (timestamps r.2)) <= max_points DashApp_init)
  /\ (forall e t,
        r.1 = Raise e -> demo_fromisoformat (timestamp demo_delivered) = Ok t ->
        timestamps r.2 = (timestamps DashApp_init ++ [t])%list).
Proof.
  apply (client_buffers_stay_bounded demo_fromisoformat demo_delivered DashApp_init).
  - simpl. lia.
  - apply Forall_nil_2.
Defined.

Lemma delivered_envelope_is_buffered_witness :
  let r := websocket_client_turn demo_fromisoformat demo_delivered DashApp_init in
  r.1 = Ok tt
  /\ exists points s reason,
       dict_get "gpu_0" (data_buffer r.2) = Some points
       /\ (status demo_delivered ≫= dict_get "gpu_0") = Some (GPUStatus_value s, reason)
       /\ last points
          = Some {| point_metrics := delete "status" sample_normal;
                    point_status := Some (GPUStatus_value s, reason) |}
       /\ alert_color {| point_metrics := delete "status" sample_normal;
                         point_status := Some (GPUStatus_value s, reason) |}
          = Ok (status_color (GPUStatus_value s))
       /\ status_color (GPUStatus_value s) <> "secondary".
Proof.
  apply (delivered_envelope_is_buffered demo_fromisoformat
           (envelope_of [("gpu_0", sample_normal)]) demo_delivered DashApp_init
           1704067200%Q "gpu_0" sample_normal).
  - split; [reflexivity|]. split; [reflexivity|].
    exists [("gpu_0", ("稳定", "正常负载 | 驱动 535.104.05"))].
    split; [reflexivity|]. split; [reflexivity|].
    apply Forall_cons. split; [by exists NORMAL | apply Forall_nil_2].
  - simpl. apply NoDup_cons. split; [apply not_elem_of_nil | apply NoDup_nil_2].
  - reflexivity.
  - simpl. lia.
  - simpl. apply elem_of_cons. by left.
Defined.

(** ** Examples *)

Example split_first_version : split_first "535.104.05  " = Ok "535.104.05".
Proof. reflexivity. Qed.
Example split_first_blank : split_first "  " = Raise IndexError.
Proof. reflexivity. Qed.
Example py_int_count : py_int " 12" = Ok 12.
Proof. reflexivity. Qed.
Example split_on_colon : split_on ":" "DRAM Uncorrectable : 3" = ["DRAM Uncorrectable "; " 3"].
Proof. reflexivity. Qed.

Example py_int_fullwidth : py_int "３" = Ok 3.
Proof. reflexivity. Qed.
Example py_int_separator : py_int (String "028" "5") = Raise ValueError.
Proof. reflexivity. Qed.
Example strip_separator : strip (String "028" "5") = "5".
Proof. reflexivity. Qed.
Example float_74_9 :
  float_num (float_of_ratio 749 10) = XFin (5270618938907034 # 70368744177664).
Proof. reflexivity. Qed.
Example truediv_overflows : py_truediv (VInt (10 ^ 400)) (VInt 1) = Raise OverflowError.
Proof. vm_compute. reflexivity. Qed.
Example truediv_rounds_once :
  py_truediv (VInt 18999999999999999) (VInt 20000000000000000)
  = Ok (memory_critical default_thresholds).
Proof. vm_compute. reflexivity. Qed.
Example truediv_float_zero :
  py_truediv (VInt 1) (VFloat (S754_zero true)) = Raise ZeroDivisionError.
Proof. reflexivity. Qed.
Example nan_compares_false :
  py_ge (VFloat S754_nan) (temp_warning default_thresholds) = Ok false
  /\ py_lt (VFloat S754_nan) (temp_warning default_thresholds) = Ok false.
Proof. split; reflexivity. Qed.
